(** * Web-Application-HRM: timesheet, overtime and cost-propagation logic

    A shallow embedding of
    - [src/app/api/timesheets/route.ts]  ([calculateOvertime], [POST]),
    - [src/lib/auth.ts]                  ([hasPermission]),
    - [init.sql]                         ([calculate_overtime_pay],
                                          [update_project_actual_cost]),
    - the two employee-creation handlers ([POST /api/employees]).

    Conventions of the embedding.
    - A JavaScript [Date] is its [getTime()] value: an integer number of
      milliseconds, in [Z].
    - A JavaScript number (hours, rates, pay) and a PostgreSQL [DECIMAL] are
      rationals, in [Q].  Equations between computed numbers are stated
      with [==] ([Qeq]).  An hour figure is the exact quotient of its
      milliseconds, where the code holds the double nearest to it.  Where
      the code rounds a computed number again ([toFixed(2)] on the hourly
      rate) the double-precision rounding of each operation is modelled, in
      [Double].
    - [setHours] works in local time.  The local zone is a fixed offset
      [tz] (milliseconds east of UTC), a variable of the section; a zone
      with daylight-saving transitions, where a calendar day can last 23 or
      25 hours, is not modelled.
    - The database is a record of finite maps keyed by primary key. *)

From Stdlib Require Import ZArith QArith Qminmax Qround Qpower Qabs Lqa Lia.
From stdpp Require Import base option gmap strings list fin_maps pretty.

Local Open Scope Z_scope.

(** ** JavaScript numbers and dates *)

Module JS.

(** [Math.max] and [Math.min] on two numbers. *)
Definition Math_max (a b : Q) : Q := Qmax a b.
Definition Math_min (a b : Q) : Q := Qmin a b.

(** One hour, [1000 * 60 * 60] milliseconds. *)
Definition MS_PER_HOUR : Z := 1000 * 60 * 60.
Definition MS_PER_DAY : Z := 24 * MS_PER_HOUR.

(** [ms / (1000 * 60 * 60)] as a number: the exact quotient. *)
Definition hoursOfMs (ms : Z) : Q := (inject_Z ms / inject_Z MS_PER_HOUR)%Q.

Section LocalTime.
(** Offset of the local zone, in milliseconds east of UTC. *)
Variable tz : Z.

(** Local midnight of the calendar day that contains [t]. *)
Definition startOfDay (t : Z) : Z := t - (t + tz) mod MS_PER_DAY.

(** [d.setHours(h, m, s, ms)]: same local calendar day, new time of day. *)
Definition setHours (t h m s ms : Z) : Z :=
  startOfDay t + h * MS_PER_HOUR + m * 60000 + s * 1000 + ms.
End LocalTime.

End JS.

Import JS.

(** ** Double-precision arithmetic *)

(** The value of [Number(x)] for a decimal [x] of the request, and of
    [a * b] and [a / b] on JavaScript numbers: the exact result rounded to
    the nearest IEEE 754 binary64 number, a tie going to the even
    significand.  Numbers below the normal range are rounded to a multiple
    of [2 ^ -1074] (gradual underflow).  The exponent has no upper bound
    here: a result beyond the largest finite double (about 1.8e308), which
    JavaScript turns into [Infinity], is outside the model. *)
Module Double.

(** Precision of the significand, and exponent of the smallest positive
    double. *)
Definition prec : Z := 53.
Definition emin : Z := -1074.

(** [floor (log2 y)] for [0 < y]. *)
Definition ilog2 (y : Q) : Z :=
  let k := Z.log2 (Qnum y) - Z.log2 (Zpos (Qden y)) in
  if Qle_bool (2 ^ k) y then k else k - 1.

(** The nearest integer, a tie going to the even one. *)
Definition roundEven (y : Q) : Z :=
  let f := Qfloor y in
  match (y - inject_Z f ?= 1 # 2)%Q with
  | Lt => f
  | Gt => f + 1
  | Eq => if Z.even f then f else f + 1
  end.

(** Exponent of the last place of the doubles around [y]. *)
Definition ulp (y : Q) : Z := Z.max (ilog2 y - (prec - 1)) emin.

Definition roundPos (y : Q) : Q :=
  let e := ulp y in
  (inject_Z (roundEven (y * 2 ^ (- e))) * 2 ^ e)%Q.

Definition round (x : Q) : Q :=
  match (x ?= 0)%Q with
  | Eq => 0%Q
  | Gt => roundPos x
  | Lt => (- roundPos (- x))%Q
  end.

Definition Number (x : Q) : Q := round x.
Definition mul (a b : Q) : Q := round (a * b).
Definition div (a b : Q) : Q := round (a / b).

End Double.

(** ** [calculateOvertime] (route.ts, lines 6-67) *)

Inductive PeriodType := normal | ot1_5 | ot2.

Record Period := {
  p_start : Z;
  p_end : Z;
  p_rate : Q;
  p_type : PeriodType
}.

Record OvertimeCalculation := {
  normalHours : Q;
  ot1_5Hours : Q;
  ot2Hours : Q;
  totalHours : Q;
  overtimePay : Q
}.

(** The three accumulators the [forEach] callback mutates. *)
Record Buckets := {
  b_normal : Q;
  b_ot1_5 : Q;
  b_ot2 : Q
}.

Section Overtime.
Variable tz : Z.

Definition periods (clockIn : Z) : list Period :=
  let standardStart := setHours tz clockIn 8 0 0 0 in
  let standardEnd := setHours tz clockIn 17 0 0 0 in
  let ot1_5Start := setHours tz clockIn 17 0 0 0 in
  let ot1_5End := setHours tz clockIn 23 59 59 999 in
  let ot2Start := setHours tz clockIn 0 0 0 0 in
  let ot2End := setHours tz clockIn 8 0 0 0 in
  [ {| p_start := standardStart; p_end := standardEnd; p_rate := 1; p_type := normal |};
    {| p_start := ot1_5Start; p_end := ot1_5End; p_rate := 1.5; p_type := ot1_5 |};
    {| p_start := ot2Start; p_end := ot2End; p_rate := 2; p_type := ot2 |} ].

(** Body of the [forEach] callback. *)
Definition accumulate (clockIn clockOut : Z) (acc : Buckets) (period : Period) : Buckets :=
  let periodStart := Z.max clockIn (p_start period) in
  let periodEnd := Z.min clockOut (p_end period) in
  if periodStart <? periodEnd then
    let hoursInPeriod := hoursOfMs (periodEnd - periodStart) in
    match p_type period with
    | normal =>
        {| b_normal := Math_min hoursInPeriod 8; b_ot1_5 := b_ot1_5 acc; b_ot2 := b_ot2 acc |}
    | ot1_5 =>
        {| b_normal := b_normal acc; b_ot1_5 := (b_ot1_5 acc + hoursInPeriod)%Q; b_ot2 := b_ot2 acc |}
    | ot2 =>
        {| b_normal := b_normal acc; b_ot1_5 := b_ot1_5 acc; b_ot2 := (b_ot2 acc + hoursInPeriod)%Q |}
    end
  else acc.

Definition calculateOvertime (clockIn clockOut : Z) (hourlyRate : Q) : OvertimeCalculation :=
  let totalMs := clockOut - clockIn in
  let totalHours := hoursOfMs totalMs in
  let acc := fold_left (accumulate clockIn clockOut) (periods clockIn)
               {| b_normal := 0; b_ot1_5 := 0; b_ot2 := 0 |} in
  {| normalHours := Math_max 0 (b_normal acc);
     ot1_5Hours := Math_max 0 (b_ot1_5 acc);
     ot2Hours := Math_max 0 (b_ot2 acc);
     totalHours := Math_max 0 totalHours;
     overtimePay := (b_ot1_5 acc * hourlyRate * 1.5 + b_ot2 acc * hourlyRate * 2)%Q |}.

End Overtime.

(** ** Data model: the tables the handlers and the trigger touch *)

Inductive TimesheetStatus := PENDING | APPROVED | REJECTED.

#[global] Instance TimesheetStatus_eq_dec : EqDecision TimesheetStatus.
Proof. solve_decision. Defined.

(** A row of [employees]; [hourlyRate] and [basicSalary] are [DECIMAL]s. *)
Record Employee := {
  e_employeeCode : string;
  e_firstName : option string;
  e_lastName : option string;
  e_email : option string;
  e_phone : option string;
  e_nric : option string;
  e_workPassType : option string;
  e_workPassNumber : option string;
  e_dateOfBirth : option Z;
  e_gender : option string;
  e_nationality : option string;
  e_maritalStatus : option string;
  e_joinDate : option Z;
  e_basicSalary : Q;
  e_hourlyRate : Q;
  e_bankName : option string;
  e_bankAccount : option string;
  e_employmentType : option string;
  e_department : option string;
  e_position : option string;
  e_companyId : option string
}.

(** A row of [timesheets], unique on [(employeeId, date)]. *)
Record Timesheet := {
  ts_employeeId : string;
  ts_date : Z;
  ts_clockIn : Z;
  ts_clockOut : Z;
  ts_breakMinutes : Q;
  ts_normalHours : Q;
  ts_ot1_5Hours : Q;
  ts_ot2Hours : Q;
  ts_totalHours : Q;
  ts_projectAssignmentId : option string;
  ts_status : TimesheetStatus
}.

Record ProjectAssignment := {
  pa_project_id : string
}.

(** A row of [projects]; a [DECIMAL] column may hold [NULL] ([None]). *)
Record Project := {
  pj_name : string;
  pj_estimated_cost : option Q;
  pj_actual_cost : option Q
}.

(** A row of [users], as the first employee handler creates it. *)
Record User := {
  u_email : string;
  u_password : string;
  u_name : string;
  u_companyId : option string;
  u_employeeId : option string
}.

Record database := {
  employees : gmap string Employee;
  timesheets : gmap (string * Z) Timesheet;
  project_assignments : gmap string ProjectAssignment;
  projects : gmap string Project;
  users : gmap string User
}.

Definition set_timesheets (f : gmap (string * Z) Timesheet -> gmap (string * Z) Timesheet)
    (d : database) : database :=
  {| employees := employees d; timesheets := f (timesheets d);
     project_assignments := project_assignments d; projects := projects d;
     users := users d |}.

Definition set_projects (f : gmap string Project -> gmap string Project)
    (d : database) : database :=
  {| employees := employees d; timesheets := timesheets d;
     project_assignments := project_assignments d; projects := f (projects d);
     users := users d |}.

Definition set_employees (f : gmap string Employee -> gmap string Employee)
    (d : database) : database :=
  {| employees := f (employees d); timesheets := timesheets d;
     project_assignments := project_assignments d; projects := projects d;
     users := users d |}.

Definition set_users (f : gmap string User -> gmap string User)
    (d : database) : database :=
  {| employees := employees d; timesheets := timesheets d;
     project_assignments := project_assignments d; projects := projects d;
     users := f (users d) |}.

(** ** The cost trigger (init.sql, lines 112-147) *)

Module SQL.

(** [a + b] on nullable numerics: [NULL] absorbs. *)
Definition add (a b : option Q) : option Q :=
  match a, b with
  | Some x, Some y => Some (x + y)%Q
  | _, _ => None
  end.

Definition calculate_overtime_pay
    (p_normal_hours p_ot1_5_hours p_ot2_hours p_hourly_rate : Q) : Q :=
  ((p_ot1_5_hours * p_hourly_rate * 1.5) + (p_ot2_hours * p_hourly_rate * 2))%Q.

(** [SELECT hourly_rate FROM employees WHERE id = NEW.employee_id]. *)
Definition select_hourly_rate (d : database) (employee_id : string) : option Q :=
  e_hourlyRate <$> employees d !! employee_id.

(** [SELECT project_id FROM project_assignments WHERE id = ...]; a [NULL]
    assignment selects nothing. *)
Definition select_project_id (d : database) (assignment : option string) : option string :=
  a ← assignment; pa_project_id <$> project_assignments d !! a.

(** The amount the trigger adds; [NULL] when the rate subquery is empty. *)
Definition accrual (d : database) (NEW : Timesheet) : option Q :=
  rate ← select_hourly_rate d (ts_employeeId NEW);
  Some (ts_normalHours NEW * rate
        + calculate_overtime_pay (ts_normalHours NEW) (ts_ot1_5Hours NEW)
            (ts_ot2Hours NEW) rate)%Q.

Definition add_actual_cost (amount : option Q) (p : Project) : Project :=
  {| pj_name := pj_name p; pj_estimated_cost := pj_estimated_cost p;
     pj_actual_cost := add (pj_actual_cost p) amount |}.

(** Trigger function, run after every row update of [timesheets]. *)
Definition update_project_actual_cost (OLD NEW : Timesheet) (d : database) : database :=
  if bool_decide (ts_status NEW = APPROVED) && negb (bool_decide (ts_status OLD = APPROVED))
  then
    match select_project_id d (ts_projectAssignmentId NEW) with
    | Some pid => set_projects (alter (add_actual_cost (accrual d NEW)) pid) d
    | None => d
    end
  else d.

(** [UPDATE timesheets SET ... WHERE (employee_id, date) = key], with the
    [AFTER UPDATE ... FOR EACH ROW] trigger. *)
Definition update_timesheet (key : string * Z) (set : Timesheet -> Timesheet)
    (d : database) : database :=
  match timesheets d !! key with
  | Some OLD =>
      let NEW := set OLD in
      update_project_actual_cost OLD NEW (set_timesheets <[key := NEW]> d)
  | None => d
  end.

(** [INSERT INTO timesheets]: no update trigger fires. *)
Definition insert_timesheet (key : string * Z) (row : Timesheet) (d : database) : database :=
  set_timesheets <[key := row]> d.

End SQL.

(** ** [hasPermission] (auth.ts, lines 64-67) *)

Record AuthUser := {
  user_id : string;
  user_email : string;
  user_name : string;
  companyId : option string;
  roles : list string;
  permissions : list string
}.

(** [Array.prototype.includes] on an array of strings. *)
Definition includes (l : list string) (x : string) : bool := bool_decide (x ∈ l).

Definition hasPermission (user : option AuthUser) (permission : string) : bool :=
  match user with
  | None => false
  | Some u => includes (permissions u) permission || includes (permissions u) "*"
  end.

(** ** [POST /api/timesheets] (route.ts, lines 147-247) *)

(** The JSON body, with [date], [clockIn] and [clockOut] as the dates
    [new Date(...)] makes of them.  [None] is an absent (or falsy) field.
    For [projectAssignmentId] the store tells an absent key from a JSON
    [null]: [None] is the absent key ([undefined]), [Some None] is [null],
    [Some (Some a)] the identifier [a]. *)
Record TimesheetData := {
  employeeId : string;
  date : Z;
  clockIn : Z;
  clockOut : option Z;
  breakMinutes : option Q;
  projectAssignmentId : option (option string)
}.

(** [NextResponse.json(body, { status })]. *)
Inductive TimesheetResponse :=
| json_error (error : string) (status : Z)
| json_saved (message : string) (timesheet : Timesheet) (overtimePay : Q).

(** Truthiness of an optional string: absent and empty are falsy. *)
Definition truthy (s : option string) : bool :=
  match s with
  | Some x => negb (String.eqb x "")
  | None => false
  end.

Section Timesheets.
Variable tz : Z.

(** The [update] branch of the upsert: the listed columns are overwritten,
    an undefined [projectAssignmentId] leaves the column as it is, a [null]
    one empties it. *)
Definition upsert_update (data : TimesheetData) (clockInTime clockOutTime : Z)
    (oc : OvertimeCalculation) (old : Timesheet) : Timesheet :=
  {| ts_employeeId := ts_employeeId old;
     ts_date := ts_date old;
     ts_clockIn := clockInTime;
     ts_clockOut := clockOutTime;
     ts_breakMinutes := default 0%Q (breakMinutes data);
     ts_normalHours := normalHours oc;
     ts_ot1_5Hours := ot1_5Hours oc;
     ts_ot2Hours := ot2Hours oc;
     ts_totalHours := totalHours oc;
     ts_projectAssignmentId :=
       match projectAssignmentId data with
       | Some a => a
       | None => ts_projectAssignmentId old
       end;
     ts_status := PENDING |}.

(** The [create] branch of the upsert; an undefined or [null]
    [projectAssignmentId] leaves the column empty. *)
Definition upsert_create (data : TimesheetData) (clockInTime clockOutTime : Z)
    (oc : OvertimeCalculation) : Timesheet :=
  {| ts_employeeId := employeeId data;
     ts_date := date data;
     ts_clockIn := clockInTime;
     ts_clockOut := clockOutTime;
     ts_breakMinutes := default 0%Q (breakMinutes data);
     ts_normalHours := normalHours oc;
     ts_ot1_5Hours := ot1_5Hours oc;
     ts_ot2Hours := ot2Hours oc;
     ts_totalHours := totalHours oc;
     ts_projectAssignmentId := default None (projectAssignmentId data);
     ts_status := PENDING |}.

(** [db.timesheet.upsert]: the row it returns and the new database. *)
Definition upsert (key : string * Z) (update : Timesheet -> Timesheet) (create : Timesheet)
    (d : database) : Timesheet * database :=
  match timesheets d !! key with
  | Some old => (update old, SQL.update_timesheet key update d)
  | None => (create, SQL.insert_timesheet key create d)
  end.

(** The "Adjust for break time" step (lines 182-185). *)
Definition adjustForBreak (oc : OvertimeCalculation) (breakMinutes : Q) : OvertimeCalculation :=
  let breakHours := (breakMinutes / 60)%Q in
  {| normalHours := Math_max 0 (normalHours oc - breakHours);
     ot1_5Hours := ot1_5Hours oc;
     ot2Hours := ot2Hours oc;
     totalHours := Math_max 0 (totalHours oc - breakHours);
     overtimePay := overtimePay oc |}.

(** [user.companyId && employee.companyId !== user.companyId]. *)
Definition companyMismatch (user : AuthUser) (employee : Employee) : bool :=
  truthy (companyId user) && negb (bool_decide (e_companyId employee = companyId user)).

(** The handler; [now] is what [new Date()] reads, [user] what
    [verifyAuth] returned.  The [catch] branch (an exception of the store,
    status 500) is not part of the model. *)
Definition POST (now : Z) (user : option AuthUser) (data : TimesheetData) (d : database)
    : TimesheetResponse * database :=
  match user with
  | None => (json_error "Unauthorized" 401, d)
  | Some u =>
      if negb (hasPermission user "timesheets.create")
      then (json_error "Unauthorized" 401, d)
      else
        match employees d !! employeeId data with
        | None => (json_error "Employee not found" 404, d)
        | Some employee =>
            if companyMismatch u employee
            then (json_error "Access denied" 403, d)
            else
              let clockInTime := clockIn data in
              let clockOutTime := default now (clockOut data) in
              let overtimeCalculation :=
                adjustForBreak
                  (calculateOvertime tz clockInTime clockOutTime (e_hourlyRate employee))
                  (default 0%Q (breakMinutes data)) in
              let '(timesheet, d') :=
                upsert (employeeId data, date data)
                  (upsert_update data clockInTime clockOutTime overtimeCalculation)
                  (upsert_create data clockInTime clockOutTime overtimeCalculation) d in
              (json_saved "Timesheet saved successfully" timesheet
                 (overtimePay overtimeCalculation), d')
        end
  end.

End Timesheets.

(** ** The two employee-creation handlers ([POST /api/employees]) *)

(** The JSON body of either handler.  [None] is an absent (or falsy) field;
    [basicSalary] is numeric, the decimal number written in the request.
    [d_hourlyRate] is an [hourlyRate] key the caller may put in the body. *)
Record EmployeeData := {
  d_employeeCode : option string;
  d_firstName : option string;
  d_lastName : option string;
  d_email : option string;
  d_phone : option string;
  d_nric : option string;
  d_workPassType : option string;
  d_workPassNumber : option string;
  d_dateOfBirth : option Z;
  d_gender : option string;
  d_nationality : option string;
  d_maritalStatus : option string;
  d_joinDate : option Z;
  d_basicSalary : Q;
  d_hourlyRate : option Q;
  d_bankName : option string;
  d_bankAccount : option string;
  d_employmentType : option string;
  d_department : option string;
  d_position : option string;
  d_companyId : option string;
  d_createUserAccount : bool
}.

Inductive EmployeeResponse :=
| emp_error (error : string) (status : Z)
| emp_created (message : option string) (employee : Employee) (status : Z).

(** [s.padStart(n, "0")]. *)
Definition padStart0 (n : nat) (s : string) : string :=
  String.concat "" (replicate (n - String.length s) "0"%string) +:+ s.

(** [`EMP${String(count + 1).padStart(4, '0')}`]. *)
Definition generateEmployeeCode (count : nat) : string :=
  "EMP" +:+ padStart0 4 (pretty (count + 1)%nat).

(** [a || b] on optional strings. *)
Definition orElse (a b : option string) : option string :=
  if truthy a then a else b.

(** [Number(x.toFixed(2))]: the multiple of 1/100 nearest to the number [x],
    a tie going away from zero. *)
Definition toFixed2 (x : Q) : Q :=
  if Qle_bool 0 x
  then (inject_Z (Qfloor (x * 100 + (1 # 2))) / 100)%Q
  else (- (inject_Z (Qfloor (- x * 100 + (1 # 2))) / 100))%Q.

(** The first handler: authenticated, spreads the body into the row. *)
Module EmployeesRoute1.
Section Handler.
(** The stores' key generators and the password hash are external. *)
Variable newEmployeeId : database -> string.
Variable newUserId : database -> string.
Variable bcryptHash : string -> string.

(** [db.employee.count({ where: { companyId } })]; an undefined
    [companyId] does not filter. *)
Definition countEmployees (companyId : option string) (d : database) : nat :=
  match companyId with
  | Some c => size (filter (λ kv, e_companyId kv.2 = Some c) (employees d))
  | None => size (employees d)
  end.

(** [{ ...data, hourlyRate, companyId: user.companyId || data.companyId }]. *)
Definition createData (data : EmployeeData) (employeeCode : string) (hourlyRate : Q)
    (companyId : option string) : Employee :=
  {| e_employeeCode := employeeCode;
     e_firstName := d_firstName data;
     e_lastName := d_lastName data;
     e_email := d_email data;
     e_phone := d_phone data;
     e_nric := d_nric data;
     e_workPassType := d_workPassType data;
     e_workPassNumber := d_workPassNumber data;
     e_dateOfBirth := d_dateOfBirth data;
     e_gender := d_gender data;
     e_nationality := d_nationality data;
     e_maritalStatus := d_maritalStatus data;
     e_joinDate := d_joinDate data;
     e_basicSalary := d_basicSalary data;
     e_hourlyRate := hourlyRate;
     e_bankName := d_bankName data;
     e_bankAccount := d_bankAccount data;
     e_employmentType := d_employmentType data;
     e_department := d_department data;
     e_position := d_position data;
     e_companyId := companyId |}.

Definition POST (user : option AuthUser) (data : EmployeeData) (d : database)
    : EmployeeResponse * database :=
  match user with
  | None => (emp_error "Unauthorized" 401, d)
  | Some u =>
      if negb (hasPermission user "employees.create")
      then (emp_error "Unauthorized" 401, d)
      else
        let hourlyRate :=
          Double.div (Double.mul (Double.Number (d_basicSalary data)) 12) 2288 in
        let employeeCode :=
          if truthy (d_employeeCode data)
          then default ""%string (d_employeeCode data)
          else generateEmployeeCode (countEmployees (companyId u) d) in
        let employee :=
          createData data employeeCode hourlyRate
            (orElse (companyId u) (d_companyId data)) in
        let employee_id := newEmployeeId d in
        let d1 := set_employees <[employee_id := employee]> d in
        let d2 :=
          if d_createUserAccount data && truthy (d_email data)
          then
            set_users
              <[newUserId d1 :=
                  {| u_email := default ""%string (d_email data);
                     u_password := bcryptHash "Temp@123456";
                     u_name := default "undefined"%string (d_firstName data) +:+ " "
                               +:+ default "undefined"%string (d_lastName data);
                     u_companyId := orElse (companyId u) (d_companyId data);
                     u_employeeId := Some employee_id |}]> d1
          else d1 in
        (emp_created (Some "Employee created successfully"%string) employee 200, d2)
  end.

End Handler.
End EmployeesRoute1.

(** The second handler: validates the body, rounds the rate. *)
Module EmployeesRoute2.
Section Handler.
Variable newEmployeeId : database -> string.

(** [db.employee.findFirst({ where: { OR: [{ email }, { nric }] } })]
    finds a row. *)
Definition existingEmployee (email nric : option string) (d : database) : bool :=
  negb (bool_decide
          (map_Forall (λ _ e, e_email e ≠ email ∧ e_nric e ≠ nric) (employees d))).

Definition missingRequired (body : EmployeeData) : bool :=
  negb (truthy (d_firstName body)) || negb (truthy (d_lastName body))
  || negb (truthy (d_email body)) || negb (truthy (d_nric body))
  || negb (bool_decide (is_Some (d_dateOfBirth body)))
  || negb (truthy (d_gender body)) || negb (truthy (d_nationality body))
  || negb (bool_decide (is_Some (d_joinDate body)))
  || Qeq_bool (d_basicSalary body) 0.

Definition POST (body : EmployeeData) (d : database) : EmployeeResponse * database :=
  if missingRequired body
  then (emp_error "Missing required fields" 400, d)
  else if existingEmployee (d_email body) (d_nric body) d
  then (emp_error "Employee with this email or NRIC already exists" 400, d)
  else
    let employeeCount := size (employees d) in
    let employeeCode := generateEmployeeCode employeeCount in
    let hourlyRate :=
      Double.div (Double.mul (Double.Number (d_basicSalary body)) 12) 2288 in
    let employee :=
      {| e_employeeCode := employeeCode;
         e_firstName := d_firstName body;
         e_lastName := d_lastName body;
         e_email := d_email body;
         e_phone := d_phone body;
         e_nric := d_nric body;
         e_workPassType := d_workPassType body;
         e_workPassNumber := d_workPassNumber body;
         e_dateOfBirth := d_dateOfBirth body;
         e_gender := d_gender body;
         e_nationality := d_nationality body;
         e_maritalStatus := d_maritalStatus body;
         e_joinDate := d_joinDate body;
         e_basicSalary := d_basicSalary body;
         e_hourlyRate := toFixed2 hourlyRate;
         e_bankName := d_bankName body;
         e_bankAccount := d_bankAccount body;
         e_employmentType := d_employmentType body;
         e_department := d_department body;
         e_position := d_position body;
         e_companyId := orElse (d_companyId body) None |} in
    (emp_created None employee 201, set_employees <[newEmployeeId d := employee]> d).

End Handler.
End EmployeesRoute2.

(** ** Payroll period aggregation *)

Record PayrollPeriodSummary := {
  ps_normalHours : Q;
  ps_eveningHours : Q;
  ps_nightHours : Q;
  ps_pay : Q
}.

Module Payroll.

Definition zero : PayrollPeriodSummary :=
  {| ps_normalHours := 0; ps_eveningHours := 0; ps_nightHours := 0; ps_pay := 0 |}.

(** The entry counts: it is the employee's, APPROVED, and dated in the
    inclusive range. *)
Definition counts (employeeId : string) (startDate endDate : Z) (e : Timesheet) : bool :=
  String.eqb (ts_employeeId e) employeeId
  && bool_decide (ts_status e = APPROVED)
  && (startDate <=? ts_date e) && (ts_date e <=? endDate).

(** Pay of one entry: normal at the rate, evening at 1.5, night at 2.0. *)
Definition entryPay (rate : Q) (e : Timesheet) : Q :=
  (ts_normalHours e * rate + ts_ot1_5Hours e * rate * 1.5 + ts_ot2Hours e * rate * 2)%Q.

Definition addEntry (rate : Q) (acc : PayrollPeriodSummary) (e : Timesheet)
    : PayrollPeriodSummary :=
  {| ps_normalHours := (ps_normalHours acc + ts_normalHours e)%Q;
     ps_eveningHours := (ps_eveningHours acc + ts_ot1_5Hours e)%Q;
     ps_nightHours := (ps_nightHours acc + ts_ot2Hours e)%Q;
     ps_pay := (ps_pay acc + entryPay rate e)%Q |}.

(** Modelled from the spec: [getPayrollSummary], the payroll period
    aggregator, is not among the source files.  Given the employee, the
    hourly rate the employee store supplies, an inclusive date range and
    the ledger entries, it sums hours and pay over the entries that
    count. *)
Definition getPayrollSummary (rate : Q) (employeeId : string) (startDate endDate : Z)
    (ledger : list Timesheet) : PayrollPeriodSummary :=
  fold_left
    (λ acc e, if counts employeeId startDate endDate e then addEntry rate acc e else acc)
    ledger zero.

(** Sum of a column over a list of entries. *)
Definition total (column : Timesheet -> Q) (entries : list Timesheet) : Q :=
  fold_right (λ e s, (column e + s)%Q) 0%Q entries.

End Payroll.

(** * Vocabulary of the statements, and concrete inputs *)

(** Milliseconds of [clockIn, clockOut) inside the window [start, end). *)
Definition overlapMs (clockIn clockOut start end_ : Z) : Z :=
  Z.max 0 (Z.min clockOut end_ - Z.max clockIn start).

(** The three windows of [calculateOvertime], anchored to clockIn's day. *)
Section Windows.
Variable tz : Z.

Definition normalOverlap (clockIn clockOut : Z) : Z :=
  overlapMs clockIn clockOut (setHours tz clockIn 8 0 0 0) (setHours tz clockIn 17 0 0 0).
Definition eveningOverlap (clockIn clockOut : Z) : Z :=
  overlapMs clockIn clockOut (setHours tz clockIn 17 0 0 0) (setHours tz clockIn 23 59 59 999).
Definition nightOverlap (clockIn clockOut : Z) : Z :=
  overlapMs clockIn clockOut (setHours tz clockIn 0 0 0 0) (setHours tz clockIn 8 0 0 0).

End Windows.

Section Accepted.
Variable tz : Z.

(** The caller may write for this employee: authenticated, holding
    [timesheets.create], the employee exists and is of the caller's
    company. *)
Definition accepted (user : option AuthUser) (data : TimesheetData) (d : database)
    (employee : Employee) : Prop :=
  hasPermission user "timesheets.create" = true
  /\ employees d !! employeeId data = Some employee
  /\ (forall u, user = Some u -> companyMismatch u employee = false).

(** The hours the handler derives for a body. *)
Definition derived (now : Z) (data : TimesheetData) (employee : Employee)
    : OvertimeCalculation :=
  adjustForBreak
    (calculateOvertime tz (clockIn data) (default now (clockOut data))
       (e_hourlyRate employee))
    (default 0%Q (breakMinutes data)).

(** The row the upsert leaves under the key. *)
Definition storedRow (now : Z) (data : TimesheetData) (employee : Employee) (d : database)
    : Timesheet :=
  match timesheets d !! (employeeId data, date data) with
  | Some old =>
      upsert_update data (clockIn data) (default now (clockOut data))
        (derived now data employee) old
  | None =>
      upsert_create data (clockIn data) (default now (clockOut data))
        (derived now data employee)
  end.

End Accepted.

(** Singapore time, UTC+8. *)
Definition SGT : Z := 8 * MS_PER_HOUR.

(** 2024-01-01T00:00:00+08:00. *)
Definition day0 : Z := 1704038400000.

(** [hh:mm] on that day. *)
Definition at_ (hh mm : Z) : Z := day0 + hh * MS_PER_HOUR + mm * 60000.

(** C5 as the specification words it, at one interval. *)
Definition tiers_sum_to_elapsed (tz clockIn clockOut : Z) : Prop :=
  let oc := calculateOvertime tz clockIn clockOut 0 in
  (normalHours oc + ot1_5Hours oc + ot2Hours oc == hoursOfMs (clockOut - clockIn))%Q
  /\ (0 <= normalHours oc)%Q /\ (0 <= ot1_5Hours oc)%Q /\ (0 <= ot2Hours oc)%Q.

(** A caller with the wildcard permission, one employee paid 12 an hour,
    and a database that holds just that employee. *)
Definition admin : AuthUser :=
  {| user_id := "admin-user"; user_email := "admin@hrm.com";
     user_name := "System Administrator"; companyId := Some "default-company"%string;
     roles := ["Super Admin"%string]; permissions := ["*"%string] |}.

Definition employee0 : Employee :=
  {| e_employeeCode := "EMP0001"; e_firstName := Some "Wei"%string;
     e_lastName := Some "Tan"%string; e_email := Some "wei@company.com"%string;
     e_phone := None; e_nric := Some "S1234567D"%string; e_workPassType := None;
     e_workPassNumber := None; e_dateOfBirth := None; e_gender := None;
     e_nationality := None; e_maritalStatus := None; e_joinDate := None;
     e_basicSalary := 2288; e_hourlyRate := 12; e_bankName := None;
     e_bankAccount := None; e_employmentType := None; e_department := None;
     e_position := None; e_companyId := Some "default-company"%string |}.

Definition db0 : database :=
  {| employees := {[ "emp-1"%string := employee0 ]};
     timesheets := ∅;
     project_assignments := {[ "assign-1"%string := {| pa_project_id := "project-1" |} ]};
     projects := {[ "project-1"%string :=
                     {| pj_name := "HRM System Development";
                        pj_estimated_cost := Some 150000%Q;
                        pj_actual_cost := Some 0%Q |} ]};
     users := ∅ |}.

(** A body for employee [emp-1] on [day0]. *)
Definition shift (clockIn : Z) (clockOut : option Z) (breakMinutes : Q) : TimesheetData :=
  {| employeeId := "emp-1"; date := day0; clockIn := clockIn; clockOut := clockOut;
     breakMinutes := Some breakMinutes;
     projectAssignmentId := Some (Some "assign-1"%string) |}.

(** The bodies of the examples: 09:00 to 19:00 with an hour's break, 16:00 to
    19:00 with two hours' break, a clockOut before clockIn, a break longer
    than the shift, and a shift still open. *)
Definition dayShift : TimesheetData := shift (at_ 9 0) (Some (at_ 19 0)) 60.
Definition lateShift : TimesheetData := shift (at_ 16 0) (Some (at_ 19 0)) 120.
Definition reversedShift : TimesheetData := shift (at_ 9 0) (Some (at_ 8 0)) 0.
Definition longBreakShift : TimesheetData := shift (at_ 9 0) (Some (at_ 10 0)) 120.
Definition openShift : TimesheetData := shift (at_ 9 0) None 0.

(** The deduction as the specification words it: from NORMAL first, clamped
    at zero, the remainder from EVENING, then from NIGHT. *)
Definition breakCascade_spec (oc : OvertimeCalculation) (breakMinutes : Q)
    : OvertimeCalculation :=
  let breakHours := (breakMinutes / 60)%Q in
  let rest1 := Qmax 0 (breakHours - normalHours oc) in
  let rest2 := Qmax 0 (rest1 - ot1_5Hours oc) in
  let n := Qmax 0 (normalHours oc - breakHours) in
  let e := Qmax 0 (ot1_5Hours oc - rest1) in
  let g := Qmax 0 (ot2Hours oc - rest2) in
  {| normalHours := n; ot1_5Hours := e; ot2Hours := g;
     totalHours := (n + e + g)%Q; overtimePay := overtimePay oc |}.

(** An APPROVED entry of [emp-1] for [day0], and a ledger that holds it. *)
Definition approved0 : Timesheet :=
  {| ts_employeeId := "emp-1"; ts_date := day0; ts_clockIn := at_ 9 0;
     ts_clockOut := at_ 17 0; ts_breakMinutes := 0; ts_normalHours := 8;
     ts_ot1_5Hours := 0; ts_ot2Hours := 0; ts_totalHours := 8;
     ts_projectAssignmentId := Some "assign-1"%string; ts_status := APPROVED |}.

Definition db1 : database :=
  set_timesheets <[("emp-1"%string, day0) := approved0]> db0.

(** The derived fields a response reports. *)
Definition derivedFields (r : TimesheetResponse) : option (Q * Q * Q * Q * Q) :=
  match r with
  | json_saved _ row pay =>
      Some (ts_normalHours row, ts_ot1_5Hours row, ts_ot2Hours row, ts_totalHours row, pay)
  | json_error _ _ => None
  end.

(** A PENDING entry of [emp-1] (7 normal and 2 evening hours) on project
    [project-1], and the update an approval performs. *)
Definition pending0 : Timesheet :=
  {| ts_employeeId := "emp-1"; ts_date := day0; ts_clockIn := at_ 9 0;
     ts_clockOut := at_ 19 0; ts_breakMinutes := 60; ts_normalHours := 7;
     ts_ot1_5Hours := 2; ts_ot2Hours := 0; ts_totalHours := 9;
     ts_projectAssignmentId := Some "assign-1"%string; ts_status := PENDING |}.

Definition db2 : database :=
  set_timesheets <[("emp-1"%string, day0) := pending0]> db0.

Definition setApproved (row : Timesheet) : Timesheet :=
  {| ts_employeeId := ts_employeeId row; ts_date := ts_date row;
     ts_clockIn := ts_clockIn row; ts_clockOut := ts_clockOut row;
     ts_breakMinutes := ts_breakMinutes row; ts_normalHours := ts_normalHours row;
     ts_ot1_5Hours := ts_ot1_5Hours row; ts_ot2Hours := ts_ot2Hours row;
     ts_totalHours := ts_totalHours row;
     ts_projectAssignmentId := ts_projectAssignmentId row; ts_status := APPROVED |}.

(** A ledger with an APPROVED, a PENDING and a REJECTED entry of [emp-1],
    and an APPROVED entry dated after the period. *)
Definition withStatus (st : TimesheetStatus) (date : Z) (row : Timesheet) : Timesheet :=
  {| ts_employeeId := ts_employeeId row; ts_date := date;
     ts_clockIn := ts_clockIn row; ts_clockOut := ts_clockOut row;
     ts_breakMinutes := ts_breakMinutes row; ts_normalHours := ts_normalHours row;
     ts_ot1_5Hours := ts_ot1_5Hours row; ts_ot2Hours := ts_ot2Hours row;
     ts_totalHours := ts_totalHours row;
     ts_projectAssignmentId := ts_projectAssignmentId row; ts_status := st |}.

Definition ledger0 : list Timesheet :=
  [ withStatus APPROVED day0 pending0;
    withStatus PENDING (day0 + MS_PER_DAY) pending0;
    withStatus REJECTED (day0 + 2 * MS_PER_DAY) pending0;
    withStatus APPROVED (day0 + 40 * MS_PER_DAY) pending0 ].

(** The body with another [hourlyRate] key. *)
Definition withRequestHourlyRate (h : option Q) (data : EmployeeData) : EmployeeData :=
  {| d_employeeCode := d_employeeCode data; d_firstName := d_firstName data;
     d_lastName := d_lastName data; d_email := d_email data; d_phone := d_phone data;
     d_nric := d_nric data; d_workPassType := d_workPassType data;
     d_workPassNumber := d_workPassNumber data; d_dateOfBirth := d_dateOfBirth data;
     d_gender := d_gender data; d_nationality := d_nationality data;
     d_maritalStatus := d_maritalStatus data; d_joinDate := d_joinDate data;
     d_basicSalary := d_basicSalary data; d_hourlyRate := h;
     d_bankName := d_bankName data; d_bankAccount := d_bankAccount data;
     d_employmentType := d_employmentType data; d_department := d_department data;
     d_position := d_position data; d_companyId := d_companyId data;
     d_createUserAccount := d_createUserAccount data |}.

(** A body for a new employee with basic salary 5000 and a bogus
    [hourlyRate] of 999. *)
Definition newHire : EmployeeData :=
  {| d_employeeCode := None; d_firstName := Some "Mei"%string;
     d_lastName := Some "Lim"%string; d_email := Some "mei@company.com"%string;
     d_phone := None; d_nric := Some "S7654321A"%string; d_workPassType := None;
     d_workPassNumber := None; d_dateOfBirth := Some 631152000000;
     d_gender := Some "F"%string; d_nationality := Some "Singaporean"%string;
     d_maritalStatus := None; d_joinDate := Some day0; d_basicSalary := 5000;
     d_hourlyRate := Some 999%Q; d_bankName := None; d_bankAccount := None;
     d_employmentType := None; d_department := None; d_position := None;
     d_companyId := None; d_createUserAccount := false |}.

(** The body with another [basicSalary]. *)
Definition withBasicSalary (b : Q) (data : EmployeeData) : EmployeeData :=
  {| d_employeeCode := d_employeeCode data; d_firstName := d_firstName data;
     d_lastName := d_lastName data; d_email := d_email data; d_phone := d_phone data;
     d_nric := d_nric data; d_workPassType := d_workPassType data;
     d_workPassNumber := d_workPassNumber data; d_dateOfBirth := d_dateOfBirth data;
     d_gender := d_gender data; d_nationality := d_nationality data;
     d_maritalStatus := d_maritalStatus data; d_joinDate := d_joinDate data;
     d_basicSalary := b; d_hourlyRate := d_hourlyRate data;
     d_bankName := d_bankName data; d_bankAccount := d_bankAccount data;
     d_employmentType := d_employmentType data; d_department := d_department data;
     d_position := d_position data; d_companyId := d_companyId data;
     d_createUserAccount := d_createUserAccount data |}.

(** The same body with the basic salary 2027.74.  The exact
    2027.74 x 12 / 2288 is 10.635; the double-precision quotient lies just
    below it. *)
Definition oddSalaryHire : EmployeeData :=
  withBasicSalary (202774 # 100) newHire.

(** 09:00 to 17:00 with a break of minus sixty minutes. *)
Definition negativeBreakShift : TimesheetData :=
  shift (at_ 9 0) (Some (at_ 17 0)) (-60).

(** Every ledger row is stored under its own (employeeId, date). *)
Definition ledgerKeyed (d : database) : Prop :=
  forall key row, timesheets d !! key = Some row -> (ts_employeeId row, ts_date row) = key.

(** A caller with the permissions of the seeded [hr-manager] role
    (init.sql, line 36). *)
Definition hrManager : AuthUser :=
  {| user_id := "hr-user"; user_email := "hr@company.com"; user_name := "HR Manager";
     companyId := Some "default-company"%string; roles := ["HR Manager"%string];
     permissions := ["employees.read"; "employees.create"; "employees.update";
                     "timesheets.*"; "payroll.*"; "leaves.*"]%string |}.

(** A caller of another company, holding the wildcard. *)
Definition outsider : AuthUser :=
  {| user_id := "other-admin"; user_email := "admin@other.com"; user_name := "Other Admin";
     companyId := Some "other-company"%string; roles := ["Admin"%string];
     permissions := ["*"%string] |}.

(** 09:00 to 17:00 with an hour's break, sent without a project
    assignment. *)
Definition plainShift : TimesheetData :=
  {| employeeId := "emp-1"; date := day0; clockIn := at_ 9 0;
     clockOut := Some (at_ 17 0); breakMinutes := Some 60%Q;
     projectAssignmentId := None |}.

(** The row the second employee handler builds from a body. *)
Definition route2Employee (body : EmployeeData) (d : database) : Employee :=
  {| e_employeeCode := generateEmployeeCode (size (employees d));
     e_firstName := d_firstName body; e_lastName := d_lastName body;
     e_email := d_email body; e_phone := d_phone body; e_nric := d_nric body;
     e_workPassType := d_workPassType body; e_workPassNumber := d_workPassNumber body;
     e_dateOfBirth := d_dateOfBirth body; e_gender := d_gender body;
     e_nationality := d_nationality body; e_maritalStatus := d_maritalStatus body;
     e_joinDate := d_joinDate body; e_basicSalary := d_basicSalary body;
     e_hourlyRate :=
       toFixed2 (Double.div (Double.mul (Double.Number (d_basicSalary body)) 12) 2288);
     e_bankName := d_bankName body; e_bankAccount := d_bankAccount body;
     e_employmentType := d_employmentType body; e_department := d_department body;
     e_position := d_position body; e_companyId := orElse (d_companyId body) None |}.

(** * More of the source: authentication, login, listing *)

(** ** [hasRole], [verifyAuth], [createAuthMiddleware] (auth.ts) *)

Definition hasRole (user : option AuthUser) (role : string) : bool :=
  match user with
  | None => false
  | Some u => includes (roles u) role || includes (roles u) "SUPER_ADMIN"
  end.

(** A role as [include: { roles: { include: { role: true } } }] joins it;
    [role_permissions] is the JSON column, [None] when it is not an array. *)
Record Role := {
  role_name : string;
  role_permissions : option (list string)
}.

(** A row of [users] with the columns the authentication code reads. *)
Record Account := {
  acc_email : string;
  acc_password : string;
  acc_name : string;
  acc_avatar : option string;
  acc_companyId : option string;
  acc_isActive : bool;
  acc_lastLogin : option Z;
  acc_roles : list Role
}.

Record UserSession := {
  us_userId : string;
  us_token : string;
  us_refreshToken : string;
  us_ipAddress : string;
  us_userAgent : string;
  us_expiresAt : Z
}.

Record Company := {
  co_name : string
}.

(** The tables of the identity side: users by id, companies by id, and
    the sessions in the order of their creation. *)
Record identity := {
  accounts : gmap string Account;
  companies : gmap string Company;
  userSessions : list UserSession
}.

(** [s] without the prefix [p], when it has it. *)
Fixpoint stripPrefix (p s : string) : option string :=
  match p, s with
  | EmptyString, _ => Some s
  | String a p', String b s' => if Ascii.eqb a b then stripPrefix p' s' else None
  | String _ _, EmptyString => None
  end.

(** [s.replace(pattern, replacement)] for a string pattern: the first
    occurrence is replaced. *)
Fixpoint replaceFirst (pattern replacement s : string) : string :=
  match stripPrefix pattern s with
  | Some rest => replacement +:+ rest
  | None =>
      match s with
      | EmptyString => EmptyString
      | String c s' => String c (replaceFirst pattern replacement s')
      end
  end.

(** The [reduce] over the user's roles: the permission arrays, one after
    the other. *)
Definition extractPermissions (userRoles : list Role) : list string :=
  fold_left (λ acc userRole, acc ++ default [] (role_permissions userRole)) userRoles [].

(** A request, as far as this code reads it: its headers, by lower-case
    name. *)
Abbreviation Headers := (gmap string string).

Inductive MiddlewareResponse :=
| mw_json (error : string) (status : Z)
| mw_next (requestHeaders : Headers).

Section Auth.
(** [jwt.verify(token, JWT_SECRET)] followed by the read of [userId]: the
    user id of a valid token, [None] where the library throws. *)
Variable jwtVerify : string -> option string.

Definition verifyAuth (store : identity) (headers : Headers) : option AuthUser :=
  match replaceFirst "Bearer " "" <$> headers !! "authorization"%string with
  | None => None
  | Some token =>
      if String.eqb token "" then None
      else
        match jwtVerify token with
        | None => None
        | Some userId =>
            match accounts store !! userId with
            | None => None
            | Some user =>
                if negb (acc_isActive user) then None
                else
                  Some {| user_id := userId;
                          user_email := acc_email user;
                          user_name := acc_name user;
                          companyId := orElse (acc_companyId user) None;
                          roles := role_name <$> acc_roles user;
                          permissions := extractPermissions (acc_roles user) |}
            end
        end
  end.

Definition createAuthMiddleware (requiredPermissions requiredRoles : option (list string))
    (store : identity) (headers : Headers) : MiddlewareResponse :=
  match verifyAuth store headers with
  | None => mw_json "Unauthorized" 401
  | Some user =>
      if match requiredRoles with
         | Some rs => negb (existsb (λ role, hasRole (Some user) role) rs)
         | None => false
         end
      then mw_json "Insufficient role permissions" 403
      else if match requiredPermissions with
              | Some ps => negb (existsb (λ permission, hasPermission (Some user) permission) ps)
              | None => false
              end
      then mw_json "Insufficient permissions" 403
      else
        mw_next (<["x-user-company"%string := default ""%string (companyId user)]>
                   (<["x-user-email"%string := user_email user]>
                      (<["x-user-id"%string := user_id user]> headers)))
  end.

End Auth.

(** ** The login handler ([POST /api/auth/login]) *)

Inductive JwtPayload :=
| access_payload (userId email : string) (companyId : option string)
| refresh_payload (userId : string).

Record LoginUser := {
  lu_id : string;
  lu_email : string;
  lu_name : string;
  lu_avatar : option string;
  lu_company : option (string * string);
  lu_roles : list string;
  lu_permissions : list string
}.

Inductive LoginResponse :=
| login_error (error : string) (status : Z)
| login_ok (message token refreshToken : string) (user : LoginUser).

(** [db.user.findUnique({ where: { email } })]: the id and the row. *)
Definition findUserByEmail (email : string) (store : identity) : option (string * Account) :=
  List.find (λ kv, bool_decide (acc_email kv.2 = email)) (map_to_list (accounts store)).

Definition set_lastLogin (t : Z) (user : Account) : Account :=
  {| acc_email := acc_email user; acc_password := acc_password user;
     acc_name := acc_name user; acc_avatar := acc_avatar user;
     acc_companyId := acc_companyId user; acc_isActive := acc_isActive user;
     acc_lastLogin := Some t; acc_roles := acc_roles user |}.

Module Login.
Section Handler.
(** [bcrypt.compare(password, hash)] and [jwt.sign(payload, JWT_SECRET,
    { expiresIn })] are external. *)
Variable bcryptCompare : string -> string -> bool.
Variable jwtSign : JwtPayload -> string -> string.

(** The handler; [now] is what [new Date()] reads for [lastLogin], [now']
    what [Date.now()] reads for the session. *)
Definition POST (now now' : Z) (headers : Headers) (email password : option string)
    (store : identity) : LoginResponse * identity :=
  if negb (truthy email) || negb (truthy password)
  then (login_error "Email and password are required" 400, store)
  else
    match findUserByEmail (default ""%string email) store with
    | None => (login_error "Invalid credentials" 401, store)
    | Some (userId, user) =>
        if negb (acc_isActive user)
        then (login_error "Invalid credentials" 401, store)
        else if negb (bcryptCompare (default ""%string password) (acc_password user))
        then (login_error "Invalid credentials" 401, store)
        else
          let permissions := extractPermissions (acc_roles user) in
          let token :=
            jwtSign (access_payload userId (acc_email user) (acc_companyId user)) "24h" in
          let session :=
            {| us_userId := userId;
               us_token := token;
               us_refreshToken := jwtSign (refresh_payload userId) "7d";
               us_ipAddress :=
                 default "unknown"%string (orElse (headers !! "x-forwarded-for"%string) None);
               us_userAgent :=
                 default "unknown"%string (orElse (headers !! "user-agent"%string) None);
               us_expiresAt := now' + 24 * 60 * 60 * 1000 |} in
          (login_ok "Login successful" token (us_refreshToken session)
             {| lu_id := userId;
                lu_email := acc_email user;
                lu_name := acc_name user;
                lu_avatar := acc_avatar user;
                lu_company :=
                  c ← acc_companyId user;
                  company ← companies store !! c;
                  Some (c, co_name company);
                lu_roles := role_name <$> acc_roles user;
                lu_permissions := permissions |},
           {| accounts := <[userId := set_lastLogin now user]> (accounts store);
              companies := companies store;
              userSessions := userSessions store ++ [session] |})
    end.

End Handler.
End Login.

(** ** The listing handlers ([GET /api/timesheets], [GET /api/employees]) *)

(** [Math.ceil]. *)
Definition Math_ceil (x : Q) : Z := Qceiling x.

Record Pagination := {
  pg_page : Z;
  pg_limit : Z;
  pg_total : Z;
  pg_pages : Z
}.

(** The query string of [GET /api/timesheets].  [q_page] and [q_limit] are
    what [parseInt] makes of a parameter that is present, the dates what
    [new Date] makes of them, [q_status] a status of the enumeration;
    [None] is an absent (or empty) parameter. *)
Record TimesheetsQuery := {
  q_page : option Z;
  q_limit : option Z;
  q_employeeId : option string;
  q_status : option TimesheetStatus;
  q_startDate : option Z;
  q_endDate : option Z
}.

Inductive TimesheetsResponse :=
| list_error (error : string) (status : Z)
| list_ok (timesheets : list Timesheet) (pagination : Pagination).

(** The [where] object of the timesheet listing, as a test on a row. *)
Definition timesheetsWhere (user : AuthUser) (q : TimesheetsQuery) (d : database)
    (row : Timesheet) : bool :=
  (if truthy (companyId user)
   then bool_decide ((e_companyId <$> employees d !! ts_employeeId row) = Some (companyId user))
   else true)
  && (if truthy (q_employeeId q)
      then bool_decide (Some (ts_employeeId row) = q_employeeId q)
      else true)
  && match q_status q with
     | Some st => bool_decide (ts_status row = st)
     | None => true
     end
  && match q_startDate q, q_endDate q with
     | Some startDate, Some endDate => (startDate <=? ts_date row) && (ts_date row <=? endDate)
     | _, _ => true
     end.

(** [skip] and [take] of [findMany], on the ordered rows. *)
Definition skipTake {A : Type} (skip take_ : Z) (rows : list A) : list A :=
  take (Z.to_nat take_) (drop (Z.to_nat skip) rows).

Module TimesheetsList.
Section Handler.
(** The order the store gives to [orderBy: { date: 'desc' }]. *)
Variable orderByDateDesc : list Timesheet -> list Timesheet.

(** The rows the [where] object selects, which [count] counts. *)
Definition selected (user : AuthUser) (q : TimesheetsQuery) (d : database) : list Timesheet :=
  List.filter (timesheetsWhere user q d) (map_to_list (timesheets d)).*2.

(** The rows of [findMany] before [skip] and [take]. *)
Definition matching (user : AuthUser) (q : TimesheetsQuery) (d : database) : list Timesheet :=
  orderByDateDesc (selected user q d).

(** The handler, for a page and a limit of at least 1; [None] stands for
    the other values, where the result is the store's affair.  The joined
    [employee] and [project] of a row are left out of the response. *)
Definition GET (user : option AuthUser) (q : TimesheetsQuery) (d : database)
    : option TimesheetsResponse :=
  match user with
  | None => Some (list_error "Unauthorized" 401)
  | Some u =>
      if negb (hasPermission user "timesheets.read")
      then Some (list_error "Unauthorized" 401)
      else
        let page := default 1 (q_page q) in
        let limit := default 10 (q_limit q) in
        if (page <? 1) || (limit <? 1) then None
        else
          let total := Z.of_nat (length (selected u q d)) in
          Some (list_ok (skipTake ((page - 1) * limit) limit (matching u q d))
                  {| pg_page := page; pg_limit := limit; pg_total := total;
                     pg_pages := Math_ceil (inject_Z total / inject_Z limit) |})
  end.

End Handler.
End TimesheetsList.

(** The query string of the first [GET /api/employees]. *)
Record EmployeesQuery := {
  eq_page : option Z;
  eq_limit : option Z;
  eq_search : option string;
  eq_companyId : option string
}.

Inductive EmployeesResponse :=
| elist_error (error : string) (status : Z)
| elist_ok (employees : list Employee) (pagination : Pagination).

Module EmployeesList.
Section Handler.
(** [{ contains: search, mode: 'insensitive' }] on a column value, and the
    order the store gives to [orderBy: { createdAt: 'desc' }]. *)
Variable containsInsensitive : string -> string -> bool.
Variable orderByCreatedAtDesc : list Employee -> list Employee.

(** The company the [where] object filters on: the later spread of the
    query's [companyId] replaces the caller's. *)
Definition companyFilter (user : AuthUser) (q : EmployeesQuery) : option string :=
  if truthy (eq_companyId q) then eq_companyId q
  else if truthy (companyId user) then companyId user
  else None.

Definition searchMatches (search : string) (e : Employee) : bool :=
  from_option (λ s, containsInsensitive s search) false (e_firstName e)
  || from_option (λ s, containsInsensitive s search) false (e_lastName e)
  || from_option (λ s, containsInsensitive s search) false (e_email e)
  || containsInsensitive (e_employeeCode e) search.

Definition employeesWhere (user : AuthUser) (q : EmployeesQuery) (e : Employee) : bool :=
  match companyFilter user q with
  | Some c => bool_decide (e_companyId e = Some c)
  | None => true
  end
  && (if truthy (eq_search q) then searchMatches (default ""%string (eq_search q)) e
      else true).

Definition selected (user : AuthUser) (q : EmployeesQuery) (d : database) : list Employee :=
  List.filter (employeesWhere user q) (map_to_list (employees d)).*2.

Definition matching (user : AuthUser) (q : EmployeesQuery) (d : database) : list Employee :=
  orderByCreatedAtDesc (selected user q d).

(** The handler, for a page and a limit of at least 1 as above; the joined
    company, allowances and deductions are left out of the response. *)
Definition GET (user : option AuthUser) (q : EmployeesQuery) (d : database)
    : option EmployeesResponse :=
  match user with
  | None => Some (elist_error "Unauthorized" 401)
  | Some u =>
      if negb (hasPermission user "employees.read")
      then Some (elist_error "Unauthorized" 401)
      else
        let page := default 1 (eq_page q) in
        let limit := default 10 (eq_limit q) in
        if (page <? 1) || (limit <? 1) then None
        else
          let total := Z.of_nat (length (selected u q d)) in
          Some (elist_ok (skipTake ((page - 1) * limit) limit (matching u q d))
                  {| pg_page := page; pg_limit := limit; pg_total := total;
                     pg_pages := Math_ceil (inject_Z total / inject_Z limit) |})
  end.

End Handler.
End EmployeesList.

(** An identity store with an active super admin, holding the wildcard of
    the seeded [super-admin] role, and an inactive employee; a token
    checker and a signer that fit together. *)
Definition superAdminAccount : Account :=
  {| acc_email := "admin@hrm.com"; acc_password := "hash-of-admin-password";
     acc_name := "System Administrator"; acc_avatar := None;
     acc_companyId := Some "default-company"%string; acc_isActive := true;
     acc_lastLogin := None;
     acc_roles := [ {| role_name := "Super Admin";
                       role_permissions := Some ["*"%string] |} ] |}.

Definition formerEmployeeAccount : Account :=
  {| acc_email := "left@company.com"; acc_password := "hash-of-old-password";
     acc_name := "Former Employee"; acc_avatar := None;
     acc_companyId := Some "default-company"%string; acc_isActive := false;
     acc_lastLogin := None;
     acc_roles := [ {| role_name := "Employee";
                       role_permissions :=
                         Some ["timesheets.create"; "timesheets.read_own"]%string |} ] |}.

Definition identity0 : identity :=
  {| accounts := {[ "admin-user"%string := superAdminAccount;
                    "former-user"%string := formerEmployeeAccount ]};
     companies := {[ "default-company"%string := {| co_name := "Default Company" |} ]};
     userSessions := [] |}.

Definition jwtVerify0 (token : string) : option string :=
  stripPrefix "token-of-" token.

Definition jwtSign0 (payload : JwtPayload) (expiresIn : string) : string :=
  match payload with
  | access_payload userId _ _ => "token-of-" +:+ userId
  | refresh_payload userId => "refresh-of-" +:+ userId
  end.

Definition bcryptCompare0 (password hash : string) : bool :=
  String.eqb ("hash-of-" +:+ password) hash.

(** The query without its date bounds, and the query for another page. *)
Definition withoutDates (q : TimesheetsQuery) : TimesheetsQuery :=
  {| q_page := q_page q; q_limit := q_limit q; q_employeeId := q_employeeId q;
     q_status := q_status q; q_startDate := None; q_endDate := None |}.

Definition withPage (page : Z) (q : TimesheetsQuery) : TimesheetsQuery :=
  {| q_page := Some page; q_limit := q_limit q; q_employeeId := q_employeeId q;
     q_status := q_status q; q_startDate := q_startDate q; q_endDate := q_endDate q |}.

(** The rows of a listing response. *)
Definition responseRows (r : option TimesheetsResponse) : list Timesheet :=
  match r with
  | Some (list_ok rows _) => rows
  | _ => []
  end.

(** One admissible order for [orderBy: { date: 'desc' }]: insertion sort. *)
Fixpoint insertByDate (row : Timesheet) (rows : list Timesheet) : list Timesheet :=
  match rows with
  | [] => [row]
  | x :: rest =>
      if ts_date x <=? ts_date row then row :: x :: rest else x :: insertByDate row rest
  end.

Definition sortByDateDesc (rows : list Timesheet) : list Timesheet :=
  foldr insertByDate [] rows.

(** A ledger with four days of [emp-1], and queries on it. *)
Definition db3 : database :=
  set_timesheets
    (λ _, {[ ("emp-1"%string, day0) := withStatus APPROVED day0 pending0;
             ("emp-1"%string, day0 + MS_PER_DAY) :=
               withStatus PENDING (day0 + MS_PER_DAY) pending0;
             ("emp-1"%string, day0 + 2 * MS_PER_DAY) :=
               withStatus REJECTED (day0 + 2 * MS_PER_DAY) pending0;
             ("emp-1"%string, day0 + 40 * MS_PER_DAY) :=
               withStatus APPROVED (day0 + 40 * MS_PER_DAY) pending0 ]})
    db0.

Definition query0 : TimesheetsQuery :=
  {| q_page := None; q_limit := Some 3; q_employeeId := None; q_status := None;
     q_startDate := Some (day0 + MS_PER_DAY); q_endDate := None |}.

Definition employeesQuery0 : EmployeesQuery :=
  {| eq_page := None; eq_limit := None; eq_search := None;
     eq_companyId := Some "default-company"%string |}.

(** * Properties *)

(** ** Arithmetic of hours *)

Lemma hoursOfMs_eq (ms : Z) : (hoursOfMs ms == inject_Z ms / 3600000)%Q.
Proof. reflexivity. Qed.

Lemma hoursOfMs_0 : (hoursOfMs 0 == 0)%Q.
Proof. reflexivity. Qed.

Lemma hoursOfMs_le (a b : Z) : a <= b -> (hoursOfMs a <= hoursOfMs b)%Q.
Proof.
  intros H. unfold hoursOfMs, Qdiv. apply Qmult_le_compat_r.
  - now rewrite <- Zle_Qle.
  - discriminate.
Qed.

Lemma hoursOfMs_nonneg (a : Z) : 0 <= a -> (0 <= hoursOfMs a)%Q.
Proof. intros H. rewrite <- hoursOfMs_0. now apply hoursOfMs_le. Qed.

Lemma hoursOfMs_hours (k : Z) : (hoursOfMs (k * MS_PER_HOUR) == inject_Z k)%Q.
Proof.
  unfold hoursOfMs. rewrite inject_Z_mult. field. discriminate.
Qed.

(** Case analysis on every [Math.max] / [Math.min] in the goal. *)
Ltac minmax_cases :=
  unfold Math_max, Math_min in *;
  repeat match goal with
    | |- context [Qmax ?a ?b] =>
        let H := fresh in
        destruct (Q.max_spec a b) as [[? H] | [? H]]; rewrite !H in *; clear H
    | |- context [Qmin ?a ?b] =>
        let H := fresh in
        destruct (Q.min_spec a b) as [[? H] | [? H]]; rewrite !H in *; clear H
    end.

Lemma Math_max_0_nonneg (x : Q) : (0 <= Math_max 0 x)%Q.
Proof. minmax_cases; lra. Qed.

Lemma Math_max_0_id (x : Q) : (0 <= x)%Q -> (Math_max 0 x == x)%Q.
Proof. intros; minmax_cases; lra. Qed.

(** ** The classifier in closed form *)

Section Classifier.
Variable tz : Z.

Lemma buckets_closed_form (clockIn clockOut : Z) :
  let acc := fold_left (accumulate clockIn clockOut) (periods tz clockIn)
               {| b_normal := 0; b_ot1_5 := 0; b_ot2 := 0 |} in
  (b_normal acc == Qmin (hoursOfMs (normalOverlap tz clockIn clockOut)) 8)%Q
  /\ (b_ot1_5 acc == hoursOfMs (eveningOverlap tz clockIn clockOut))%Q
  /\ (b_ot2 acc == hoursOfMs (nightOverlap tz clockIn clockOut))%Q.
Proof.
  unfold normalOverlap, eveningOverlap, nightOverlap, overlapMs, periods.
  cbn [fold_left]. unfold accumulate. cbn [p_start p_end p_type].
  set (s8 := setHours tz clockIn 8 0 0 0).
  set (s17 := setHours tz clockIn 17 0 0 0).
  set (s24 := setHours tz clockIn 23 59 59 999).
  set (s0 := setHours tz clockIn 0 0 0 0).
  destruct (Z.ltb_spec (Z.max clockIn s8) (Z.min clockOut s17)) as [Hn | Hn];
    destruct (Z.ltb_spec (Z.max clockIn s17) (Z.min clockOut s24)) as [He | He];
    destruct (Z.ltb_spec (Z.max clockIn s0) (Z.min clockOut s8)) as [Hg | Hg];
    cbn [b_normal b_ot1_5 b_ot2];
    rewrite ?(Z.max_r 0 (Z.min clockOut s17 - Z.max clockIn s8)) by lia;
    rewrite ?(Z.max_l 0 (Z.min clockOut s17 - Z.max clockIn s8)) by lia;
    rewrite ?(Z.max_r 0 (Z.min clockOut s24 - Z.max clockIn s17)) by lia;
    rewrite ?(Z.max_l 0 (Z.min clockOut s24 - Z.max clockIn s17)) by lia;
    rewrite ?(Z.max_r 0 (Z.min clockOut s8 - Z.max clockIn s0)) by lia;
    rewrite ?(Z.max_l 0 (Z.min clockOut s8 - Z.max clockIn s0)) by lia;
    rewrite ?hoursOfMs_0;
    repeat split; unfold Math_min; try reflexivity; try (now rewrite Qplus_0_l);
    symmetry; apply Q.min_l; discriminate.
Qed.

Lemma overlapMs_nonneg (a b s e : Z) : 0 <= overlapMs a b s e.
Proof. unfold overlapMs. lia. Qed.

Lemma calculateOvertime_closed_form (clockIn clockOut : Z) (hourlyRate : Q) :
  let oc := calculateOvertime tz clockIn clockOut hourlyRate in
  (normalHours oc == Qmin (hoursOfMs (normalOverlap tz clockIn clockOut)) 8)%Q
  /\ (ot1_5Hours oc == hoursOfMs (eveningOverlap tz clockIn clockOut))%Q
  /\ (ot2Hours oc == hoursOfMs (nightOverlap tz clockIn clockOut))%Q
  /\ (totalHours oc == hoursOfMs (Z.max 0 (clockOut - clockIn)))%Q
  /\ (overtimePay oc == ot1_5Hours oc * hourlyRate * 1.5 + ot2Hours oc * hourlyRate * 2)%Q.
Proof.
  destruct (buckets_closed_form clockIn clockOut) as (Hn & He & Hg).
  pose proof (hoursOfMs_nonneg _ (overlapMs_nonneg clockIn clockOut
    (setHours tz clockIn 8 0 0 0) (setHours tz clockIn 17 0 0 0))) as Pn.
  pose proof (hoursOfMs_nonneg _ (overlapMs_nonneg clockIn clockOut
    (setHours tz clockIn 17 0 0 0) (setHours tz clockIn 23 59 59 999))) as Pe.
  pose proof (hoursOfMs_nonneg _ (overlapMs_nonneg clockIn clockOut
    (setHours tz clockIn 0 0 0 0) (setHours tz clockIn 8 0 0 0))) as Pg.
  fold (normalOverlap tz clockIn clockOut) in Pn.
  fold (eveningOverlap tz clockIn clockOut) in Pe.
  fold (nightOverlap tz clockIn clockOut) in Pg.
  cbv zeta in *. unfold calculateOvertime.
  cbn [normalHours ot1_5Hours ot2Hours totalHours overtimePay].
  set (acc := fold_left _ _ _) in *.
  assert (E15 : (Math_max 0 (b_ot1_5 acc) == b_ot1_5 acc)%Q)
    by (apply Math_max_0_id; rewrite He; exact Pe).
  assert (E2 : (Math_max 0 (b_ot2 acc) == b_ot2 acc)%Q)
    by (apply Math_max_0_id; rewrite Hg; exact Pg).
  repeat split.
  - rewrite Math_max_0_id; [exact Hn |]. rewrite Hn.
    apply Q.min_glb; [exact Pn | discriminate].
  - now rewrite E15.
  - now rewrite E2.
  - destruct (Z.max_spec 0 (clockOut - clockIn)) as [[Hlt ->] | [Hge ->]].
    + apply Math_max_0_id. apply hoursOfMs_nonneg. lia.
    + unfold Math_max. rewrite Q.max_l; [reflexivity |].
      rewrite <- hoursOfMs_0. apply hoursOfMs_le. lia.
  - now rewrite E15, E2.
Qed.

End Classifier.

(** ** What the timesheet handler stores *)

Section Handler.
Variable tz : Z.

Lemma storedRow_status now data employee d :
  ts_status (storedRow tz now data employee d) = PENDING.
Proof. unfold storedRow. now destruct (timesheets d !! _). Qed.

Lemma storedRow_hours now data employee d :
  let row := storedRow tz now data employee d in
  let oc := derived tz now data employee in
  ts_normalHours row = normalHours oc /\ ts_ot1_5Hours row = ot1_5Hours oc
  /\ ts_ot2Hours row = ot2Hours oc /\ ts_totalHours row = totalHours oc.
Proof. unfold storedRow. now destruct (timesheets d !! _). Qed.

(** A row update that leaves the status PENDING does not fire the trigger's
    accrual. *)
Lemma trigger_idle_when_pending OLD NEW d :
  ts_status NEW = PENDING -> SQL.update_project_actual_cost OLD NEW d = d.
Proof. intros H. unfold SQL.update_project_actual_cost. now rewrite H. Qed.

Lemma upsert_stores now data employee d :
  upsert (employeeId data, date data)
    (upsert_update data (clockIn data) (default now (clockOut data))
       (derived tz now data employee))
    (upsert_create data (clockIn data) (default now (clockOut data))
       (derived tz now data employee)) d
  = (storedRow tz now data employee d,
     set_timesheets <[(employeeId data, date data) := storedRow tz now data employee d]> d).
Proof.
  unfold upsert, storedRow, SQL.update_timesheet, SQL.insert_timesheet.
  destruct (timesheets d !! (employeeId data, date data)) as [old |]; [| reflexivity].
  now rewrite trigger_idle_when_pending.
Qed.

(** An accepted submission is always saved. *)
Lemma POST_accepted now user data d employee :
  accepted user data d employee ->
  POST tz now user data d
  = (json_saved "Timesheet saved successfully" (storedRow tz now data employee d)
       (overtimePay (derived tz now data employee)),
     set_timesheets <[(employeeId data, date data) := storedRow tz now data employee d]> d).
Proof.
  intros (Hp & He & Hc). unfold POST.
  destruct user as [u |]; [| discriminate].
  rewrite Hp, He. cbn [negb]. rewrite (Hc u eq_refl).
  fold (derived tz now data employee). now rewrite upsert_stores.
Qed.

(** A saved response comes from an accepted submission. *)
Lemma POST_saved_inv now user data d message row pay d' :
  POST tz now user data d = (json_saved message row pay, d') ->
  exists employee, accepted user data d employee.
Proof.
  unfold POST, accepted. destruct user as [u |]; [| discriminate].
  destruct (hasPermission (Some u) "timesheets.create"); [| discriminate].
  cbn [negb]. destruct (employees d !! employeeId data) as [employee |]; [| discriminate].
  destruct (companyMismatch u employee) eqn:Hc; [discriminate |].
  intros _. exists employee. repeat split. intros u' [= <-]. exact Hc.
Qed.

(** Anything but a saved response leaves the database as it was. *)
Lemma POST_error_no_write now user data d error status d' :
  POST tz now user data d = (json_error error status, d') -> d' = d.
Proof.
  unfold POST. destruct user as [u |]; [| now intros [= _ _ <-]].
  destruct (negb _); [now intros [= _ _ <-] |].
  destruct (employees d !! employeeId data) as [employee |]; [| now intros [= _ _ <-]].
  destruct (companyMismatch u employee); [now intros [= _ _ <-] |].
  destruct (upsert _ _ _ _). discriminate.
Qed.

End Handler.

(** ** C5: the tier totals against the elapsed time *)

Lemma startOfDay_bounds (tz t : Z) :
  startOfDay tz t <= t < startOfDay tz t + MS_PER_DAY.
Proof.
  unfold startOfDay.
  pose proof (Z.mod_pos_bound (t + tz) MS_PER_DAY eq_refl). lia.
Qed.

Lemma overlaps_partition (tz clockIn clockOut : Z) :
  clockIn < clockOut ->
  startOfDay tz clockOut = startOfDay tz clockIn ->
  normalOverlap tz clockIn clockOut + eveningOverlap tz clockIn clockOut
  + nightOverlap tz clockIn clockOut = clockOut - clockIn.
Proof.
  intros Hlt Hday.
  pose proof (startOfDay_bounds tz clockIn) as Hi.
  pose proof (startOfDay_bounds tz clockOut) as Ho.
  rewrite Hday in Ho.
  unfold normalOverlap, eveningOverlap, nightOverlap, overlapMs, setHours.
  unfold MS_PER_DAY, MS_PER_HOUR in *.
  set (d := startOfDay tz clockIn) in *. clearbody d. clear Hday. lia.
Qed.

(** C5, counterexample: a shift from 08:00 to 17:00 of one day lasts nine
    hours, and the tiers add up to eight. *)
Lemma C5_counterexample :
  at_ 8 0 < at_ 17 0
  /\ startOfDay SGT (at_ 17 0) = startOfDay SGT (at_ 8 0)
  /\ ~ tiers_sum_to_elapsed SGT (at_ 8 0) (at_ 17 0).
Proof.
  split; [reflexivity |]. split; [reflexivity |].
  intros [H _]. vm_compute in H. discriminate H.
Qed.

(** C5, amended: for clockIn < clockOut on one calendar day (of a zone with
    a fixed UTC offset) every tier total is at least 0, and the tiers are
    the separate quotients of an exact split of the elapsed time: the
    milliseconds of the interval inside the three windows add up to
    clockOut - clockIn; ot1_5Hours, ot2Hours and totalHours are the evening
    milliseconds, the night milliseconds and the elapsed milliseconds, each
    divided by 3,600,000; normalHours is the 08:00-17:00 milliseconds, at
    most nine hours of them, divided by 3,600,000 and capped at 8, so that
    nothing is cut off when that overlap is at most 8 hours. *)
Theorem C5_tiers_sum (tz clockIn clockOut : Z) (hourlyRate : Q) :
  clockIn < clockOut ->
  startOfDay tz clockOut = startOfDay tz clockIn ->
  let oc := calculateOvertime tz clockIn clockOut hourlyRate in
  (0 <= normalHours oc)%Q /\ (0 <= ot1_5Hours oc)%Q /\ (0 <= ot2Hours oc)%Q
  /\ normalOverlap tz clockIn clockOut + eveningOverlap tz clockIn clockOut
     + nightOverlap tz clockIn clockOut = clockOut - clockIn
  /\ (normalHours oc == Qmin (hoursOfMs (normalOverlap tz clockIn clockOut)) 8)%Q
  /\ (ot1_5Hours oc == hoursOfMs (eveningOverlap tz clockIn clockOut))%Q
  /\ (ot2Hours oc == hoursOfMs (nightOverlap tz clockIn clockOut))%Q
  /\ (totalHours oc == hoursOfMs (clockOut - clockIn))%Q
  /\ normalOverlap tz clockIn clockOut <= 9 * MS_PER_HOUR
  /\ (normalOverlap tz clockIn clockOut <= 8 * MS_PER_HOUR ->
      (normalHours oc == hoursOfMs (normalOverlap tz clockIn clockOut))%Q).
Proof.
  intros Hlt Hday oc.
  destruct (calculateOvertime_closed_form tz clockIn clockOut hourlyRate)
    as (Hn & He & Hg & Ht & _).
  fold oc in Hn, He, Hg, Ht.
  pose proof (overlaps_partition tz clockIn clockOut Hlt Hday) as Hsum.
  pose proof (hoursOfMs_nonneg _ (overlapMs_nonneg clockIn clockOut
    (setHours tz clockIn 8 0 0 0) (setHours tz clockIn 17 0 0 0))) as Pn.
  pose proof (hoursOfMs_nonneg _ (overlapMs_nonneg clockIn clockOut
    (setHours tz clockIn 17 0 0 0) (setHours tz clockIn 23 59 59 999))) as Pe.
  pose proof (hoursOfMs_nonneg _ (overlapMs_nonneg clockIn clockOut
    (setHours tz clockIn 0 0 0 0) (setHours tz clockIn 8 0 0 0))) as Pg.
  fold (normalOverlap tz clockIn clockOut) in Pn.
  fold (eveningOverlap tz clockIn clockOut) in Pe.
  fold (nightOverlap tz clockIn clockOut) in Pg.
  rewrite Z.max_r in Ht by lia.
  split; [rewrite Hn; apply Q.min_glb; [exact Pn | discriminate] |].
  split; [rewrite He; exact Pe |].
  split; [rewrite Hg; exact Pg |].
  split; [exact Hsum |].
  split; [exact Hn |]. split; [exact He |]. split; [exact Hg |]. split; [exact Ht |].
  split.
  - unfold normalOverlap, overlapMs, setHours, MS_PER_HOUR.
    generalize (startOfDay tz clockIn). intros d. lia.
  - intros Hcap. rewrite Hn. apply Q.min_l.
    apply hoursOfMs_le in Hcap. rewrite hoursOfMs_hours in Hcap. exact Hcap.
Qed.

Lemma C5_tiers_sum_witness :
  at_ 9 0 < at_ 19 0
  /\ startOfDay SGT (at_ 19 0) = startOfDay SGT (at_ 9 0)
  /\ normalOverlap SGT (at_ 9 0) (at_ 19 0) + eveningOverlap SGT (at_ 9 0) (at_ 19 0)
     + nightOverlap SGT (at_ 9 0) (at_ 19 0) = at_ 19 0 - at_ 9 0
  /\ (ot1_5Hours (calculateOvertime SGT (at_ 9 0) (at_ 19 0) 12)
      == hoursOfMs (eveningOverlap SGT (at_ 9 0) (at_ 19 0)))%Q
  /\ (totalHours (calculateOvertime SGT (at_ 9 0) (at_ 19 0) 12)
      == hoursOfMs (at_ 19 0 - at_ 9 0))%Q.
Proof.
  split; [reflexivity |]. split; [reflexivity |].
  destruct (C5_tiers_sum SGT (at_ 9 0) (at_ 19 0) 12 eq_refl eq_refl)
    as (_ & _ & _ & Hsum & _ & He & _ & Ht & _).
  split; [exact Hsum |]. split; [exact He | exact Ht].
Defined.

(** ** C6: the cap on normal hours *)

Lemma normalHours_le_8 (tz clockIn clockOut : Z) (rate : Q) :
  (normalHours (calculateOvertime tz clockIn clockOut rate) <= 8)%Q.
Proof.
  destruct (calculateOvertime_closed_form tz clockIn clockOut rate) as (Hn & _).
  rewrite Hn. apply Q.le_min_r.
Qed.

Lemma adjusted_normalHours_le (oc : OvertimeCalculation) (b : Q) :
  (0 <= b)%Q -> (0 <= normalHours oc)%Q ->
  (normalHours (adjustForBreak oc b) <= normalHours oc)%Q.
Proof.
  intros Hb Hn. unfold adjustForBreak. cbn [normalHours].
  assert (0 <= b / 60)%Q by (apply Qle_shift_div_l; [reflexivity | lra]).
  minmax_cases; lra.
Qed.

Lemma normalHours_nonneg (tz clockIn clockOut : Z) (rate : Q) :
  (0 <= normalHours (calculateOvertime tz clockIn clockOut rate))%Q.
Proof. unfold calculateOvertime. cbn [normalHours]. apply Math_max_0_nonneg. Qed.

Lemma admin_accepted (data : TimesheetData) (d : database) :
  employeeId data = "emp-1"%string ->
  employees d = employees db0 ->
  accepted (Some admin) data d employee0.
Proof.
  intros He Hd. unfold accepted. rewrite He, Hd. repeat split.
  intros u [= <-]. reflexivity.
Qed.

(** C6, counterexample: 09:00 to 17:00 with breakMinutes -60.  The handler
    accepts the body, the classifier's normalHours is 8, the break deduction
    subtracts minus one hour, and the row is stored with normalHours 9. *)
Lemma C6_counterexample :
  exists row pay d',
    POST SGT 0 (Some admin) negativeBreakShift db0
    = (json_saved "Timesheet saved successfully" row pay, d')
    /\ timesheets d' !! ("emp-1"%string, day0) = Some row
    /\ (ts_normalHours row == 9)%Q
    /\ ~ (ts_normalHours row <= 8)%Q.
Proof.
  do 3 eexists. split; [apply POST_accepted; now apply admin_accepted |].
  split; [apply lookup_insert_eq |].
  split; [vm_compute; reflexivity |].
  vm_compute. intros H. now apply H.
Qed.

(** C6, amended: for any clockIn, clockOut and hourly rate the classifier's
    normalHours is at most 8; for any break of b >= 0 minutes it is still at
    most 8 after the break deduction, and so is the normalHours of every row
    the handler saves with break minutes that are not negative. *)
Theorem C6_normalHours_capped :
  (forall tz clockIn clockOut rate,
     (normalHours (calculateOvertime tz clockIn clockOut rate) <= 8)%Q)
  /\ (forall tz clockIn clockOut rate b,
        (0 <= b)%Q ->
        (normalHours (adjustForBreak (calculateOvertime tz clockIn clockOut rate) b) <= 8)%Q)
  /\ (forall tz now user data d message row pay d',
        (0 <= default 0 (breakMinutes data))%Q ->
        POST tz now user data d = (json_saved message row pay, d') ->
        (ts_normalHours row <= 8)%Q).
Proof.
  assert (Hpost : forall tz clockIn clockOut rate b,
             (0 <= b)%Q ->
             (normalHours (adjustForBreak (calculateOvertime tz clockIn clockOut rate) b)
              <= 8)%Q).
  { intros tz ci co rate b Hb.
    eapply Qle_trans; [apply adjusted_normalHours_le; [exact Hb |] |].
    - apply normalHours_nonneg.
    - apply normalHours_le_8. }
  split; [exact normalHours_le_8 |]. split; [exact Hpost |].
  intros tz now user data d message row pay d' Hb HP.
  destruct (POST_saved_inv tz _ _ _ _ _ _ _ _ HP) as [employee Hacc].
  rewrite (POST_accepted tz now user data d employee Hacc) in HP.
  injection HP as _ <- _ _.
  destruct (storedRow_hours tz now data employee d) as (-> & _).
  unfold derived. now apply Hpost.
Qed.

Lemma C6_normalHours_capped_witness :
  (0 <= 60)%Q
  /\ (normalHours (adjustForBreak (calculateOvertime SGT (at_ 8 0) (at_ 17 0) 10) 60) <= 8)%Q
  /\ (ts_normalHours (storedRow SGT 0 (shift (at_ 8 0) (Some (at_ 17 0)) 60) employee0 db0)
      <= 8)%Q.
Proof.
  destruct C6_normalHours_capped as (_ & Hb & Hs).
  split; [discriminate |]. split.
  - apply Hb. discriminate.
  - apply (Hs SGT 0 (Some admin) (shift (at_ 8 0) (Some (at_ 17 0)) 60) db0
             "Timesheet saved successfully"%string _
             (overtimePay (derived SGT 0 (shift (at_ 8 0) (Some (at_ 17 0)) 60) employee0))
             (set_timesheets
                <[("emp-1"%string, day0) :=
                    storedRow SGT 0 (shift (at_ 8 0) (Some (at_ 17 0)) 60) employee0 db0]>
                db0)).
    + discriminate.
    + apply POST_accepted. now apply admin_accepted.
Defined.

(** ** C4: the break deduction *)

(** C4, counterexample: 16:00 to 19:00 with a 120-minute break.  One hour
    falls in the normal window and two in the evening window; the cascade
    would leave one evening hour, the handler stores two. *)
Lemma C4_counterexample :
  exists row pay d',
    POST SGT 0 (Some admin) lateShift db0
    = (json_saved "Timesheet saved successfully" row pay, d')
    /\ (normalHours (calculateOvertime SGT (at_ 16 0) (at_ 19 0) 12) == 1)%Q
    /\ (ot1_5Hours (calculateOvertime SGT (at_ 16 0) (at_ 19 0) 12) == 2)%Q
    /\ (ot1_5Hours (breakCascade_spec (calculateOvertime SGT (at_ 16 0) (at_ 19 0) 12) 120)
        == 1)%Q
    /\ (ts_normalHours row == 0)%Q
    /\ (ts_ot1_5Hours row == 2)%Q
    /\ ~ (ts_ot1_5Hours row
          == ot1_5Hours (breakCascade_spec (calculateOvertime SGT (at_ 16 0) (at_ 19 0) 12)
                           120))%Q.
Proof.
  do 3 eexists. split.
  - apply POST_accepted. now apply admin_accepted.
  - repeat split; try (vm_compute; reflexivity).
    intros H. vm_compute in H. discriminate H.
Qed.

Lemma startOfDay_anchor (tz d k : Z) :
  (d + tz) mod MS_PER_DAY = 0 -> 0 <= k < MS_PER_DAY -> startOfDay tz (d + k) = d.
Proof.
  intros Hd Hk. unfold startOfDay.
  replace (d + k + tz) with (k + (d + tz)) by lia.
  rewrite <- Z.add_mod_idemp_r, Hd, Z.add_0_r by discriminate.
  rewrite Z.mod_small by exact Hk. lia.
Qed.

(** The example of the specification, on any day [d] of any zone. *)
Lemma example_9_to_19 (tz d : Z) (rate : Q) :
  (d + tz) mod MS_PER_DAY = 0 ->
  let oc := adjustForBreak
              (calculateOvertime tz (d + 9 * MS_PER_HOUR) (d + 19 * MS_PER_HOUR) rate) 60 in
  (normalHours oc == 7)%Q /\ (ot1_5Hours oc == 2)%Q /\ (ot2Hours oc == 0)%Q
  /\ (totalHours oc == 9)%Q /\ (overtimePay oc == 2 * rate * 1.5)%Q.
Proof.
  intros Hd oc.
  destruct (calculateOvertime_closed_form tz (d + 9 * MS_PER_HOUR) (d + 19 * MS_PER_HOUR) rate)
    as (Hn & He & Hg & Ht & Hp).
  assert (Hs : startOfDay tz (d + 9 * MS_PER_HOUR) = d)
    by (apply startOfDay_anchor; [exact Hd | unfold MS_PER_DAY, MS_PER_HOUR; lia]).
  assert (En : normalOverlap tz (d + 9 * MS_PER_HOUR) (d + 19 * MS_PER_HOUR) = 8 * MS_PER_HOUR).
  { unfold normalOverlap, overlapMs, setHours. rewrite Hs. unfold MS_PER_HOUR. lia. }
  assert (Ee : eveningOverlap tz (d + 9 * MS_PER_HOUR) (d + 19 * MS_PER_HOUR) = 2 * MS_PER_HOUR).
  { unfold eveningOverlap, overlapMs, setHours. rewrite Hs. unfold MS_PER_HOUR. lia. }
  assert (Eg : nightOverlap tz (d + 9 * MS_PER_HOUR) (d + 19 * MS_PER_HOUR) = 0).
  { unfold nightOverlap, overlapMs, setHours. rewrite Hs. unfold MS_PER_HOUR. lia. }
  assert (Et : Z.max 0 (d + 19 * MS_PER_HOUR - (d + 9 * MS_PER_HOUR)) = 10 * MS_PER_HOUR)
    by (unfold MS_PER_HOUR; lia).
  rewrite En in Hn. rewrite Ee in He. rewrite Eg in Hg. rewrite Et in Ht.
  rewrite hoursOfMs_hours in Hn, He, Ht. rewrite hoursOfMs_0 in Hg.
  change (inject_Z 8) with 8%Q in Hn. change (inject_Z 2) with 2%Q in He.
  change (inject_Z 10) with 10%Q in Ht.
  rewrite Q.min_l in Hn by discriminate.
  subst oc. unfold adjustForBreak.
  cbn [normalHours ot1_5Hours ot2Hours totalHours overtimePay].
  rewrite Hp, Hn, He, Hg, Ht. repeat split; try reflexivity. ring.
Qed.

(** C4, amended: for every accepted submission the break of b minutes is
    subtracted, as b/60 hours, from the NORMAL bucket and from totalHours,
    each clamped at zero; the EVENING and NIGHT buckets and overtimePay stay
    as the classifier computed them (no remainder is carried over).  For
    clockIn 09:00, clockOut 19:00, break 60 minutes the stored result is
    normalHours 7, eveningHours 2, totalHours 9, overtimePay = 2 x rate x
    1.5. *)
Theorem C4_break_deduction (tz now : Z) (user : option AuthUser) (data : TimesheetData)
    (d : database) (employee : Employee) :
  accepted user data d employee ->
  let raw := calculateOvertime tz (clockIn data) (default now (clockOut data))
               (e_hourlyRate employee) in
  let b := default 0%Q (breakMinutes data) in
  exists row d',
    POST tz now user data d
    = (json_saved "Timesheet saved successfully" row (overtimePay raw), d')
    /\ ts_normalHours row = Math_max 0 (normalHours raw - b / 60)
    /\ ts_totalHours row = Math_max 0 (totalHours raw - b / 60)
    /\ ts_ot1_5Hours row = ot1_5Hours raw
    /\ ts_ot2Hours row = ot2Hours raw
    /\ (forall day,
          (day + tz) mod MS_PER_DAY = 0 ->
          clockIn data = day + 9 * MS_PER_HOUR ->
          clockOut data = Some (day + 19 * MS_PER_HOUR) ->
          breakMinutes data = Some 60%Q ->
          (ts_normalHours row == 7)%Q /\ (ts_ot1_5Hours row == 2)%Q
          /\ (ts_ot2Hours row == 0)%Q /\ (ts_totalHours row == 9)%Q
          /\ (overtimePay raw == 2 * e_hourlyRate employee * 1.5)%Q).
Proof.
  intros Hacc raw b. do 2 eexists. split; [apply (POST_accepted tz _ _ _ _ _ Hacc) |].
  destruct (storedRow_hours tz now data employee d) as (Hn & He & Hg & Ht).
  rewrite Hn, He, Hg, Ht. unfold derived. fold raw. fold b.
  do 4 (split; [reflexivity |]).
  intros day Hday Hin Hout Hb.
  pose proof (example_9_to_19 tz day (e_hourlyRate employee) Hday) as Hex.
  subst raw b. rewrite Hin, Hout, Hb. cbn [default]. exact Hex.
Qed.

Lemma C4_break_deduction_witness :
  accepted (Some admin) dayShift db0 employee0
  /\ exists row d',
       POST SGT 0 (Some admin) dayShift db0
       = (json_saved "Timesheet saved successfully" row
            (overtimePay (calculateOvertime SGT (at_ 9 0) (at_ 19 0) 12)), d')
       /\ (ts_normalHours row == 7)%Q /\ (ts_ot1_5Hours row == 2)%Q
       /\ (ts_totalHours row == 9)%Q
       /\ (overtimePay (calculateOvertime SGT (at_ 9 0) (at_ 19 0) 12) == 2 * 12 * 1.5)%Q.
Proof.
  assert (Hacc : accepted (Some admin) dayShift db0 employee0)
    by now apply admin_accepted.
  split; [exact Hacc |].
  destruct (C4_break_deduction SGT 0 _ _ _ _ Hacc) as (row & d' & HP & _ & _ & _ & _ & Hex).
  destruct (Hex day0 eq_refl eq_refl eq_refl eq_refl) as (Hn & He & _ & Ht & Hp).
  exists row, d'. repeat split; assumption.
Defined.

(** ** C3: malformed intervals *)

(** C3, counterexample: clockIn 09:00 with clockOut 08:00, and 09:00 to
    10:00 with a break of 120 minutes, on an empty ledger: both are answered
    with the success response and a row is created. *)
Lemma C3_counterexample :
  timesheets db0 !! ("emp-1"%string, day0) = None
  /\ at_ 8 0 < at_ 9 0
  /\ (inject_Z (at_ 10 0 - at_ 9 0) / 60000 < 120)%Q
  /\ (exists row pay d',
        POST SGT 0 (Some admin) reversedShift db0
        = (json_saved "Timesheet saved successfully" row pay, d')
        /\ timesheets d' !! ("emp-1"%string, day0) = Some row)
  /\ (exists row pay d',
        POST SGT 0 (Some admin) longBreakShift db0
        = (json_saved "Timesheet saved successfully" row pay, d')
        /\ timesheets d' !! ("emp-1"%string, day0) = Some row).
Proof.
  split; [reflexivity |]. split; [reflexivity |]. split; [reflexivity |].
  split; do 3 eexists; (split; [apply POST_accepted; now apply admin_accepted |]);
    cbn [timesheets set_timesheets]; apply lookup_insert_eq.
Qed.

Lemma normalOverlap_le_elapsed (tz clockIn clockOut : Z) :
  normalOverlap tz clockIn clockOut <= Z.max 0 (clockOut - clockIn).
Proof. unfold normalOverlap, overlapMs. lia. Qed.

(** With a break of at least the elapsed time, or no elapsed time at all,
    the adjusted normal and total hours are clamped to zero. *)
Lemma adjusted_hours_zero (tz clockIn clockOut : Z) (rate b : Q) :
  (0 <= b)%Q ->
  (hoursOfMs (clockOut - clockIn) <= b / 60)%Q ->
  let oc := adjustForBreak (calculateOvertime tz clockIn clockOut rate) b in
  (normalHours oc == 0)%Q /\ (totalHours oc == 0)%Q.
Proof.
  intros Hb Hle oc.
  destruct (calculateOvertime_closed_form tz clockIn clockOut rate) as (Hn & _ & _ & Ht & _).
  assert (Hb60 : (0 <= b / 60)%Q) by (apply Qle_shift_div_l; [reflexivity | lra]).
  assert (Htot : (hoursOfMs (Z.max 0 (clockOut - clockIn)) <= b / 60)%Q).
  { destruct (Z.max_spec 0 (clockOut - clockIn)) as [[_ ->] | [_ ->]];
      [exact Hle | now rewrite hoursOfMs_0]. }
  pose proof (hoursOfMs_le _ _ (normalOverlap_le_elapsed tz clockIn clockOut)) as Hno.
  subst oc. unfold adjustForBreak. cbn [normalHours totalHours].
  rewrite Hn, Ht. split; minmax_cases; lra.
Qed.

(** C3, amended: a submission in which clockOut precedes or equals clockIn,
    or in which the break minutes exceed the elapsed minutes, is not
    rejected.  For an accepted caller and break minutes >= 0 the handler
    answers with the success response and writes the row under
    (employeeId, date), with status PENDING and with normalHours and
    totalHours clamped to 0. *)
Theorem C3_malformed_interval_saved (tz now : Z) (user : option AuthUser)
    (data : TimesheetData) (d : database) (employee : Employee) :
  accepted user data d employee ->
  let clockOutTime := default now (clockOut data) in
  let b := default 0%Q (breakMinutes data) in
  (0 <= b)%Q ->
  clockOutTime <= clockIn data \/ (inject_Z (clockOutTime - clockIn data) / 60000 < b)%Q ->
  exists row pay d',
    POST tz now user data d = (json_saved "Timesheet saved successfully" row pay, d')
    /\ timesheets d' !! (employeeId data, date data) = Some row
    /\ ts_status row = PENDING
    /\ (ts_normalHours row == 0)%Q
    /\ (ts_totalHours row == 0)%Q.
Proof.
  intros Hacc clockOutTime b Hb Hbad. do 3 eexists.
  split; [apply (POST_accepted tz _ _ _ _ _ Hacc) |].
  split; [cbn [timesheets set_timesheets]; apply lookup_insert_eq |].
  split; [apply storedRow_status |].
  destruct (storedRow_hours tz now data employee d) as (-> & _ & _ & ->).
  unfold derived. apply adjusted_hours_zero; [exact Hb |].
  fold clockOutTime. fold b.
  assert (Hb60 : (0 <= b / 60)%Q) by (apply Qle_shift_div_l; [reflexivity | lra]).
  destruct Hbad as [Hrev | Hlong].
  - apply Qle_trans with (y := hoursOfMs 0);
      [apply hoursOfMs_le; lia | now rewrite hoursOfMs_0].
  - rewrite hoursOfMs_eq.
    assert (E : (inject_Z (clockOutTime - clockIn data) / 3600000
                 == inject_Z (clockOutTime - clockIn data) / 60000 / 60)%Q) by field.
    rewrite E. apply Qmult_le_compat_r; [now apply Qlt_le_weak | discriminate].
Qed.

Lemma C3_malformed_interval_saved_witness :
  accepted (Some admin) reversedShift db0 employee0
  /\ (0 <= 0)%Q
  /\ at_ 8 0 <= at_ 9 0
  /\ exists row pay d',
       POST SGT 0 (Some admin) reversedShift db0
       = (json_saved "Timesheet saved successfully" row pay, d')
       /\ timesheets d' !! ("emp-1"%string, day0) = Some row
       /\ ts_status row = PENDING
       /\ (ts_normalHours row == 0)%Q
       /\ (ts_totalHours row == 0)%Q.
Proof.
  assert (Hacc : accepted (Some admin) reversedShift db0 employee0)
    by now apply admin_accepted.
  split; [exact Hacc |]. split; [discriminate |]. split; [discriminate |].
  apply (C3_malformed_interval_saved SGT 0 _ _ _ _ Hacc); [discriminate |].
  left. discriminate.
Defined.

(** ** C1: resubmission against an APPROVED entry *)

(** C1, counterexample: the entry of [emp-1] for [day0] is APPROVED; a
    submission of 09:00 to 19:00 for the same key is answered with the
    success response, and the stored entry now is PENDING with other
    hours. *)
Lemma C1_counterexample :
  timesheets db1 !! ("emp-1"%string, day0) = Some approved0
  /\ ts_status approved0 = APPROVED
  /\ exists row pay d',
       POST SGT 0 (Some admin) dayShift db1
       = (json_saved "Timesheet saved successfully" row pay, d')
       /\ timesheets d' !! ("emp-1"%string, day0) = Some row
       /\ ts_status row = PENDING
       /\ (ts_normalHours row == 7)%Q /\ (ts_normalHours approved0 == 8)%Q
       /\ row <> approved0.
Proof.
  split; [apply lookup_insert_eq |]. split; [reflexivity |].
  do 3 eexists. split; [apply POST_accepted; now apply admin_accepted |].
  split; [cbn [timesheets set_timesheets]; apply lookup_insert_eq |].
  split; [apply storedRow_status |].
  split; [vm_compute; reflexivity |]. split; [reflexivity |].
  intros H. apply (f_equal ts_status) in H. rewrite storedRow_status in H. discriminate H.
Qed.

(** C1, amended: a submission whose (employeeId, date) key matches an
    existing entry with status APPROVED is not refused.  For an accepted
    caller the handler answers with the success response, the entry's clock
    times, break and hour fields are replaced by the newly derived ones and
    its status is set back to PENDING; every other entry and every project's
    cost are left as they were. *)
Theorem C1_resubmission_overwrites_approved (tz now : Z) (user : option AuthUser)
    (data : TimesheetData) (d : database) (employee : Employee) (old : Timesheet) :
  accepted user data d employee ->
  timesheets d !! (employeeId data, date data) = Some old ->
  ts_status old = APPROVED ->
  let oc := derived tz now data employee in
  exists row d',
    POST tz now user data d
    = (json_saved "Timesheet saved successfully" row (overtimePay oc), d')
    /\ timesheets d' !! (employeeId data, date data) = Some row
    /\ ts_status row = PENDING
    /\ ts_clockIn row = clockIn data
    /\ ts_clockOut row = default now (clockOut data)
    /\ ts_breakMinutes row = default 0%Q (breakMinutes data)
    /\ ts_normalHours row = normalHours oc
    /\ ts_ot1_5Hours row = ot1_5Hours oc
    /\ ts_ot2Hours row = ot2Hours oc
    /\ ts_totalHours row = totalHours oc
    /\ (forall key, key <> (employeeId data, date data) ->
                    timesheets d' !! key = timesheets d !! key)
    /\ projects d' = projects d.
Proof.
  intros Hacc Hold Hst oc. do 2 eexists.
  split; [apply (POST_accepted tz _ _ _ _ _ Hacc) |].
  split; [cbn [timesheets set_timesheets]; apply lookup_insert_eq |].
  unfold storedRow. rewrite Hold.
  do 8 (split; [reflexivity |]).
  split; [| reflexivity].
  intros key Hkey. cbn [timesheets set_timesheets]. now apply lookup_insert_ne.
Qed.

Lemma C1_resubmission_overwrites_approved_witness :
  accepted (Some admin) dayShift db1 employee0
  /\ timesheets db1 !! ("emp-1"%string, day0) = Some approved0
  /\ ts_status approved0 = APPROVED
  /\ exists row pay d',
       POST SGT 0 (Some admin) dayShift db1
       = (json_saved "Timesheet saved successfully" row pay, d')
       /\ timesheets d' !! ("emp-1"%string, day0) = Some row
       /\ ts_status row = PENDING.
Proof.
  assert (Hacc : accepted (Some admin) dayShift db1 employee0)
    by now apply admin_accepted.
  assert (Hold : timesheets db1 !! ("emp-1"%string, day0) = Some approved0)
    by apply lookup_insert_eq.
  split; [exact Hacc |]. split; [exact Hold |]. split; [reflexivity |].
  destruct (C1_resubmission_overwrites_approved SGT 0 _ _ _ _ _ Hacc Hold eq_refl)
    as (row & d' & HP & Hrow & Hst & _).
  exists row. eexists. exists d'. repeat split; [exact HP | exact Hrow | exact Hst].
Defined.

(** ** C7: resubmitting the same interval *)

(** C7, counterexample: the same body with clockIn 09:00 and no clockOut,
    submitted at 10:00 and again at 11:00 while the entry is PENDING,
    derives one normal hour the first time and two the second. *)
Lemma C7_counterexample :
  exists row1 pay1 d1 row2 pay2 d2,
    POST SGT (at_ 10 0) (Some admin) openShift db0
    = (json_saved "Timesheet saved successfully" row1 pay1, d1)
    /\ (ts_status <$> timesheets d1 !! ("emp-1"%string, day0)) = Some PENDING
    /\ POST SGT (at_ 11 0) (Some admin) openShift d1
       = (json_saved "Timesheet saved successfully" row2 pay2, d2)
    /\ (ts_normalHours row1 == 1)%Q
    /\ (ts_normalHours row2 == 2)%Q
    /\ ~ (ts_normalHours row1 == ts_normalHours row2)%Q.
Proof.
  do 6 eexists.
  split; [apply POST_accepted; now apply admin_accepted |].
  split; [cbn [timesheets set_timesheets]; rewrite lookup_insert_eq; reflexivity |].
  split; [apply POST_accepted; now apply admin_accepted |].
  split; [vm_compute; reflexivity |].
  split; [vm_compute; reflexivity |].
  intros H. vm_compute in H. discriminate H.
Qed.

(** A refusal does not depend on the time of the submission. *)
Lemma POST_error_any_time (tz now now' : Z) (user : option AuthUser) (data : TimesheetData)
    (d : database) (error : string) (status : Z) (d' : database) :
  POST tz now user data d = (json_error error status, d') ->
  POST tz now' user data d = (json_error error status, d').
Proof.
  unfold POST. destruct user as [u |]; [| exact id].
  destruct (negb _); [exact id |].
  destruct (employees d !! employeeId data) as [employee |]; [| exact id].
  destruct (companyMismatch u employee); [exact id |].
  destruct (upsert _ _ _ _). discriminate.
Qed.

Lemma set_timesheets_insert_twice (key : string * Z) (row : Timesheet) (d : database) :
  set_timesheets <[key := row]> (set_timesheets <[key := row]> d)
  = set_timesheets <[key := row]> d.
Proof. unfold set_timesheets. cbn. f_equal. apply insert_insert_eq. Qed.

Lemma accepted_after_POST (tz now : Z) (user : option AuthUser) (data : TimesheetData)
    (d : database) (employee : Employee) (user' : option AuthUser) (data' : TimesheetData) :
  accepted user' data' d employee ->
  accepted user' data' (POST tz now user data d).2 employee.
Proof.
  intros (Hp & He & Hc). repeat split; [exact Hp | | exact Hc].
  destruct (POST tz now user data d) as [r d'] eqn:HP. cbn [snd].
  destruct r as [error status | message row pay].
  - now rewrite (POST_error_no_write tz _ _ _ _ _ _ _ HP).
  - destruct (POST_saved_inv tz _ _ _ _ _ _ _ _ HP) as [e Hacc].
    rewrite (POST_accepted tz _ _ _ _ _ Hacc) in HP. injection HP as _ _ _ <-. exact He.
Qed.

(** C7, amended: when the body carries a clockOut, submitting it twice (at
    any two moments) gives the same response both times, with identical
    normalHours, ot1_5Hours, ot2Hours, totalHours and overtimePay, and the
    second submission leaves the database as the first left it; the derived
    fields of an accepted submission are a function of the body and the
    employee's hourly rate alone.  Without a clockOut the handler uses the
    time of the submission as clockOut, and the derived fields depend on
    it. *)
Theorem C7_resubmission_idempotent (tz now1 now2 : Z) (user : option AuthUser)
    (data : TimesheetData) (d : database) (clockOutTime : Z) :
  clockOut data = Some clockOutTime ->
  POST tz now2 user data (POST tz now1 user data d).2 = POST tz now1 user data d
  /\ forall user' d' employee employee',
       accepted user data d employee ->
       accepted user' data d' employee' ->
       e_hourlyRate employee' = e_hourlyRate employee ->
       derivedFields (POST tz now2 user' data d').1 = derivedFields (POST tz now1 user data d).1
       /\ derivedFields (POST tz now1 user data d).1
          = (let oc := adjustForBreak
                         (calculateOvertime tz (clockIn data) clockOutTime
                            (e_hourlyRate employee))
                         (default 0%Q (breakMinutes data)) in
             Some (normalHours oc, ot1_5Hours oc, ot2Hours oc, totalHours oc, overtimePay oc)).
Proof.
  intros Hout. split.
  - destruct (POST tz now1 user data d) as [r d1] eqn:HP. cbn [snd].
    destruct r as [error status | message row pay].
    + rewrite (POST_error_no_write tz _ _ _ _ _ _ _ HP).
      apply (POST_error_any_time tz now1 now2) in HP.
      now rewrite (POST_error_no_write tz _ _ _ _ _ _ _ HP) in HP.
    + destruct (POST_saved_inv tz _ _ _ _ _ _ _ _ HP) as [employee Hacc].
      pose proof (accepted_after_POST tz now1 user data d employee user data Hacc) as Hacc'.
      rewrite HP in Hacc'. cbn [snd] in Hacc'.
      rewrite (POST_accepted tz _ _ _ _ _ Hacc').
      rewrite (POST_accepted tz _ _ _ _ _ Hacc) in HP.
      injection HP as <- <- <- <-.
      assert (Hd : derived tz now2 data employee = derived tz now1 data employee)
        by (unfold derived; now rewrite Hout).
      assert (Hrow : storedRow tz now2 data employee
                       (set_timesheets
                          <[(employeeId data, date data) := storedRow tz now1 data employee d]> d)
                     = storedRow tz now1 data employee d).
      { unfold storedRow at 1. cbn [timesheets set_timesheets].
        rewrite lookup_insert_eq, Hd, Hout. cbn [default].
        unfold storedRow. rewrite Hout. cbn [default].
        destruct (timesheets d !! (employeeId data, date data)) as [old |];
          unfold upsert_update, upsert_create; cbn;
          destruct (projectAssignmentId data); reflexivity. }
      rewrite Hrow, Hd, set_timesheets_insert_twice. reflexivity.
  - intros user' d' employee employee' Hacc Hacc' Hrate.
    rewrite (POST_accepted tz _ _ _ _ _ Hacc), (POST_accepted tz _ _ _ _ _ Hacc').
    cbn [fst derivedFields].
    destruct (storedRow_hours tz now1 data employee d) as (-> & -> & -> & ->).
    destruct (storedRow_hours tz now2 data employee' d') as (-> & -> & -> & ->).
    unfold derived. rewrite Hout, Hrate. cbn [default]. split; reflexivity.
Qed.

Lemma C7_resubmission_idempotent_witness :
  clockOut dayShift = Some (at_ 19 0)
  /\ POST SGT (at_ 20 0) (Some admin) dayShift
       (POST SGT (at_ 19 30) (Some admin) dayShift db0).2
     = POST SGT (at_ 19 30) (Some admin) dayShift db0.
Proof.
  split; [reflexivity |].
  apply (C7_resubmission_idempotent SGT (at_ 19 30) (at_ 20 0) (Some admin) dayShift db0
           (at_ 19 0)).
  reflexivity.
Defined.

(** ** C2: cost propagation on approval *)

(** The trigger writes to [projects] only. *)
Lemma trigger_keeps_tables (OLD NEW : Timesheet) (d : database) :
  let d' := SQL.update_project_actual_cost OLD NEW d in
  timesheets d' = timesheets d /\ employees d' = employees d
  /\ project_assignments d' = project_assignments d.
Proof.
  unfold SQL.update_project_actual_cost.
  destruct (_ && _); [| now repeat split].
  destruct (SQL.select_project_id d (ts_projectAssignmentId NEW)); now repeat split.
Qed.

(** An update that does not move the row into APPROVED accrues nothing. *)
Lemma trigger_idle (OLD NEW : Timesheet) (d : database) :
  ~ (ts_status OLD <> APPROVED /\ ts_status NEW = APPROVED) ->
  SQL.update_project_actual_cost OLD NEW d = d.
Proof.
  intros H. unfold SQL.update_project_actual_cost.
  destruct (bool_decide_reflect (ts_status NEW = APPROVED)) as [Hn |]; [| reflexivity].
  destruct (bool_decide_reflect (ts_status OLD = APPROVED)) as [Ho | Ho]; [reflexivity |].
  exfalso. apply H. now split.
Qed.

(** An update that moves the row into APPROVED adds the accrual to the
    project of the row's assignment. *)
Lemma trigger_fires (OLD NEW : Timesheet) (d : database) (pid : string) :
  ts_status OLD <> APPROVED -> ts_status NEW = APPROVED ->
  SQL.select_project_id d (ts_projectAssignmentId NEW) = Some pid ->
  SQL.update_project_actual_cost OLD NEW d
  = set_projects (alter (SQL.add_actual_cost (SQL.accrual d NEW)) pid) d.
Proof.
  intros Ho Hn Hp. unfold SQL.update_project_actual_cost.
  rewrite Hn, Hp. rewrite bool_decide_eq_true_2 by reflexivity.
  now rewrite bool_decide_eq_false_2 by exact Ho.
Qed.

(** The pay the handler reports is the trigger's overtime pay of the row it
    stores, at the employee's rate. *)
Lemma reported_pay_is_trigger_pay (tz now : Z) (data : TimesheetData) (employee : Employee)
    (d : database) :
  let row := storedRow tz now data employee d in
  (overtimePay (derived tz now data employee)
   == SQL.calculate_overtime_pay (ts_normalHours row) (ts_ot1_5Hours row) (ts_ot2Hours row)
        (e_hourlyRate employee))%Q.
Proof.
  intros row. destruct (storedRow_hours tz now data employee d) as (_ & He & Hg & _).
  fold row in He, Hg. rewrite He, Hg. unfold derived, adjustForBreak.
  cbn [overtimePay ot1_5Hours ot2Hours]. unfold SQL.calculate_overtime_pay.
  now destruct (calculateOvertime_closed_form tz (clockIn data) (default now (clockOut data))
                  (e_hourlyRate employee)) as (_ & _ & _ & _ & ->).
Qed.

(** C2: let an update of a ledger row turn OLD into NEW, where NEW carries a
    project assignment owned by project pid and the employee's rate is
    known.  When the status moves from a non-APPROVED state to APPROVED,
    pid's actualCost grows by exactly normalHours x hourlyRate +
    overtimePay (overtimePay = ot1_5Hours x rate x 1.5 + ot2Hours x rate x 2)
    and no other project changes; when it does not, no project changes; and a
    second approval of the already APPROVED row (approvals of one row are
    serialised by the row update) accrues nothing, so two approvals yield one
    accrual. *)
Theorem C2_accrual_once_per_transition (d : database) (key : string * Z)
    (set set' : Timesheet -> Timesheet) (OLD : Timesheet) (employee : Employee)
    (assignment pid : string) (project : Project) (cost : Q) :
  timesheets d !! key = Some OLD ->
  let NEW := set OLD in
  let delta := (ts_normalHours NEW * e_hourlyRate employee
                + SQL.calculate_overtime_pay (ts_normalHours NEW) (ts_ot1_5Hours NEW)
                    (ts_ot2Hours NEW) (e_hourlyRate employee))%Q in
  let d1 := SQL.update_timesheet key set d in
  let d2 := SQL.update_timesheet key set' d1 in
  employees d !! ts_employeeId NEW = Some employee ->
  ts_projectAssignmentId NEW = Some assignment ->
  project_assignments d !! assignment = Some {| pa_project_id := pid |} ->
  projects d !! pid = Some project ->
  pj_actual_cost project = Some cost ->
  (ts_status OLD <> APPROVED -> ts_status NEW = APPROVED ->
     (pj_actual_cost <$> projects d1 !! pid) = Some (Some (cost + delta)%Q)
     /\ (forall p, p <> pid -> projects d1 !! p = projects d !! p)
     /\ (ts_status (set' NEW) = APPROVED ->
         projects d2 = projects d1
         /\ (pj_actual_cost <$> projects d2 !! pid) = Some (Some (cost + delta)%Q)))
  /\ (~ (ts_status OLD <> APPROVED /\ ts_status NEW = APPROVED) -> projects d1 = projects d)
  /\ (SQL.calculate_overtime_pay (ts_normalHours NEW) (ts_ot1_5Hours NEW) (ts_ot2Hours NEW)
        (e_hourlyRate employee)
      == ts_ot1_5Hours NEW * e_hourlyRate employee * 1.5
         + ts_ot2Hours NEW * e_hourlyRate employee * 2)%Q.
Proof.
  intros Hold NEW delta d1 d2 Hemp Hassign Hpa Hproj Hcost.
  assert (E1 : d1 = SQL.update_project_actual_cost OLD NEW (set_timesheets <[key := NEW]> d))
    by (subst d1; unfold SQL.update_timesheet; now rewrite Hold).
  split; [| split; [| reflexivity]].
  - intros Ho Hn.
    assert (Hpid : SQL.select_project_id (set_timesheets <[key := NEW]> d)
                     (ts_projectAssignmentId NEW) = Some pid).
    { unfold SQL.select_project_id. rewrite Hassign. cbn. now rewrite Hpa. }
    assert (Hacc : SQL.accrual (set_timesheets <[key := NEW]> d) NEW = Some delta).
    { unfold SQL.accrual, SQL.select_hourly_rate. cbn. now rewrite Hemp. }
    rewrite (trigger_fires OLD NEW _ pid Ho Hn Hpid), Hacc in E1.
    assert (Hcost1 : (pj_actual_cost <$> projects d1 !! pid) = Some (Some (cost + delta)%Q)).
    { rewrite E1. cbn [projects set_projects set_timesheets].
      rewrite lookup_alter_eq, Hproj. cbn. now rewrite Hcost. }
    split; [exact Hcost1 |]. split.
    + intros p Hp. rewrite E1. cbn [projects set_projects set_timesheets].
      now apply lookup_alter_ne.
    + intros Hn'.
      assert (Hrow : timesheets d1 !! key = Some NEW).
      { rewrite E1. cbn [timesheets set_projects set_timesheets]. apply lookup_insert_eq. }
      assert (E2 : projects d2 = projects d1).
      { subst d2. unfold SQL.update_timesheet. rewrite Hrow.
        rewrite trigger_idle; [reflexivity |]. intros [Hne _]. now apply Hne. }
      split; [exact E2 | now rewrite E2].
  - intros Hidle. rewrite E1. now rewrite trigger_idle.
Qed.

Lemma C2_accrual_once_per_transition_witness :
  timesheets db2 !! ("emp-1"%string, day0) = Some pending0
  /\ ts_status pending0 <> APPROVED
  /\ ts_status (setApproved pending0) = APPROVED
  /\ (pj_actual_cost <$> projects db2 !! "project-1"%string) = Some (Some 0%Q)
  /\ (pj_actual_cost
      <$> projects (SQL.update_timesheet ("emp-1"%string, day0) setApproved db2)
          !! "project-1"%string)
     = Some (Some (0 + (7 * 12 + SQL.calculate_overtime_pay 7 2 0 12))%Q)
  /\ (pj_actual_cost
      <$> projects
            (SQL.update_timesheet ("emp-1"%string, day0) setApproved
               (SQL.update_timesheet ("emp-1"%string, day0) setApproved db2))
          !! "project-1"%string)
     = Some (Some (0 + (7 * 12 + SQL.calculate_overtime_pay 7 2 0 12))%Q)
  /\ (0 + (7 * 12 + SQL.calculate_overtime_pay 7 2 0 12) == 120)%Q.
Proof.
  assert (Hold : timesheets db2 !! ("emp-1"%string, day0) = Some pending0)
    by apply lookup_insert_eq.
  destruct (C2_accrual_once_per_transition db2 ("emp-1"%string, day0) setApproved setApproved pending0 employee0
              "assign-1" "project-1"
              {| pj_name := "HRM System Development"; pj_estimated_cost := Some 150000%Q;
                 pj_actual_cost := Some 0%Q |} 0
              Hold eq_refl eq_refl eq_refl eq_refl eq_refl) as (Hfire & _ & _).
  destruct (Hfire ltac:(discriminate) eq_refl) as (H1 & _ & H2).
  destruct (H2 eq_refl) as (_ & H3).
  split; [exact Hold |]. split; [discriminate |]. split; [reflexivity |].
  split; [reflexivity |]. split; [exact H1 |]. split; [exact H3 | reflexivity].
Defined.

(** ** C9: permission checks *)

Lemma includes_true (l : list string) (x : string) : includes l x = true <-> x ∈ l.
Proof. unfold includes. apply bool_decide_eq_true. Qed.

(** C9: hasPermission is true exactly when the user is not null and the
    user's permissions contain the permission string itself or the wildcard
    "*"; a null user is denied every permission, and a user holding "*"
    passes every check. *)
Theorem C9_hasPermission_iff :
  (forall (user : option AuthUser) (permission : string),
     hasPermission user permission = true
     <-> exists u, user = Some u
                   /\ (permission ∈ permissions u \/ "*"%string ∈ permissions u))
  /\ (forall permission, hasPermission None permission = false)
  /\ (forall u permission,
        "*"%string ∈ permissions u -> hasPermission (Some u) permission = true).
Proof.
  assert (Hiff : forall user permission,
             hasPermission user permission = true
             <-> exists u, user = Some u
                           /\ (permission ∈ permissions u \/ "*"%string ∈ permissions u)).
  { intros [u |] permission; cbn [hasPermission].
    - rewrite orb_true_iff, !includes_true. split.
      + intros H. now exists u.
      + now intros (u' & [= <-] & H).
    - split; [discriminate | now intros (u & [=] & _)]. }
  split; [exact Hiff |]. split; [reflexivity |].
  intros u permission Hstar. apply Hiff. exists u. split; [reflexivity | now right].
Qed.

Lemma C9_hasPermission_iff_witness :
  "*"%string ∈ permissions admin
  /\ hasPermission (Some admin) "timesheets.approve" = true
  /\ hasPermission None "timesheets.approve" = false.
Proof.
  destruct C9_hasPermission_iff as (_ & Hnull & Hstar).
  assert (Hin : "*"%string ∈ permissions admin) by (cbn; apply list_elem_of_here).
  split; [exact Hin |]. split; [now apply Hstar | apply Hnull].
Defined.

(** ** C8: the payroll period summary *)

Import Payroll.

(** Folding over the ledger with the test is folding over the entries that
    count. *)
Lemma fold_counts (rate : Q) (employeeId : string) (startDate endDate : Z)
    (ledger : list Timesheet) (acc : PayrollPeriodSummary) :
  fold_left
    (λ acc e, if counts employeeId startDate endDate e then addEntry rate acc e else acc)
    ledger acc
  = fold_left (addEntry rate) (List.filter (counts employeeId startDate endDate) ledger) acc.
Proof.
  revert acc. induction ledger as [| e ledger IH]; intros acc; [reflexivity |].
  cbn [fold_left List.filter].
  destruct (counts employeeId startDate endDate e); cbn [fold_left]; apply IH.
Qed.

Lemma fold_addEntry (rate : Q) (entries : list Timesheet) (acc : PayrollPeriodSummary) :
  let s := fold_left (addEntry rate) entries acc in
  (ps_normalHours s == ps_normalHours acc + total ts_normalHours entries)%Q
  /\ (ps_eveningHours s == ps_eveningHours acc + total ts_ot1_5Hours entries)%Q
  /\ (ps_nightHours s == ps_nightHours acc + total ts_ot2Hours entries)%Q
  /\ (ps_pay s == ps_pay acc + total (entryPay rate) entries)%Q.
Proof.
  revert acc. induction entries as [| e entries IH]; intros acc; cbn [fold_left total fold_right].
  - repeat split; ring.
  - destruct (IH (addEntry rate acc e)) as (Hn & He & Hg & Hp).
    cbv zeta in *. rewrite Hn, He, Hg, Hp. unfold total. cbn [addEntry ps_normalHours
      ps_eveningHours ps_nightHours ps_pay]. repeat split; ring.
Qed.

Lemma counts_iff (employeeId : string) (startDate endDate : Z) (e : Timesheet) :
  counts employeeId startDate endDate e = true
  <-> ts_employeeId e = employeeId /\ ts_status e = APPROVED
      /\ startDate <= ts_date e <= endDate.
Proof.
  unfold counts. rewrite !andb_true_iff, String.eqb_eq, bool_decide_eq_true, !Z.leb_le.
  tauto.
Qed.

(** C8: the summary's normalHours, eveningHours, nightHours and pay are the
    sums, over exactly the employee's entries with status APPROVED dated in
    the inclusive range, of the entry's hours and of normalHours x rate +
    eveningHours x rate x 1.5 + nightHours x rate x 2; an entry that is not
    APPROVED changes nothing; and when no entry matches the summary is all
    zero (the function is total: there is no error result). *)
Theorem C8_payroll_summary (rate : Q) (employeeId : string) (startDate endDate : Z)
    (ledger : list Timesheet) :
  let summary := getPayrollSummary rate employeeId startDate endDate ledger in
  let matching := List.filter (counts employeeId startDate endDate) ledger in
  (forall e, In e matching
             <-> In e ledger /\ ts_employeeId e = employeeId /\ ts_status e = APPROVED
                 /\ startDate <= ts_date e <= endDate)
  /\ (ps_normalHours summary == total ts_normalHours matching)%Q
  /\ (ps_eveningHours summary == total ts_ot1_5Hours matching)%Q
  /\ (ps_nightHours summary == total ts_ot2Hours matching)%Q
  /\ (ps_pay summary == total (entryPay rate) matching)%Q
  /\ (forall before e after,
        ledger = before ++ e :: after -> ts_status e <> APPROVED ->
        getPayrollSummary rate employeeId startDate endDate (before ++ after) = summary)
  /\ (matching = [] -> summary = zero).
Proof.
  intros summary matching.
  assert (Hfold : summary = fold_left (addEntry rate) matching zero)
    by apply fold_counts.
  split.
  { intros e. subst matching. rewrite filter_In, counts_iff. tauto. }
  destruct (fold_addEntry rate matching zero) as (Hn & He & Hg & Hp).
  rewrite <- Hfold in Hn, He, Hg, Hp. cbn [zero ps_normalHours ps_eveningHours
    ps_nightHours ps_pay] in Hn, He, Hg, Hp.
  rewrite Qplus_0_l in Hn, He, Hg, Hp.
  do 4 (split; [assumption |]). split.
  - intros before e after -> Hst. subst summary. unfold getPayrollSummary.
    rewrite !fold_left_app. cbn [fold_left].
    destruct (counts employeeId startDate endDate e) eqn:Hc; [| reflexivity].
    apply counts_iff in Hc. tauto.
  - intros Hnone. now rewrite Hfold, Hnone.
Qed.

Lemma C8_payroll_summary_witness :
  (ps_normalHours (getPayrollSummary 12 "emp-1" day0 (day0 + 30 * MS_PER_DAY) ledger0)
   == 7)%Q
  /\ (ps_eveningHours (getPayrollSummary 12 "emp-1" day0 (day0 + 30 * MS_PER_DAY) ledger0)
      == 2)%Q
  /\ (ps_nightHours (getPayrollSummary 12 "emp-1" day0 (day0 + 30 * MS_PER_DAY) ledger0)
      == 0)%Q
  /\ (ps_pay (getPayrollSummary 12 "emp-1" day0 (day0 + 30 * MS_PER_DAY) ledger0)
      == 120)%Q
  /\ getPayrollSummary 12 "emp-1" day0 (day0 + 30 * MS_PER_DAY)
       [withStatus PENDING day0 pending0] = zero.
Proof.
  destruct (C8_payroll_summary 12 "emp-1" day0 (day0 + 30 * MS_PER_DAY) ledger0)
    as (_ & Hn & He & Hg & Hp & _ & _).
  destruct (C8_payroll_summary 12 "emp-1" day0 (day0 + 30 * MS_PER_DAY)
              [withStatus PENDING day0 pending0]) as (_ & _ & _ & _ & _ & _ & Hz).
  split; [rewrite Hn; reflexivity |]. split; [rewrite He; reflexivity |].
  split; [rewrite Hg; reflexivity |]. split; [rewrite Hp; reflexivity |].
  apply Hz. reflexivity.
Defined.

(** ** C10: the hourly rate of a new employee *)

(** [toFixed2] yields a multiple of 1/100 within 1/200 of its argument. *)
Lemma toFixed2_rounds (x : Q) :
  (exists n : Z, toFixed2 x == inject_Z n / 100)%Q
  /\ (x - (1 # 200) <= toFixed2 x <= x + (1 # 200))%Q.
Proof.
  unfold toFixed2. destruct (Qle_bool 0 x).
  - pose proof (Qfloor_le (x * 100 + (1 # 2))) as Hlo.
    pose proof (Qlt_floor (x * 100 + (1 # 2))) as Hhi.
    rewrite inject_Z_plus in Hhi. change (inject_Z 1) with 1%Q in Hhi.
    set (n := inject_Z (Qfloor (x * 100 + (1 # 2)))) in *.
    split; [now exists (Qfloor (x * 100 + (1 # 2))) |].
    assert (E : (n / 100 == n * (1 # 100))%Q) by (field; discriminate).
    rewrite E. split; lra.
  - pose proof (Qfloor_le (- x * 100 + (1 # 2))) as Hlo.
    pose proof (Qlt_floor (- x * 100 + (1 # 2))) as Hhi.
    rewrite inject_Z_plus in Hhi. change (inject_Z 1) with 1%Q in Hhi.
    split.
    + exists (- Qfloor (- x * 100 + (1 # 2))). rewrite inject_Z_opp. field.
    + set (n := inject_Z (Qfloor (- x * 100 + (1 # 2)))) in *.
      assert (E : (n / 100 == n * (1 # 100))%Q) by (field; discriminate).
      rewrite E. split; lra.
Qed.

(** The nearest integer is within a half. *)
Lemma roundEven_error (y : Q) :
  (y - (1 # 2) <= inject_Z (Double.roundEven y) <= y + (1 # 2))%Q.
Proof.
  unfold Double.roundEven.
  pose proof (Qfloor_le y) as Hlo. pose proof (Qlt_floor y) as Hhi.
  rewrite inject_Z_plus in Hhi. change (inject_Z 1) with 1%Q in Hhi.
  destruct (Qcompare_spec (y - inject_Z (Qfloor y)) (1 # 2)) as [E | L | G].
  - destruct (Z.even (Qfloor y)).
    + lra.
    + rewrite inject_Z_plus. change (inject_Z 1) with 1%Q. lra.
  - lra.
  - rewrite inject_Z_plus. change (inject_Z 1) with 1%Q. lra.
Qed.

Lemma two_neq_0 : ~ (2 == 0)%Q.
Proof. discriminate. Qed.

Lemma pow2_pos (z : Z) : (0 < 2 ^ z)%Q.
Proof. apply Qpower_0_lt. reflexivity. Qed.

Lemma ilog2_lower (y : Q) : (0 < y)%Q -> (2 ^ Double.ilog2 y <= y)%Q.
Proof.
  intros Hy. unfold Double.ilog2.
  destruct (Qle_bool _ y) eqn:E.
  - now apply Qle_bool_iff.
  - clear E. destruct y as [n d]. cbn [Qnum Qden].
    assert (Hn : 0 < n) by (unfold Qlt in Hy; cbn in Hy; lia).
    pose proof (Z.log2_spec n Hn) as (Ha & _).
    pose proof (Z.log2_spec (Zpos d) eq_refl) as (_ & Hb).
    pose proof (Z.log2_nonneg n) as Ha0.
    pose proof (Z.log2_nonneg (Zpos d)) as Hb0.
    set (a := Z.log2 n) in *. set (b := Z.log2 (Zpos d)) in *.
    replace (a - b - 1) with (a - (b + 1)) by lia.
    rewrite Qpower_minus by apply two_neq_0.
    change 2%Q with (inject_Z 2).
    rewrite <- !Zpower_Qpower by lia.
    rewrite (Qmake_Qdiv n d).
    assert (Hp : 0 < 2 ^ (b + 1)) by (apply Z.pow_pos_nonneg; lia).
    apply Qle_shift_div_r; [rewrite <- (Zlt_Qlt 0); exact Hp |].
    unfold Qdiv. rewrite <- Qmult_assoc, (Qmult_comm (/ _)), Qmult_assoc.
    apply Qle_shift_div_l; [rewrite <- (Zlt_Qlt 0); reflexivity |].
    rewrite <- !inject_Z_mult, <- Zle_Qle. nia.
Qed.

(** Rounding moves a number by at most half a unit in the last place. *)
Lemma roundPos_error (y : Q) :
  (Qabs (Double.roundPos y - y) <= 2 ^ Double.ulp y / 2)%Q.
Proof.
  unfold Double.roundPos. set (e := Double.ulp y).
  pose proof (roundEven_error (y * 2 ^ (- e))) as (Hlo & Hhi).
  pose proof (pow2_pos e) as Hp.
  assert (Hy : (y == y * 2 ^ (- e) * 2 ^ e)%Q).
  { rewrite Qpower_opp. field. intros H. rewrite H in Hp. now apply Qlt_irrefl in Hp. }
  set (s := (y * 2 ^ (- e))%Q) in *. set (m := inject_Z (Double.roundEven s)) in *.
  set (p := (2 ^ e)%Q) in *.
  apply Qabs_Qle_condition. rewrite Hy. clearbody s m p. clear Hy.
  assert (H1 : ((m - s) * p <= (1 # 2) * p)%Q) by (apply Qmult_le_compat_r; lra).
  assert (H2 : ((- (1 # 2)) * p <= (m - s) * p)%Q) by (apply Qmult_le_compat_r; lra).
  assert (E : (m * p - s * p == (m - s) * p)%Q) by ring.
  rewrite E. clear E. set (x := ((m - s) * p)%Q) in *. clearbody x.
  unfold Qdiv. change (/ 2)%Q with (1 # 2)%Q. lra.
Qed.

Lemma roundPos_relative (y : Q) :
  (2 ^ (-1022) <= y)%Q ->
  (Qabs (Double.roundPos y - y) <= y * 2 ^ (-53))%Q.
Proof.
  intros Hy.
  assert (H0 : (0 < y)%Q) by (eapply Qlt_le_trans; [apply (pow2_pos (-1022)) | exact Hy]).
  eapply Qle_trans; [apply roundPos_error |].
  pose proof (ilog2_lower y H0) as Hk.
  unfold Double.ulp, Double.prec, Double.emin.
  destruct (Z.max_spec (Double.ilog2 y - (53 - 1)) (-1074)) as [(_ & ->) | (_ & ->)].
  - change (-1074) with (-1022 + -53 + 1).
    rewrite !Qpower_plus by apply two_neq_0.
    pose proof (pow2_pos (-53)) as Hu.
    set (u := (2 ^ (-53))%Q) in *. set (t := (2 ^ (-1022))%Q) in *.
    change (2 ^ 1)%Q with 2%Q. clearbody u t.
    assert (H : (t * u <= y * u)%Q) by (apply Qmult_le_compat_r; lra).
    unfold Qdiv. change (/ 2)%Q with (1 # 2)%Q. lra.
  - replace (Double.ilog2 y - (53 - 1)) with (Double.ilog2 y + -53 + 1) by lia.
    rewrite !Qpower_plus by apply two_neq_0.
    pose proof (pow2_pos (-53)) as Hu.
    set (u := (2 ^ (-53))%Q) in *. set (t := (2 ^ Double.ilog2 y)%Q) in *.
    change (2 ^ 1)%Q with 2%Q. clearbody u t.
    assert (H : (t * u <= y * u)%Q) by (apply Qmult_le_compat_r; lra).
    unfold Qdiv. change (/ 2)%Q with (1 # 2)%Q. lra.
Qed.

(** In the normal range a rounding has a relative error of at most
    [2 ^ -53]. *)
Lemma round_relative (x : Q) :
  (2 ^ (-1022) <= Qabs x)%Q ->
  (Qabs (Double.round x - x) <= Qabs x * 2 ^ (-53))%Q.
Proof.
  intros Hx. unfold Double.round.
  pose proof (pow2_pos (-1022)) as Ht.
  destruct (Qcompare_spec x 0) as [E | L | G].
  - rewrite E in Hx. change (Qabs 0) with 0%Q in Hx. lra.
  - rewrite (Qabs_neg x) in * by lra.
    pose proof (roundPos_relative (- x) Hx) as H.
    apply Qabs_Qle_condition in H. apply Qabs_Qle_condition. lra.
  - rewrite (Qabs_pos x) in * by lra.
    now apply roundPos_relative.
Qed.

(** The three roundings of [Number(b) * 12 / 2288] together. *)
Lemma hourlyRate_close (b : Q) :
  (2 ^ (-1000) <= Qabs b)%Q ->
  (Qabs (Double.div (Double.mul (Double.Number b) 12) 2288 - b * 12 / 2288)
   <= Qabs (b * 12 / 2288) * 2 ^ (-51))%Q.
Proof.
  intros Hb. unfold Double.div, Double.mul, Double.Number.
  assert (Ht : (2 ^ (-1000) == 2 ^ (-1022) * 4194304)%Q) by (vm_compute; reflexivity).
  assert (Hu : (2 ^ (-53) == 1 # 9007199254740992)%Q) by (vm_compute; reflexivity).
  assert (Hv : (2 ^ (-51) == 1 # 2251799813685248)%Q) by (vm_compute; reflexivity).
  pose proof (pow2_pos (-1022)) as Hp.
  rewrite Ht in Hb. rewrite Hv.
  assert (H0 : (2 ^ (-1022) <= Qabs b)%Q).
  { pose proof (Qabs_nonneg b). set (t := (2 ^ (-1022))%Q) in *. clearbody t. lra. }
  pose proof (round_relative _ H0) as E0. rewrite Hu in E0.
  set (B := Double.round b) in *.
  assert (HB : (Qabs b * (1 - (1 # 9007199254740992)) <= Qabs B)%Q).
  { apply Qabs_Qle_condition in E0.
    revert E0. apply Qabs_case; apply Qabs_case; intros; lra. }
  assert (H1 : (2 ^ (-1022) <= Qabs (B * 12))%Q).
  { rewrite Qabs_Qmult. change (Qabs 12) with 12%Q.
    set (t := (2 ^ (-1022))%Q) in *. clearbody t. lra. }
  pose proof (round_relative _ H1) as E1. rewrite Hu in E1.
  set (F := Double.round (B * 12)) in *.
  assert (HF : (Qabs (B * 12) * (1 - (1 # 9007199254740992)) <= Qabs F)%Q).
  { apply Qabs_Qle_condition in E1.
    revert E1. apply Qabs_case; apply Qabs_case; intros; lra. }
  assert (H2 : (2 ^ (-1022) <= Qabs (F / 2288))%Q).
  { unfold Qdiv. rewrite Qabs_Qmult. change (Qabs (/ 2288)) with (1 # 2288)%Q.
    rewrite Qabs_Qmult in HF. change (Qabs 12) with 12%Q in HF.
    set (t := (2 ^ (-1022))%Q) in *. clearbody t. lra. }
  pose proof (round_relative _ H2) as E2. rewrite Hu in E2.
  set (G := Double.round (F / 2288)) in *.
  apply Qabs_Qle_condition in E0, E1, E2. apply Qabs_Qle_condition.
  clearbody B F G. clear H0 H1 H2 HB HF Hb Ht Hu Hv Hp.
  revert E0 E1 E2. unfold Qdiv. rewrite !Qabs_Qmult.
  change (Qabs (/ 2288)) with (1 # 2288)%Q. change (Qabs 12) with 12%Q.
  change (/ 2288)%Q with (1 # 2288)%Q.
  apply Qabs_case; apply Qabs_case; apply Qabs_case; intros; lra.
Qed.

(** C10: an employee either creation handler creates is stored with an
    hourlyRate computed from the submitted basicSalary alone, as
    Number(basicSalary) x 12 / 2288 in the arithmetic of JavaScript
    numbers: the double-precision product divided in double precision in
    the first handler, and that quotient rounded to two decimal places in
    the second (a multiple of 1/100 within 1/200 of it).  The
    double-precision quotient is within a relative 2^-51 of the exact
    basicSalary x 12 / 2288 (for a basicSalary of magnitude 2^-1000 and
    above).  An hourlyRate in the request body has no effect on either
    handler.  The basicSalary ranges over the numbers whose product with 12
    is a finite double (magnitude at most 2^1000). *)
Theorem C10_hourlyRate_from_basicSalary :
  (forall newEmployeeId newUserId bcryptHash user data d message employee status d',
     (Qabs (d_basicSalary data) <= 2 ^ 1000)%Q ->
     EmployeesRoute1.POST newEmployeeId newUserId bcryptHash user data d
     = (emp_created message employee status, d') ->
     e_hourlyRate employee
     = Double.div (Double.mul (Double.Number (d_basicSalary data)) 12) 2288
     /\ employees d' !! newEmployeeId d = Some employee)
  /\ (forall newEmployeeId body d message employee status d',
        (Qabs (d_basicSalary body) <= 2 ^ 1000)%Q ->
        EmployeesRoute2.POST newEmployeeId body d = (emp_created message employee status, d') ->
        e_hourlyRate employee
        = toFixed2 (Double.div (Double.mul (Double.Number (d_basicSalary body)) 12) 2288)
        /\ (exists n : Z, e_hourlyRate employee == inject_Z n / 100)%Q
        /\ (Double.div (Double.mul (Double.Number (d_basicSalary body)) 12) 2288 - (1 # 200)
            <= e_hourlyRate employee
            <= Double.div (Double.mul (Double.Number (d_basicSalary body)) 12) 2288
               + (1 # 200))%Q
        /\ employees d' !! newEmployeeId d = Some employee)
  /\ (forall b : Q,
        (2 ^ (-1000) <= Qabs b <= 2 ^ 1000)%Q ->
        (Qabs (Double.div (Double.mul (Double.Number b) 12) 2288 - b * 12 / 2288)
         <= Qabs (b * 12 / 2288) * 2 ^ (-51))%Q)
  /\ (forall newEmployeeId newUserId bcryptHash user data d h,
        EmployeesRoute1.POST newEmployeeId newUserId bcryptHash user
          (withRequestHourlyRate h data) d
        = EmployeesRoute1.POST newEmployeeId newUserId bcryptHash user data d)
  /\ (forall newEmployeeId body d h,
        EmployeesRoute2.POST newEmployeeId (withRequestHourlyRate h body) d
        = EmployeesRoute2.POST newEmployeeId body d).
Proof.
  split; [| split; [| split; [| split]]].
  - intros newEmployeeId newUserId bcryptHash user data d message employee status d' _.
    unfold EmployeesRoute1.POST. destruct user as [u |]; [| discriminate].
    destruct (negb _); [discriminate |].
    intros [= _ <- _ <-]. split; [reflexivity |].
    destruct (d_createUserAccount data && truthy (d_email data));
      cbn [employees set_users set_employees]; apply lookup_insert_eq.
  - intros newEmployeeId body d message employee status d' _.
    unfold EmployeesRoute2.POST. destruct (EmployeesRoute2.missingRequired body); [discriminate |].
    destruct (EmployeesRoute2.existingEmployee _ _ d); [discriminate |].
    intros [= _ <- _ <-]. cbn [e_hourlyRate].
    destruct (toFixed2_rounds
                (Double.div (Double.mul (Double.Number (d_basicSalary body)) 12) 2288))
      as (Hn & Hb).
    split; [reflexivity |]. split; [exact Hn |]. split; [exact Hb |].
    cbn [employees set_employees]. apply lookup_insert_eq.
  - intros b (Hlo & _). now apply hourlyRate_close.
  - intros. reflexivity.
  - intros. reflexivity.
Qed.

Lemma C10_hourlyRate_from_basicSalary_witness :
  exists employee1 d1 employee2 d2 employee3 d3,
    (Qabs (d_basicSalary newHire) <= 2 ^ 1000)%Q
    /\ (Qabs (d_basicSalary oddSalaryHire) <= 2 ^ 1000)%Q
    /\ (2 ^ (-1000) <= Qabs (d_basicSalary newHire) <= 2 ^ 1000)%Q
    /\ EmployeesRoute1.POST (λ _, "emp-2"%string) (λ _, "user-2"%string) (λ s, s)
         (Some admin) newHire db0
       = (emp_created (Some "Employee created successfully"%string) employee1 200, d1)
    /\ e_hourlyRate employee1 = Double.div (Double.mul (Double.Number 5000) 12) 2288
    /\ (Qabs (e_hourlyRate employee1 - 5000 * 12 / 2288)
        <= Qabs (5000 * 12 / 2288) * 2 ^ (-51))%Q
    /\ EmployeesRoute2.POST (λ _, "emp-2"%string) newHire db0
       = (emp_created None employee2 201, d2)
    /\ (e_hourlyRate employee2 == 26.22)%Q
    /\ EmployeesRoute2.POST (λ _, "emp-2"%string) oddSalaryHire db0
       = (emp_created None employee3 201, d3)
    /\ e_hourlyRate employee3
       = toFixed2 (Double.div (Double.mul (Double.Number (d_basicSalary oddSalaryHire)) 12)
                     2288)
    /\ (e_hourlyRate employee3 == 10.63)%Q
    /\ (d_basicSalary oddSalaryHire * 12 / 2288 == 10.635)%Q.
Proof.
  destruct C10_hourlyRate_from_basicSalary as (H1 & H2 & H3 & _ & _).
  assert (R1 : (Qabs (d_basicSalary newHire) <= 2 ^ 1000)%Q) by (vm_compute; discriminate).
  assert (R2 : (Qabs (d_basicSalary oddSalaryHire) <= 2 ^ 1000)%Q)
    by (vm_compute; discriminate).
  assert (R3 : (2 ^ (-1000) <= Qabs (d_basicSalary newHire) <= 2 ^ 1000)%Q)
    by (split; vm_compute; discriminate).
  do 6 eexists.
  split; [exact R1 |]. split; [exact R2 |]. split; [exact R3 |].
  split; [vm_compute; reflexivity |].
  split; [eapply (H1 (λ _, "emp-2"%string) (λ _, "user-2"%string) (λ s, s) (Some admin)
                    newHire db0 _ _ _ _ R1); vm_compute; reflexivity |].
  split; [exact (H3 (d_basicSalary newHire) R3) |].
  split; [vm_compute; reflexivity |].
  split; [vm_compute; reflexivity |].
  split; [vm_compute; reflexivity |].
  split; [eapply (H2 (λ _, "emp-2"%string) oddSalaryHire db0 _ _ _ _ R2);
          vm_compute; reflexivity |].
  split; vm_compute; reflexivity.
Defined.

(** * Further properties of the code *)

(** ** The classifier on arbitrary intervals *)

(** The hours of the three overlaps are not negative. *)
Lemma overlap_hours_nonneg (tz clockIn clockOut : Z) :
  (0 <= hoursOfMs (normalOverlap tz clockIn clockOut))%Q
  /\ (0 <= hoursOfMs (eveningOverlap tz clockIn clockOut))%Q
  /\ (0 <= hoursOfMs (nightOverlap tz clockIn clockOut))%Q.
Proof.
  repeat split; apply hoursOfMs_nonneg; apply overlapMs_nonneg.
Qed.

(** The windows are disjoint parts of clockIn's day. *)
Lemma overlaps_within_elapsed (tz clockIn clockOut : Z) :
  normalOverlap tz clockIn clockOut + eveningOverlap tz clockIn clockOut
  + nightOverlap tz clockIn clockOut <= Z.max 0 (clockOut - clockIn)
  /\ normalOverlap tz clockIn clockOut <= 9 * MS_PER_HOUR
  /\ eveningOverlap tz clockIn clockOut <= 7 * MS_PER_HOUR - 1
  /\ nightOverlap tz clockIn clockOut <= 8 * MS_PER_HOUR.
Proof.
  unfold normalOverlap, eveningOverlap, nightOverlap, overlapMs, setHours, MS_PER_HOUR.
  generalize (startOfDay tz clockIn). intros d. lia.
Qed.

(** X1: when clockOut is not after clockIn the classifier raises nothing
    and reports zero for every tier, for totalHours and for overtimePay. *)
Theorem X1_reversed_interval_all_zero (tz clockIn clockOut : Z) (hourlyRate : Q) :
  clockOut <= clockIn ->
  let oc := calculateOvertime tz clockIn clockOut hourlyRate in
  (normalHours oc == 0)%Q /\ (ot1_5Hours oc == 0)%Q /\ (ot2Hours oc == 0)%Q
  /\ (totalHours oc == 0)%Q /\ (overtimePay oc == 0)%Q.
Proof.
  intros Hrev oc.
  destruct (calculateOvertime_closed_form tz clockIn clockOut hourlyRate)
    as (Hn & He & Hg & Ht & Hp).
  fold oc in Hn, He, Hg, Ht, Hp.
  assert (En : normalOverlap tz clockIn clockOut = 0)
    by (unfold normalOverlap, overlapMs; lia).
  assert (Ee : eveningOverlap tz clockIn clockOut = 0)
    by (unfold eveningOverlap, overlapMs; lia).
  assert (Eg : nightOverlap tz clockIn clockOut = 0)
    by (unfold nightOverlap, overlapMs; lia).
  rewrite En in Hn. rewrite Ee in He. rewrite Eg in Hg.
  rewrite Z.max_l in Ht by lia. rewrite hoursOfMs_0 in Hn, He, Hg, Ht.
  rewrite Q.min_l in Hn by discriminate.
  rewrite Hp, Hn, He, Hg, Ht. repeat split; reflexivity.
Qed.

Lemma X1_reversed_interval_all_zero_witness :
  at_ 17 0 <= at_ 18 30
  /\ (totalHours (calculateOvertime SGT (at_ 18 30) (at_ 17 0) 12) == 0)%Q
  /\ (ot1_5Hours (calculateOvertime SGT (at_ 18 30) (at_ 17 0) 12) == 0)%Q.
Proof.
  split; [discriminate |].
  destruct (X1_reversed_interval_all_zero SGT (at_ 18 30) (at_ 17 0) 12) as (_ & He & _ & Ht & _);
    [discriminate |].
  split; assumption.
Defined.

(** X2: in a zone with a fixed UTC offset, whatever the interval, no tier
    exceeds totalHours, and the tiers are bounded by the windows of
    clockIn's day however long the shift lasts: normalHours is at most 8,
    ot1_5Hours below 7, ot2Hours at most 8.  The milliseconds of the
    interval inside the three windows add up to at most the elapsed
    milliseconds. *)
Theorem X2_tiers_bounded_by_day (tz clockIn clockOut : Z) (hourlyRate : Q) :
  let oc := calculateOvertime tz clockIn clockOut hourlyRate in
  (normalHours oc <= totalHours oc)%Q /\ (ot1_5Hours oc <= totalHours oc)%Q
  /\ (ot2Hours oc <= totalHours oc)%Q
  /\ (normalHours oc <= 8)%Q /\ (ot1_5Hours oc < 7)%Q /\ (ot2Hours oc <= 8)%Q
  /\ normalOverlap tz clockIn clockOut + eveningOverlap tz clockIn clockOut
     + nightOverlap tz clockIn clockOut <= Z.max 0 (clockOut - clockIn).
Proof.
  intros oc.
  destruct (calculateOvertime_closed_form tz clockIn clockOut hourlyRate)
    as (Hn & He & Hg & Ht & _).
  fold oc in Hn, He, Hg, Ht.
  destruct (overlaps_within_elapsed tz clockIn clockOut) as (Hsum & _ & Hev & Hng).
  pose proof (overlapMs_nonneg clockIn clockOut
    (setHours tz clockIn 8 0 0 0) (setHours tz clockIn 17 0 0 0)) as Pn.
  pose proof (overlapMs_nonneg clockIn clockOut
    (setHours tz clockIn 17 0 0 0) (setHours tz clockIn 23 59 59 999)) as Pe.
  pose proof (overlapMs_nonneg clockIn clockOut
    (setHours tz clockIn 0 0 0 0) (setHours tz clockIn 8 0 0 0)) as Pg.
  fold (normalOverlap tz clockIn clockOut) in Pn.
  fold (eveningOverlap tz clockIn clockOut) in Pe.
  fold (nightOverlap tz clockIn clockOut) in Pg.
  assert (Ln : (hoursOfMs (normalOverlap tz clockIn clockOut)
                <= hoursOfMs (Z.max 0 (clockOut - clockIn)))%Q)
    by (apply hoursOfMs_le; lia).
  assert (Le : (hoursOfMs (eveningOverlap tz clockIn clockOut)
                <= hoursOfMs (Z.max 0 (clockOut - clockIn)))%Q)
    by (apply hoursOfMs_le; lia).
  assert (Lg : (hoursOfMs (nightOverlap tz clockIn clockOut)
                <= hoursOfMs (Z.max 0 (clockOut - clockIn)))%Q)
    by (apply hoursOfMs_le; lia).
  apply hoursOfMs_le in Hev, Hng.
  rewrite hoursOfMs_hours in Hng. change (inject_Z 8) with 8%Q in Hng.
  assert (H7 : (hoursOfMs (7 * MS_PER_HOUR - 1) < 7)%Q) by reflexivity.
  rewrite Hn, He, Hg, Ht.
  split; [eapply Qle_trans; [apply Q.le_min_l | exact Ln] |].
  split; [exact Le |]. split; [exact Lg |].
  split; [apply Q.le_min_r |].
  split; [eapply Qle_lt_trans; [exact Hev | exact H7] |].
  split; [exact Hng | exact Hsum].
Qed.

(** X3: a shift that starts at or after 17:00 and ends after the end of
    clockIn's calendar day is classified against clockIn's day only:
    ot1_5Hours is the time from clockIn to 23:59:59.999 of that day,
    normalHours and ot2Hours are 0, and totalHours is the whole elapsed
    time, so that the part after midnight is in totalHours and in no
    tier. *)
Theorem X3_shift_past_midnight (tz clockIn clockOut : Z) (hourlyRate : Q) :
  setHours tz clockIn 17 0 0 0 <= clockIn ->
  setHours tz clockIn 23 59 59 999 <= clockOut ->
  let oc := calculateOvertime tz clockIn clockOut hourlyRate in
  (normalHours oc == 0)%Q /\ (ot2Hours oc == 0)%Q
  /\ (ot1_5Hours oc == hoursOfMs (setHours tz clockIn 23 59 59 999 - clockIn))%Q
  /\ (totalHours oc == hoursOfMs (clockOut - clockIn))%Q.
Proof.
  intros Hin Hout oc.
  destruct (calculateOvertime_closed_form tz clockIn clockOut hourlyRate)
    as (Hn & He & Hg & Ht & _).
  fold oc in Hn, He, Hg, Ht.
  pose proof (startOfDay_bounds tz clockIn) as Hday.
  assert (En : normalOverlap tz clockIn clockOut = 0).
  { unfold normalOverlap, overlapMs, setHours, MS_PER_DAY, MS_PER_HOUR in *.
    revert Hin Hout Hday. generalize (startOfDay tz clockIn). intros d. lia. }
  assert (Eg : nightOverlap tz clockIn clockOut = 0).
  { unfold nightOverlap, overlapMs, setHours, MS_PER_DAY, MS_PER_HOUR in *.
    revert Hin Hout Hday. generalize (startOfDay tz clockIn). intros d. lia. }
  assert (Ee : eveningOverlap tz clockIn clockOut
               = setHours tz clockIn 23 59 59 999 - clockIn).
  { unfold eveningOverlap, overlapMs, setHours, MS_PER_DAY, MS_PER_HOUR in *.
    revert Hin Hout Hday. generalize (startOfDay tz clockIn). intros d. lia. }
  assert (Et : Z.max 0 (clockOut - clockIn) = clockOut - clockIn).
  { unfold setHours, MS_PER_DAY, MS_PER_HOUR in *.
    revert Hin Hout Hday. generalize (startOfDay tz clockIn). intros d. lia. }
  rewrite En in Hn. rewrite Ee in He. rewrite Eg in Hg. rewrite Et in Ht.
  rewrite hoursOfMs_0 in Hn, Hg. rewrite Q.min_l in Hn by discriminate.
  rewrite Hn, He, Hg, Ht. repeat split; reflexivity.
Qed.

Lemma X3_shift_past_midnight_witness :
  setHours SGT (at_ 22 0) 17 0 0 0 <= at_ 22 0
  /\ setHours SGT (at_ 22 0) 23 59 59 999 <= at_ 30 0
  /\ (ot1_5Hours (calculateOvertime SGT (at_ 22 0) (at_ 30 0) 12) == 7199999 # 3600000)%Q
  /\ (ot2Hours (calculateOvertime SGT (at_ 22 0) (at_ 30 0) 12) == 0)%Q
  /\ (totalHours (calculateOvertime SGT (at_ 22 0) (at_ 30 0) 12) == 8)%Q.
Proof.
  split; [discriminate |]. split; [discriminate |].
  destruct (X3_shift_past_midnight SGT (at_ 22 0) (at_ 30 0) 12)
    as (_ & Hg & He & Ht); [discriminate | discriminate |].
  split; [rewrite He; reflexivity |]. split; [exact Hg |]. rewrite Ht. reflexivity.
Defined.

Lemma overlaps_monotone (tz clockIn clockOut clockOut' : Z) :
  clockOut <= clockOut' ->
  normalOverlap tz clockIn clockOut <= normalOverlap tz clockIn clockOut'
  /\ eveningOverlap tz clockIn clockOut <= eveningOverlap tz clockIn clockOut'
  /\ nightOverlap tz clockIn clockOut <= nightOverlap tz clockIn clockOut'.
Proof.
  intros H. unfold normalOverlap, eveningOverlap, nightOverlap, overlapMs, setHours.
  generalize (startOfDay tz clockIn). intros d. unfold MS_PER_HOUR. lia.
Qed.

(** X4: clocking out later never lowers a figure: for clockOut <= clockOut'
    each tier total and totalHours of the later clock-out is at least that
    of the earlier one, and so is overtimePay when the hourly rate is not
    negative. *)
Theorem X4_monotone_in_clockOut (tz clockIn clockOut clockOut' : Z) (hourlyRate : Q) :
  clockOut <= clockOut' ->
  (0 <= hourlyRate)%Q ->
  let oc := calculateOvertime tz clockIn clockOut hourlyRate in
  let oc' := calculateOvertime tz clockIn clockOut' hourlyRate in
  (normalHours oc <= normalHours oc')%Q /\ (ot1_5Hours oc <= ot1_5Hours oc')%Q
  /\ (ot2Hours oc <= ot2Hours oc')%Q /\ (totalHours oc <= totalHours oc')%Q
  /\ (0 <= overtimePay oc <= overtimePay oc')%Q.
Proof.
  intros Hle Hrate oc oc'.
  destruct (calculateOvertime_closed_form tz clockIn clockOut hourlyRate)
    as (Hn & He & Hg & Ht & Hp).
  destruct (calculateOvertime_closed_form tz clockIn clockOut' hourlyRate)
    as (Hn' & He' & Hg' & Ht' & Hp').
  fold oc in Hn, He, Hg, Ht, Hp. fold oc' in Hn', He', Hg', Ht', Hp'.
  destruct (overlaps_monotone tz clockIn clockOut clockOut' Hle) as (Mn & Me & Mg).
  apply hoursOfMs_le in Mn, Me, Mg.
  assert (Mt : (hoursOfMs (Z.max 0 (clockOut - clockIn))
                <= hoursOfMs (Z.max 0 (clockOut' - clockIn)))%Q)
    by (apply hoursOfMs_le; lia).
  destruct (overlap_hours_nonneg tz clockIn clockOut) as (_ & Pe & Pg).
  assert (Ppay : forall a b a' b' : Q,
             (0 <= a)%Q -> (0 <= b)%Q -> (a <= a')%Q -> (b <= b')%Q ->
             (0 <= a * hourlyRate * 1.5 + b * hourlyRate * 2
              <= a' * hourlyRate * 1.5 + b' * hourlyRate * 2)%Q).
  { intros a b a' b' Ha Hb Haa Hbb.
    assert (0 <= a * hourlyRate)%Q by now apply Qmult_le_0_compat.
    assert (0 <= b * hourlyRate)%Q by now apply Qmult_le_0_compat.
    assert (a * hourlyRate <= a' * hourlyRate)%Q by now apply Qmult_le_compat_r.
    assert (b * hourlyRate <= b' * hourlyRate)%Q by now apply Qmult_le_compat_r.
    split; lra. }
  rewrite Hp, Hp', Hn, Hn', He, He', Hg, Hg', Ht, Ht'.
  split; [apply Q.min_le_compat_r; exact Mn |].
  split; [exact Me |]. split; [exact Mg |]. split; [exact Mt |].
  now apply Ppay.
Qed.

Lemma X4_monotone_in_clockOut_witness :
  at_ 18 0 <= at_ 19 0
  /\ (0 <= 12)%Q
  /\ (ot1_5Hours (calculateOvertime SGT (at_ 9 0) (at_ 18 0) 12)
      <= ot1_5Hours (calculateOvertime SGT (at_ 9 0) (at_ 19 0) 12))%Q
  /\ (overtimePay (calculateOvertime SGT (at_ 9 0) (at_ 18 0) 12)
      <= overtimePay (calculateOvertime SGT (at_ 9 0) (at_ 19 0) 12))%Q.
Proof.
  split; [discriminate |]. split; [discriminate |].
  destruct (X4_monotone_in_clockOut SGT (at_ 9 0) (at_ 18 0) (at_ 19 0) 12)
    as (_ & He & _ & _ & _ & Hp); [discriminate | discriminate |].
  split; assumption.
Defined.

Lemma startOfDay_add_days (tz t k : Z) :
  startOfDay tz (t + k * MS_PER_DAY) = startOfDay tz t + k * MS_PER_DAY.
Proof.
  unfold startOfDay.
  replace (t + k * MS_PER_DAY + tz) with (t + tz + k * MS_PER_DAY) by lia.
  rewrite Z.mod_add by discriminate. lia.
Qed.

(** X5: the classification depends on the time of day only: moving clockIn
    and clockOut by the same whole number of days leaves every tier total,
    totalHours and overtimePay as they were. *)
Theorem X5_same_on_every_day (tz clockIn clockOut k : Z) (hourlyRate : Q) :
  let oc := calculateOvertime tz clockIn clockOut hourlyRate in
  let oc' := calculateOvertime tz (clockIn + k * MS_PER_DAY) (clockOut + k * MS_PER_DAY)
               hourlyRate in
  (normalHours oc' == normalHours oc)%Q /\ (ot1_5Hours oc' == ot1_5Hours oc)%Q
  /\ (ot2Hours oc' == ot2Hours oc)%Q /\ (totalHours oc' == totalHours oc)%Q
  /\ (overtimePay oc' == overtimePay oc)%Q.
Proof.
  intros oc oc'.
  destruct (calculateOvertime_closed_form tz clockIn clockOut hourlyRate)
    as (Hn & He & Hg & Ht & Hp).
  destruct (calculateOvertime_closed_form tz (clockIn + k * MS_PER_DAY)
              (clockOut + k * MS_PER_DAY) hourlyRate) as (Hn' & He' & Hg' & Ht' & Hp').
  fold oc in Hn, He, Hg, Ht, Hp. fold oc' in Hn', He', Hg', Ht', Hp'.
  assert (En : normalOverlap tz (clockIn + k * MS_PER_DAY) (clockOut + k * MS_PER_DAY)
               = normalOverlap tz clockIn clockOut).
  { unfold normalOverlap, overlapMs, setHours. rewrite startOfDay_add_days.
    generalize (startOfDay tz clockIn). intros d. unfold MS_PER_DAY, MS_PER_HOUR. lia. }
  assert (Ee : eveningOverlap tz (clockIn + k * MS_PER_DAY) (clockOut + k * MS_PER_DAY)
               = eveningOverlap tz clockIn clockOut).
  { unfold eveningOverlap, overlapMs, setHours. rewrite startOfDay_add_days.
    generalize (startOfDay tz clockIn). intros d. unfold MS_PER_DAY, MS_PER_HOUR. lia. }
  assert (Eg : nightOverlap tz (clockIn + k * MS_PER_DAY) (clockOut + k * MS_PER_DAY)
               = nightOverlap tz clockIn clockOut).
  { unfold nightOverlap, overlapMs, setHours. rewrite startOfDay_add_days.
    generalize (startOfDay tz clockIn). intros d. unfold MS_PER_DAY, MS_PER_HOUR. lia. }
  assert (Et : clockOut + k * MS_PER_DAY - (clockIn + k * MS_PER_DAY) = clockOut - clockIn)
    by lia.
  rewrite En in Hn'. rewrite Ee in He'. rewrite Eg in Hg'. rewrite Et in Ht'.
  rewrite Hp', Hp, Hn', Hn, He', He, Hg', Hg, Ht', Ht. repeat split; reflexivity.
Qed.

(** X6: a shift that lies within 08:00-17:00 of its day earns no overtime:
    ot1_5Hours, ot2Hours and overtimePay are 0, and normalHours is the
    elapsed time, cut at 8 hours. *)
Theorem X6_shift_in_standard_hours (tz clockIn clockOut : Z) (hourlyRate : Q) :
  setHours tz clockIn 8 0 0 0 <= clockIn ->
  clockIn <= clockOut ->
  clockOut <= setHours tz clockIn 17 0 0 0 ->
  let oc := calculateOvertime tz clockIn clockOut hourlyRate in
  (normalHours oc == Qmin (hoursOfMs (clockOut - clockIn)) 8)%Q
  /\ (ot1_5Hours oc == 0)%Q /\ (ot2Hours oc == 0)%Q /\ (overtimePay oc == 0)%Q.
Proof.
  intros Hin Hle Hout oc.
  destruct (calculateOvertime_closed_form tz clockIn clockOut hourlyRate)
    as (Hn & He & Hg & _ & Hp).
  fold oc in Hn, He, Hg, Hp.
  assert (En : normalOverlap tz clockIn clockOut = clockOut - clockIn).
  { unfold normalOverlap, overlapMs, setHours, MS_PER_HOUR in *.
    revert Hin Hout. generalize (startOfDay tz clockIn). intros d. lia. }
  assert (Ee : eveningOverlap tz clockIn clockOut = 0).
  { unfold eveningOverlap, overlapMs, setHours, MS_PER_HOUR in *.
    revert Hin Hout. generalize (startOfDay tz clockIn). intros d. lia. }
  assert (Eg : nightOverlap tz clockIn clockOut = 0).
  { unfold nightOverlap, overlapMs, setHours, MS_PER_HOUR in *.
    revert Hin Hout. generalize (startOfDay tz clockIn). intros d. lia. }
  rewrite En in Hn. rewrite Ee in He. rewrite Eg in Hg. rewrite hoursOfMs_0 in He, Hg.
  rewrite Hp, Hn, He, Hg. repeat split; reflexivity.
Qed.

Lemma X6_shift_in_standard_hours_witness :
  setHours SGT (at_ 9 0) 8 0 0 0 <= at_ 9 0
  /\ at_ 9 0 <= at_ 12 30
  /\ at_ 12 30 <= setHours SGT (at_ 9 0) 17 0 0 0
  /\ (normalHours (calculateOvertime SGT (at_ 9 0) (at_ 12 30) 12) == 3.5)%Q
  /\ (overtimePay (calculateOvertime SGT (at_ 9 0) (at_ 12 30) 12) == 0)%Q.
Proof.
  split; [discriminate |]. split; [discriminate |]. split; [discriminate |].
  destruct (X6_shift_in_standard_hours SGT (at_ 9 0) (at_ 12 30) 12)
    as (Hn & _ & _ & Hp); [discriminate | discriminate | discriminate |].
  split; [rewrite Hn; reflexivity | exact Hp].
Defined.

(** ** The timesheet handler: refusals, isolation, frame *)

(** X7: a caller who is null or holds neither "timesheets.create" nor "*"
    gets the 401 response whatever the body and the database hold (a pattern
    such as "timesheets.*" grants nothing); and every refusal, 401, 404 or
    403, leaves the database exactly as it was. *)
Theorem X7_refusals_never_write (tz now : Z) (user : option AuthUser) (data : TimesheetData)
    (d : database) :
  (hasPermission user "timesheets.create" = false ->
   POST tz now user data d = (json_error "Unauthorized" 401, d))
  /\ (forall error status d',
        POST tz now user data d = (json_error error status, d') ->
        d' = d
        /\ (status = 401 /\ hasPermission user "timesheets.create" = false
            \/ status = 404 /\ employees d !! employeeId data = None
            \/ status = 403 /\ exists u employee,
                 user = Some u /\ employees d !! employeeId data = Some employee
                 /\ e_companyId employee <> companyId u)).
Proof.
  split.
  - intros Hp. unfold POST. destruct user as [u |]; [| reflexivity]. now rewrite Hp.
  - intros error status d' HP. split; [exact (POST_error_no_write tz _ _ _ _ _ _ _ HP) |].
    revert HP. unfold POST. destruct user as [u |]; [| intros [= _ <- _]; now left].
    destruct (hasPermission (Some u) "timesheets.create"); cbn [negb];
      [| intros [= _ <- _]; now left].
    destruct (employees d !! employeeId data) as [employee |];
      [| intros [= _ <- _]; right; now left].
    destruct (companyMismatch u employee) eqn:Hc.
    + intros [= _ <- _]. right. right. split; [reflexivity |]. exists u, employee.
      repeat split. unfold companyMismatch in Hc. apply andb_true_iff in Hc as [_ Hc].
      apply negb_true_iff, bool_decide_eq_false in Hc. exact Hc.
    + destruct (upsert _ _ _ _). discriminate.
Qed.

Lemma X7_refusals_never_write_witness :
  hasPermission (Some hrManager) "timesheets.create" = false
  /\ POST SGT 0 (Some hrManager) dayShift db0 = (json_error "Unauthorized" 401, db0).
Proof.
  split; [reflexivity |].
  destruct (X7_refusals_never_write SGT 0 (Some hrManager) dayShift db0) as (H & _).
  apply H. reflexivity.
Defined.

(** X8: a caller bound to a company can only write timesheets of that
    company's employees: when such a caller's submission is saved, the
    employee of the body belongs to the caller's company. *)
Theorem X8_write_within_company (tz now : Z) (u : AuthUser) (data : TimesheetData)
    (d : database) (c message : string) (row : Timesheet) (pay : Q) (d' : database) :
  companyId u = Some c -> c <> ""%string ->
  POST tz now (Some u) data d = (json_saved message row pay, d') ->
  exists employee,
    employees d !! employeeId data = Some employee /\ e_companyId employee = Some c.
Proof.
  intros Hc Hne HP.
  destruct (POST_saved_inv tz _ _ _ _ _ _ _ _ HP) as (employee & _ & He & Hm).
  exists employee. split; [exact He |].
  specialize (Hm u eq_refl). unfold companyMismatch in Hm. rewrite Hc in Hm.
  cbn [truthy] in Hm. apply String.eqb_neq in Hne. rewrite Hne in Hm. cbn in Hm.
  apply negb_false_iff, bool_decide_eq_true in Hm. exact Hm.
Qed.

Lemma X8_write_within_company_witness :
  companyId admin = Some "default-company"%string
  /\ "default-company"%string <> ""%string
  /\ POST SGT 0 (Some admin) dayShift db0
     = (json_saved "Timesheet saved successfully" (storedRow SGT 0 dayShift employee0 db0)
          (overtimePay (derived SGT 0 dayShift employee0)),
        set_timesheets <[("emp-1"%string, day0) := storedRow SGT 0 dayShift employee0 db0]> db0)
  /\ (exists employee,
        employees db0 !! employeeId dayShift = Some employee
        /\ e_companyId employee = Some "default-company"%string)
  /\ POST SGT 0 (Some outsider) dayShift db0 = (json_error "Access denied" 403, db0).
Proof.
  assert (HP : POST SGT 0 (Some admin) dayShift db0
               = (json_saved "Timesheet saved successfully"
                    (storedRow SGT 0 dayShift employee0 db0)
                    (overtimePay (derived SGT 0 dayShift employee0)),
                  set_timesheets
                    <[("emp-1"%string, day0) := storedRow SGT 0 dayShift employee0 db0]> db0))
    by (apply POST_accepted; now apply admin_accepted).
  split; [reflexivity |]. split; [discriminate |]. split; [exact HP |].
  split; [| reflexivity].
  apply (X8_write_within_company SGT 0 admin dayShift db0 "default-company" _ _ _ _
           eq_refl ltac:(discriminate) HP).
Defined.

(** X9: a submission touches one ledger key and nothing else: employees,
    project assignments, projects (and so every project's cost) and users
    are as before, every other ledger key keeps its row, and the ledger
    grows by at most one row, by none when the key was already there. *)
Theorem X9_one_key_written (tz now : Z) (user : option AuthUser) (data : TimesheetData)
    (d : database) :
  let d' := (POST tz now user data d).2 in
  employees d' = employees d /\ project_assignments d' = project_assignments d
  /\ projects d' = projects d /\ users d' = users d
  /\ (forall key, key <> (employeeId data, date data) ->
                  timesheets d' !! key = timesheets d !! key)
  /\ (size (timesheets d') <= S (size (timesheets d)))%nat
  /\ (is_Some (timesheets d !! (employeeId data, date data)) ->
      size (timesheets d') = size (timesheets d)).
Proof.
  intros d'. subst d'.
  destruct (POST tz now user data d) as [r d'] eqn:HP. cbn [snd].
  destruct r as [error status | message row pay].
  - rewrite (POST_error_no_write tz _ _ _ _ _ _ _ HP). repeat split; auto with lia.
  - destruct (POST_saved_inv tz _ _ _ _ _ _ _ _ HP) as [employee Hacc].
    rewrite (POST_accepted tz _ _ _ _ _ Hacc) in HP. injection HP as _ _ _ <-.
    cbn [employees project_assignments projects users timesheets set_timesheets].
    do 4 (split; [reflexivity |]).
    split; [intros key Hk; now apply lookup_insert_ne |]. split.
    + destruct (timesheets d !! (employeeId data, date data)) as [old |] eqn:Hold.
      * erewrite map_size_insert_Some by (rewrite Hold; eauto). lia.
      * rewrite map_size_insert_None by exact Hold. lia.
    + intros Hsome. now apply map_size_insert_Some.
Qed.

Lemma X9_one_key_written_witness :
  ("emp-9"%string, day0) <> (employeeId dayShift, date dayShift)
  /\ timesheets (POST SGT 0 (Some admin) dayShift db1).2 !! ("emp-9"%string, day0)
     = timesheets db1 !! ("emp-9"%string, day0)
  /\ is_Some (timesheets db1 !! (employeeId dayShift, date dayShift))
  /\ size (timesheets (POST SGT 0 (Some admin) dayShift db1).2) = size (timesheets db1)
  /\ projects (POST SGT 0 (Some admin) dayShift db1).2 = projects db1.
Proof.
  destruct (X9_one_key_written SGT 0 (Some admin) dayShift db1)
    as (_ & _ & Hp & _ & Hk & _ & Hs).
  assert (Hne : ("emp-9"%string, day0) <> (employeeId dayShift, date dayShift))
    by discriminate.
  assert (Hsome : is_Some (timesheets db1 !! (employeeId dayShift, date dayShift)))
    by (exists approved0; apply lookup_insert_eq).
  split; [exact Hne |]. split; [exact (Hk _ Hne) |]. split; [exact Hsome |].
  split; [exact (Hs Hsome) | exact Hp].
Defined.

Lemma normalHours_le_totalHours (tz clockIn clockOut : Z) (rate : Q) :
  (normalHours (calculateOvertime tz clockIn clockOut rate)
   <= totalHours (calculateOvertime tz clockIn clockOut rate))%Q.
Proof.
  destruct (calculateOvertime_closed_form tz clockIn clockOut rate) as (Hn & _ & _ & Ht & _).
  destruct (overlaps_within_elapsed tz clockIn clockOut) as (Hsum & _).
  pose proof (overlapMs_nonneg clockIn clockOut (setHours tz clockIn 17 0 0 0)
                (setHours tz clockIn 23 59 59 999)) as Pe.
  pose proof (overlapMs_nonneg clockIn clockOut (setHours tz clockIn 0 0 0 0)
                (setHours tz clockIn 8 0 0 0)) as Pg.
  fold (eveningOverlap tz clockIn clockOut) in Pe.
  fold (nightOverlap tz clockIn clockOut) in Pg.
  assert (Hle : normalOverlap tz clockIn clockOut <= Z.max 0 (clockOut - clockIn)).
  { revert Hsum Pe Pg.
    generalize (normalOverlap tz clockIn clockOut) (eveningOverlap tz clockIn clockOut)
      (nightOverlap tz clockIn clockOut) (Z.max 0 (clockOut - clockIn)).
    intros; lia. }
  apply hoursOfMs_le in Hle. rewrite Hn, Ht.
  eapply Qle_trans; [apply Q.le_min_l | exact Hle].
Qed.

(** X10: whatever the body, a saved row is PENDING, is the row found
    afterwards under (employeeId, date), carries the submitted clockIn, and
    has hour fields that are not negative, with normalHours at most
    totalHours. *)
Theorem X10_saved_row_invariants (tz now : Z) (user : option AuthUser) (data : TimesheetData)
    (d : database) (message : string) (row : Timesheet) (pay : Q) (d' : database) :
  POST tz now user data d = (json_saved message row pay, d') ->
  timesheets d' !! (employeeId data, date data) = Some row
  /\ ts_status row = PENDING
  /\ ts_clockIn row = clockIn data
  /\ (0 <= ts_normalHours row)%Q /\ (0 <= ts_ot1_5Hours row)%Q
  /\ (0 <= ts_ot2Hours row)%Q /\ (0 <= ts_totalHours row)%Q
  /\ (ts_normalHours row <= ts_totalHours row)%Q.
Proof.
  intros HP.
  destruct (POST_saved_inv tz _ _ _ _ _ _ _ _ HP) as [employee Hacc].
  rewrite (POST_accepted tz _ _ _ _ _ Hacc) in HP. injection HP as _ <- _ <-.
  split; [cbn [timesheets set_timesheets]; apply lookup_insert_eq |].
  split; [apply storedRow_status |].
  split; [unfold storedRow; now destruct (timesheets d !! _) |].
  destruct (storedRow_hours tz now data employee d) as (-> & -> & -> & ->).
  unfold derived, adjustForBreak. cbn [normalHours ot1_5Hours ot2Hours totalHours].
  set (ci := clockIn data). set (co := default now (clockOut data)).
  set (rate := e_hourlyRate employee).
  pose proof (normalHours_le_totalHours tz ci co rate) as Hnt.
  split; [apply Math_max_0_nonneg |].
  split; [unfold calculateOvertime; cbn [ot1_5Hours]; apply Math_max_0_nonneg |].
  split; [unfold calculateOvertime; cbn [ot2Hours]; apply Math_max_0_nonneg |].
  split; [apply Math_max_0_nonneg |].
  revert Hnt.
  generalize (normalHours (calculateOvertime tz ci co rate))
    (totalHours (calculateOvertime tz ci co rate)) (default 0%Q (breakMinutes data) / 60)%Q.
  intros n t b Hnt. minmax_cases; lra.
Qed.

Lemma X10_saved_row_invariants_witness :
  POST SGT 0 (Some admin) lateShift db0
  = (json_saved "Timesheet saved successfully" (storedRow SGT 0 lateShift employee0 db0)
       (overtimePay (derived SGT 0 lateShift employee0)),
     set_timesheets <[("emp-1"%string, day0) := storedRow SGT 0 lateShift employee0 db0]> db0)
  /\ ts_status (storedRow SGT 0 lateShift employee0 db0) = PENDING
  /\ (ts_normalHours (storedRow SGT 0 lateShift employee0 db0)
      <= ts_totalHours (storedRow SGT 0 lateShift employee0 db0))%Q.
Proof.
  assert (HP : POST SGT 0 (Some admin) lateShift db0
               = (json_saved "Timesheet saved successfully"
                    (storedRow SGT 0 lateShift employee0 db0)
                    (overtimePay (derived SGT 0 lateShift employee0)),
                  set_timesheets
                    <[("emp-1"%string, day0) := storedRow SGT 0 lateShift employee0 db0]> db0))
    by (apply POST_accepted; now apply admin_accepted).
  destruct (X10_saved_row_invariants SGT 0 _ _ _ _ _ _ _ HP)
    as (_ & Hst & _ & _ & _ & _ & _ & Hle).
  split; [exact HP |]. split; [exact Hst | exact Hle].
Defined.

(** X11: the handler keeps the ledger keyed: if every row is stored under
    its own (employeeId, date) before a submission, so it is after it, be the
    row created or updated. *)
Theorem X11_ledger_stays_keyed (tz now : Z) (user : option AuthUser) (data : TimesheetData)
    (d : database) :
  ledgerKeyed d -> ledgerKeyed (POST tz now user data d).2.
Proof.
  intros Hk. destruct (POST tz now user data d) as [r d'] eqn:HP. cbn [snd].
  destruct r as [error status | message row pay].
  - now rewrite (POST_error_no_write tz _ _ _ _ _ _ _ HP).
  - destruct (POST_saved_inv tz _ _ _ _ _ _ _ _ HP) as [employee Hacc].
    rewrite (POST_accepted tz _ _ _ _ _ Hacc) in HP. injection HP as _ _ _ <-.
    intros key r. cbn [timesheets set_timesheets].
    destruct (decide (key = (employeeId data, date data))) as [-> | Hne].
    + rewrite lookup_insert_eq. intros [= <-]. unfold storedRow.
      destruct (timesheets d !! (employeeId data, date data)) as [old |] eqn:Hold.
      * cbn. exact (Hk _ _ Hold).
      * reflexivity.
    + rewrite lookup_insert_ne by congruence. apply Hk.
Qed.

Lemma X11_ledger_stays_keyed_witness :
  ledgerKeyed db1 /\ ledgerKeyed (POST SGT 0 (Some admin) dayShift db1).2.
Proof.
  assert (Hk : ledgerKeyed db1).
  { intros key r. unfold db1. cbn [timesheets set_timesheets db0].
    destruct (decide (key = ("emp-1"%string, day0))) as [-> | Hne].
    - rewrite lookup_insert_eq. now intros [= <-].
    - rewrite lookup_insert_ne by congruence. now rewrite lookup_empty. }
  split; [exact Hk |]. now apply X11_ledger_stays_keyed.
Defined.

(** ** The cost trigger: missing keys, integrity, re-approval *)

Lemma set_projects_same (f : gmap string Project -> gmap string Project) (d : database) :
  f (projects d) = projects d -> set_projects f d = d.
Proof. intros H. destruct d. unfold set_projects. cbn in *. now rewrite H. Qed.

(** X12: an approval accrues nothing when there is no project to charge:
    the row has no project assignment, or its assignment id matches no
    assignment, or the assignment's project id matches no project.  The
    database is then left exactly as it was. *)
Theorem X12_no_project_no_accrual (OLD NEW : Timesheet) (d : database) :
  ts_projectAssignmentId NEW = None
  \/ (exists a, ts_projectAssignmentId NEW = Some a /\ project_assignments d !! a = None)
  \/ (exists a pa, ts_projectAssignmentId NEW = Some a
                   /\ project_assignments d !! a = Some pa
                   /\ projects d !! pa_project_id pa = None) ->
  SQL.update_project_actual_cost OLD NEW d = d.
Proof.
  intros H. unfold SQL.update_project_actual_cost.
  destruct (_ && _); [| reflexivity].
  unfold SQL.select_project_id.
  destruct H as [-> | [(a & -> & Ha) | (a & pa & -> & Ha & Hp)]]; cbn.
  - reflexivity.
  - now rewrite Ha.
  - rewrite Ha. cbn. apply set_projects_same. now apply alter_id'.
Qed.

Lemma X12_no_project_no_accrual_witness :
  ts_projectAssignmentId
    (withStatus APPROVED day0
       {| ts_employeeId := "emp-1"; ts_date := day0; ts_clockIn := at_ 9 0;
          ts_clockOut := at_ 19 0; ts_breakMinutes := 60; ts_normalHours := 7;
          ts_ot1_5Hours := 2; ts_ot2Hours := 0; ts_totalHours := 9;
          ts_projectAssignmentId := None; ts_status := PENDING |}) = None
  /\ SQL.update_project_actual_cost pending0
       (withStatus APPROVED day0
          {| ts_employeeId := "emp-1"; ts_date := day0; ts_clockIn := at_ 9 0;
             ts_clockOut := at_ 19 0; ts_breakMinutes := 60; ts_normalHours := 7;
             ts_ot1_5Hours := 2; ts_ot2Hours := 0; ts_totalHours := 9;
             ts_projectAssignmentId := None; ts_status := PENDING |}) db2 = db2.
Proof.
  split; [reflexivity |]. apply X12_no_project_no_accrual. left. reflexivity.
Defined.

(** X13: the trigger never creates or deletes a project, never changes a
    project's name or estimate, and touches no other table; and when the
    row's hours and the employee's rate are not negative it never lowers a
    project's actual cost. *)
Theorem X13_projects_integrity (OLD NEW : Timesheet) (d : database) :
  let d' := SQL.update_project_actual_cost OLD NEW d in
  dom (projects d') = dom (projects d)
  /\ timesheets d' = timesheets d /\ employees d' = employees d
  /\ project_assignments d' = project_assignments d /\ users d' = users d
  /\ (forall pid p, projects d !! pid = Some p ->
        exists p', projects d' !! pid = Some p' /\ pj_name p' = pj_name p
                   /\ pj_estimated_cost p' = pj_estimated_cost p)
  /\ (forall employee,
        employees d !! ts_employeeId NEW = Some employee ->
        (0 <= e_hourlyRate employee)%Q -> (0 <= ts_normalHours NEW)%Q ->
        (0 <= ts_ot1_5Hours NEW)%Q -> (0 <= ts_ot2Hours NEW)%Q ->
        forall pid p c, projects d !! pid = Some p -> pj_actual_cost p = Some c ->
          exists p' c', projects d' !! pid = Some p' /\ pj_actual_cost p' = Some c'
                        /\ (c <= c')%Q).
Proof.
  intros d'. subst d'. unfold SQL.update_project_actual_cost.
  destruct (_ && _).
  2:{ do 5 (split; [reflexivity |]). split.
      - intros pid p Hp. now exists p.
      - intros employee _ _ _ _ _ pid p c Hp Hc. exists p, c. repeat split; auto. lra. }
  destruct (SQL.select_project_id d (ts_projectAssignmentId NEW)) as [target |].
  2:{ do 5 (split; [reflexivity |]). split.
      - intros pid p Hp. now exists p.
      - intros employee _ _ _ _ _ pid p c Hp Hc. exists p, c. repeat split; auto. lra. }
  cbn [projects timesheets employees project_assignments users set_projects].
  split; [apply dom_alter_L |]. do 4 (split; [reflexivity |]). split.
  - intros pid p Hp. destruct (decide (target = pid)) as [-> | Hne].
    + rewrite lookup_alter_eq, Hp. cbn. eexists. repeat split.
    + rewrite lookup_alter_ne by exact Hne. now exists p.
  - intros employee He Hr Hn H15 H2 pid p c Hp Hc.
    destruct (decide (target = pid)) as [-> | Hne].
    + rewrite lookup_alter_eq, Hp. cbn [fmap option_fmap option_map].
      do 2 eexists. split; [reflexivity |].
      unfold SQL.add_actual_cost, SQL.accrual, SQL.select_hourly_rate.
      cbn [pj_actual_cost]. rewrite He, Hc. cbn. split; [reflexivity |].
      unfold SQL.calculate_overtime_pay.
      assert (0 <= ts_normalHours NEW * e_hourlyRate employee)%Q
        by now apply Qmult_le_0_compat.
      assert (0 <= ts_ot1_5Hours NEW * e_hourlyRate employee)%Q
        by now apply Qmult_le_0_compat.
      assert (0 <= ts_ot2Hours NEW * e_hourlyRate employee)%Q
        by now apply Qmult_le_0_compat.
      lra.
    + rewrite lookup_alter_ne by exact Hne. exists p, c. repeat split; auto. lra.
Qed.

Lemma X13_projects_integrity_witness :
  employees db2 !! ts_employeeId (setApproved pending0) = Some employee0
  /\ (0 <= e_hourlyRate employee0)%Q
  /\ projects db2 !! "project-1"%string
     = Some {| pj_name := "HRM System Development"; pj_estimated_cost := Some 150000%Q;
               pj_actual_cost := Some 0%Q |}
  /\ exists p' c',
       projects (SQL.update_project_actual_cost pending0 (setApproved pending0) db2)
         !! "project-1"%string = Some p'
       /\ pj_actual_cost p' = Some c' /\ (0 <= c')%Q.
Proof.
  destruct (X13_projects_integrity pending0 (setApproved pending0) db2)
    as (_ & _ & _ & _ & _ & _ & Hmono).
  split; [reflexivity |]. split; [discriminate |]. split; [reflexivity |].
  apply (Hmono employee0 eq_refl ltac:(discriminate) ltac:(discriminate)
           ltac:(discriminate) ltac:(discriminate) "project-1"%string
           {| pj_name := "HRM System Development"; pj_estimated_cost := Some 150000%Q;
              pj_actual_cost := Some 0%Q |} 0%Q eq_refl eq_refl).
Defined.

Lemma update_timesheet_fires (key : string * Z) (set : Timesheet -> Timesheet) (d : database)
    (OLD : Timesheet) (employee : Employee) (a pid : string) :
  timesheets d !! key = Some OLD ->
  ts_status OLD <> APPROVED -> ts_status (set OLD) = APPROVED ->
  ts_projectAssignmentId (set OLD) = Some a ->
  project_assignments d !! a = Some {| pa_project_id := pid |} ->
  employees d !! ts_employeeId (set OLD) = Some employee ->
  SQL.update_timesheet key set d
  = set_projects
      (alter (SQL.add_actual_cost
                (Some (ts_normalHours (set OLD) * e_hourlyRate employee
                       + SQL.calculate_overtime_pay (ts_normalHours (set OLD))
                           (ts_ot1_5Hours (set OLD)) (ts_ot2Hours (set OLD))
                           (e_hourlyRate employee))%Q)) pid)
      (set_timesheets <[key := set OLD]> d).
Proof.
  intros Hold Ho Hn Ha Hpa He. unfold SQL.update_timesheet. rewrite Hold.
  rewrite (trigger_fires OLD (set OLD) _ pid Ho Hn).
  - unfold SQL.accrual, SQL.select_hourly_rate. cbn [employees set_timesheets].
    now rewrite He.
  - unfold SQL.select_project_id. rewrite Ha. cbn. now rewrite Hpa.
Qed.

(** X14: approvals and resubmissions compose without reversal.  Approve a
    row (the update sets status APPROVED and nothing else), resubmit the day
    through the handler with a body that leaves the row on its project
    assignment (no projectAssignmentId key, or the row's own assignment),
    approve again: the first accrual stays on the project, the resubmission
    puts the row back to PENDING without touching the cost, and the second
    approval adds the cost of the resubmitted hours on top. *)
Theorem X14_reapproval_accrues_again (tz now : Z) (user : option AuthUser)
    (data : TimesheetData) (d : database) (employee : Employee) (old : Timesheet)
    (a pid : string) (p : Project) (c : Q) :
  accepted user data d employee ->
  timesheets d !! (employeeId data, date data) = Some old ->
  ts_employeeId old = employeeId data ->
  ts_status old <> APPROVED ->
  ts_projectAssignmentId old = Some a ->
  projectAssignmentId data = None \/ projectAssignmentId data = Some (Some a) ->
  project_assignments d !! a = Some {| pa_project_id := pid |} ->
  projects d !! pid = Some p ->
  pj_actual_cost p = Some c ->
  let key := (employeeId data, date data) in
  let rate := e_hourlyRate employee in
  let oc := derived tz now data employee in
  let cost1 := (ts_normalHours old * rate
                + SQL.calculate_overtime_pay (ts_normalHours old) (ts_ot1_5Hours old)
                    (ts_ot2Hours old) rate)%Q in
  let cost2 := (normalHours oc * rate
                + SQL.calculate_overtime_pay (normalHours oc) (ot1_5Hours oc)
                    (ot2Hours oc) rate)%Q in
  let d1 := SQL.update_timesheet key setApproved d in
  let d2 := (POST tz now user data d1).2 in
  let d3 := SQL.update_timesheet key setApproved d2 in
  (pj_actual_cost <$> projects d1 !! pid) = Some (Some (c + cost1)%Q)
  /\ projects d2 = projects d1
  /\ (ts_status <$> timesheets d2 !! key) = Some PENDING
  /\ (pj_actual_cost <$> projects d3 !! pid) = Some (Some (c + cost1 + cost2)%Q).
Proof.
  intros Hacc Hold Hemp Hst Ha Hnone Hpa Hp Hc key rate oc cost1 cost2 d1 d2 d3.
  destruct Hacc as (Hperm & He & Hmis).
  assert (E1 : d1 = set_projects (alter (SQL.add_actual_cost (Some cost1)) pid)
                      (set_timesheets <[key := setApproved old]> d)).
  { subst d1. apply update_timesheet_fires with (a := a); auto.
    cbn [setApproved ts_employeeId]. now rewrite Hemp. }
  assert (Hacc1 : accepted user data d1 employee).
  { rewrite E1. repeat split; [exact Hperm | exact He | exact Hmis]. }
  assert (E2 : d2 = set_timesheets <[key := storedRow tz now data employee d1]> d1).
  { subst d2. now rewrite (POST_accepted tz _ _ _ _ _ Hacc1). }
  assert (Hrow : storedRow tz now data employee d1
                 = upsert_update data (clockIn data) (default now (clockOut data)) oc
                     (setApproved old)).
  { unfold storedRow. rewrite E1. cbn [timesheets set_projects set_timesheets].
    fold key. now rewrite lookup_insert_eq. }
  assert (Hcost1 : (pj_actual_cost <$> projects d1 !! pid) = Some (Some (c + cost1)%Q)).
  { rewrite E1. cbn [projects set_projects set_timesheets].
    rewrite lookup_alter_eq, Hp. cbn. now rewrite Hc. }
  split; [exact Hcost1 |].
  split; [now rewrite E2 |].
  split.
  { rewrite E2. cbn [timesheets set_timesheets]. rewrite lookup_insert_eq. cbn.
    now rewrite storedRow_status. }
  assert (E3 : d3 = set_projects (alter (SQL.add_actual_cost (Some cost2)) pid)
                      (set_timesheets
                         <[key := setApproved (storedRow tz now data employee d1)]> d2)).
  { subst d3. rewrite Hrow.
    apply update_timesheet_fires with (a := a).
    - rewrite E2. cbn [timesheets set_timesheets]. rewrite lookup_insert_eq.
      now rewrite Hrow.
    - discriminate.
    - reflexivity.
    - cbn. destruct Hnone as [-> | ->]; [exact Ha | reflexivity].
    - rewrite E2, E1. exact Hpa.
    - rewrite E2, E1. cbn [employees set_projects set_timesheets setApproved upsert_update
        ts_employeeId]. now rewrite Hemp. }
  rewrite E3. cbn [projects set_projects set_timesheets].
  rewrite lookup_alter_eq.
  assert (Hd2 : projects d2 = projects d1) by now rewrite E2.
  rewrite Hd2.
  destruct (projects d1 !! pid) as [p1 |]; [| discriminate].
  cbn in Hcost1 |- *. injection Hcost1 as Hcost1. now rewrite Hcost1.
Qed.

Lemma X14_reapproval_accrues_again_witness :
  exists c1 c2,
    (pj_actual_cost
     <$> projects (SQL.update_timesheet ("emp-1"%string, day0) setApproved db2)
         !! "project-1"%string) = Some (Some c1)
    /\ (c1 == 120)%Q
    /\ (pj_actual_cost
        <$> projects
              (SQL.update_timesheet ("emp-1"%string, day0) setApproved
                 (POST SGT 0 (Some admin)
                    plainShift
                    (SQL.update_timesheet ("emp-1"%string, day0) setApproved db2)).2)
            !! "project-1"%string) = Some (Some c2)
    /\ (c2 == 120 + 84)%Q.
Proof.
  pose proof (X14_reapproval_accrues_again SGT 0 (Some admin)
                plainShift
                db2 employee0 pending0 "assign-1" "project-1"
                {| pj_name := "HRM System Development"; pj_estimated_cost := Some 150000%Q;
                   pj_actual_cost := Some 0%Q |} 0
                (admin_accepted plainShift db2 eq_refl eq_refl)
                (lookup_insert_eq _ _ _) eq_refl ltac:(discriminate) eq_refl
                (or_introl eq_refl) eq_refl eq_refl eq_refl) as H.
  cbv zeta in H. destruct H as (H1 & _ & _ & H3).
  do 2 eexists. split; [exact H1 |]. split; [reflexivity |].
  split; [exact H3 |]. vm_compute. reflexivity.
Defined.

(** ** The employee-creation handlers: refusals, duplicates, accounts *)

Lemma existingEmployee_true (email nric : option string) (d : database) :
  EmployeesRoute2.existingEmployee email nric d = true
  <-> exists k e, employees d !! k = Some e /\ (e_email e = email \/ e_nric e = nric).
Proof.
  unfold EmployeesRoute2.existingEmployee.
  rewrite negb_true_iff, bool_decide_eq_false, map_not_Forall by (intros; apply _).
  split; intros (k & e & He & H); exists k, e; (split; [exact He |]).
  - destruct (decide (e_email e = email)); [now left |].
    destruct (decide (e_nric e = nric)); [now right |]. exfalso. now apply H.
  - intros [H1 H2]. destruct H; contradiction.
Qed.

Lemma route2_duplicate_refused (newEmployeeId : database -> string) (body : EmployeeData)
    (d : database) (k : string) (e : Employee) :
  employees d !! k = Some e ->
  e_email e = d_email body \/ e_nric e = d_nric body ->
  exists error, EmployeesRoute2.POST newEmployeeId body d = (emp_error error 400, d).
Proof.
  intros He Hdup. unfold EmployeesRoute2.POST.
  destruct (EmployeesRoute2.missingRequired body); [eauto |].
  assert (Hex : EmployeesRoute2.existingEmployee (d_email body) (d_nric body) d = true)
    by (apply existingEmployee_true; eauto).
  rewrite Hex. eauto.
Qed.

(** X15: the second employee handler answers 400 and writes nothing when a
    required field is missing or an employee with the same email or the same
    NRIC exists, and only then; otherwise it answers 201 and stores the new
    employee, with a code numbered after the count of all employees, under a
    new key, leaving every other row and table alone. *)
Theorem X15_route2_outcome (newEmployeeId : database -> string) (body : EmployeeData)
    (d : database) :
  (forall error status d',
     EmployeesRoute2.POST newEmployeeId body d = (emp_error error status, d') ->
     d' = d /\ status = 400
     /\ (EmployeesRoute2.missingRequired body = true
         \/ exists k e, employees d !! k = Some e
                        /\ (e_email e = d_email body \/ e_nric e = d_nric body)))
  /\ (forall message employee status d',
        EmployeesRoute2.POST newEmployeeId body d = (emp_created message employee status, d') ->
        status = 201
        /\ EmployeesRoute2.missingRequired body = false
        /\ (forall k e, employees d !! k = Some e ->
                        e_email e <> d_email body /\ e_nric e <> d_nric body)
        /\ e_employeeCode employee = generateEmployeeCode (size (employees d))
        /\ e_email employee = d_email body /\ e_nric employee = d_nric body
        /\ e_basicSalary employee = d_basicSalary body
        /\ employees d' !! newEmployeeId d = Some employee
        /\ (forall k, k <> newEmployeeId d -> employees d' !! k = employees d !! k)
        /\ timesheets d' = timesheets d /\ projects d' = projects d /\ users d' = users d).
Proof.
  split.
  - intros error status d'. unfold EmployeesRoute2.POST.
    destruct (EmployeesRoute2.missingRequired body) eqn:Hm.
    + intros [= _ <- <-]. repeat split. now left.
    + destruct (EmployeesRoute2.existingEmployee _ _ d) eqn:Hex; [| discriminate].
      intros [= _ <- <-]. repeat split. right. now apply existingEmployee_true.
  - intros message employee status d'. unfold EmployeesRoute2.POST.
    destruct (EmployeesRoute2.missingRequired body) eqn:Hm; [discriminate |].
    destruct (EmployeesRoute2.existingEmployee _ _ d) eqn:Hex; [discriminate |].
    intros [= _ <- <- <-]. split; [reflexivity |]. split; [reflexivity |]. split.
    { intros k e He.
      destruct (decide (e_email e = d_email body)) as [H1 |].
      - assert (EmployeesRoute2.existingEmployee (d_email body) (d_nric body) d = true)
          by (apply existingEmployee_true; eauto). congruence.
      - destruct (decide (e_nric e = d_nric body)) as [H2 |]; [| now split].
        assert (EmployeesRoute2.existingEmployee (d_email body) (d_nric body) d = true)
          by (apply existingEmployee_true; eauto). congruence. }
    cbn [e_employeeCode e_email e_nric e_basicSalary employees timesheets projects users
           set_employees].
    do 4 (split; [reflexivity |]).
    split; [apply lookup_insert_eq |].
    split; [intros k Hk; now apply lookup_insert_ne |]. repeat split.
Qed.

Lemma route2_created (newEmployeeId : database -> string) (body : EmployeeData)
    (d : database) :
  EmployeesRoute2.missingRequired body = false ->
  EmployeesRoute2.existingEmployee (d_email body) (d_nric body) d = false ->
  EmployeesRoute2.POST newEmployeeId body d
  = (emp_created None (route2Employee body d) 201,
     set_employees <[newEmployeeId d := route2Employee body d]> d).
Proof. intros Hm Hex. unfold EmployeesRoute2.POST. now rewrite Hm, Hex. Qed.

Lemma X15_route2_outcome_witness :
  EmployeesRoute2.POST (λ _, "emp-2"%string) newHire db0
  = (emp_created None (route2Employee newHire db0) 201,
     set_employees <["emp-2"%string := route2Employee newHire db0]> db0)
  /\ e_employeeCode (route2Employee newHire db0) = "EMP0002"%string
  /\ employees (set_employees <["emp-2"%string := route2Employee newHire db0]> db0)
       !! "emp-1"%string = employees db0 !! "emp-1"%string.
Proof.
  assert (HP : EmployeesRoute2.POST (λ _, "emp-2"%string) newHire db0
               = (emp_created None (route2Employee newHire db0) 201,
                  set_employees <["emp-2"%string := route2Employee newHire db0]> db0))
    by (apply route2_created; vm_compute; reflexivity).
  destruct (X15_route2_outcome (λ _, "emp-2"%string) newHire db0) as (_ & Hc).
  destruct (Hc _ _ _ _ HP) as (_ & _ & _ & _ & _ & _ & _ & _ & Hother & _).
  split; [exact HP |]. split; [vm_compute; reflexivity |].
  apply Hother. discriminate.
Defined.

(** X16: once the second handler has created an employee, any later body
    with the same email or the same NRIC is refused with 400 and changes
    nothing, whatever key the store would have generated. *)
Theorem X16_route2_rejects_duplicates (newEmployeeId newEmployeeId' : database -> string)
    (body body' : EmployeeData) (d : database) (message : option string)
    (employee : Employee) (status : Z) (d' : database) :
  EmployeesRoute2.POST newEmployeeId body d = (emp_created message employee status, d') ->
  d_email body' = d_email body \/ d_nric body' = d_nric body ->
  exists error, EmployeesRoute2.POST newEmployeeId' body' d' = (emp_error error 400, d').
Proof.
  intros HP Hsame.
  assert (Hrow : employees d' !! newEmployeeId d = Some employee
                 /\ e_email employee = d_email body /\ e_nric employee = d_nric body).
  { revert HP. unfold EmployeesRoute2.POST.
    destruct (EmployeesRoute2.missingRequired body); [discriminate |].
    destruct (EmployeesRoute2.existingEmployee _ _ d); [discriminate |].
    intros [= _ <- _ <-]. cbn [employees set_employees e_email e_nric].
    split; [apply lookup_insert_eq | now split]. }
  destruct Hrow as (Hrow & Hemail & Hnric).
  apply route2_duplicate_refused with (k := newEmployeeId d) (e := employee);
    [exact Hrow |].
  destruct Hsame as [H | H]; [left | right]; congruence.
Qed.

Lemma X16_route2_rejects_duplicates_witness :
  EmployeesRoute2.POST (λ _, "emp-2"%string) newHire db0
  = (emp_created None (route2Employee newHire db0) 201,
     set_employees <["emp-2"%string := route2Employee newHire db0]> db0)
  /\ d_email (withRequestHourlyRate None newHire) = d_email newHire
  /\ exists error,
       EmployeesRoute2.POST (λ _, "emp-3"%string) (withRequestHourlyRate None newHire)
         (set_employees <["emp-2"%string := route2Employee newHire db0]> db0)
       = (emp_error error 400,
          set_employees <["emp-2"%string := route2Employee newHire db0]> db0).
Proof.
  assert (HP : EmployeesRoute2.POST (λ _, "emp-2"%string) newHire db0
               = (emp_created None (route2Employee newHire db0) 201,
                  set_employees <["emp-2"%string := route2Employee newHire db0]> db0))
    by (apply route2_created; vm_compute; reflexivity).
  split; [exact HP |]. split; [reflexivity |].
  apply (X16_route2_rejects_duplicates (λ _, "emp-2"%string) (λ _, "emp-3"%string)
           newHire (withRequestHourlyRate None newHire) db0 _ _ _ _ HP).
  left. reflexivity.
Defined.

(** X17: the first employee handler refuses a caller without
    "employees.create" (401, nothing written).  When it creates, a caller
    bound to a company always creates inside that company, whatever
    companyId the body names; a code given in the body is kept; a user
    account is added only when the body asks for one and carries an email,
    and it then points at the new employee and holds the hash of the fixed
    initial password; timesheets and projects are never touched. *)
Theorem X17_route1_company_and_account (newEmployeeId newUserId : database -> string)
    (bcryptHash : string -> string) (user : option AuthUser) (data : EmployeeData)
    (d : database) :
  (hasPermission user "employees.create" = false ->
   EmployeesRoute1.POST newEmployeeId newUserId bcryptHash user data d
   = (emp_error "Unauthorized" 401, d))
  /\ (forall message employee status d',
        EmployeesRoute1.POST newEmployeeId newUserId bcryptHash user data d
        = (emp_created message employee status, d') ->
        (forall u, user = Some u -> truthy (companyId u) = true ->
                   e_companyId employee = companyId u)
        /\ (forall code, d_employeeCode data = Some code -> code <> ""%string ->
                         e_employeeCode employee = code)
        /\ (d_createUserAccount data && truthy (d_email data) = false ->
            users d' = users d)
        /\ (d_createUserAccount data && truthy (d_email data) = true ->
            exists account,
              users d' !! newUserId (set_employees <[newEmployeeId d := employee]> d)
              = Some account
              /\ u_employeeId account = Some (newEmployeeId d)
              /\ Some (u_email account) = d_email data
              /\ u_password account = bcryptHash "Temp@123456"
              /\ u_companyId account = e_companyId employee)
        /\ timesheets d' = timesheets d /\ projects d' = projects d
        /\ project_assignments d' = project_assignments d).
Proof.
  split.
  - intros Hp. unfold EmployeesRoute1.POST. destruct user as [u |]; [| reflexivity].
    now rewrite Hp.
  - intros message employee status d'. unfold EmployeesRoute1.POST.
    destruct user as [u |]; [| discriminate].
    destruct (negb _); [discriminate |].
    intros [= _ <- _ <-]. split.
    { intros u' [= <-] Ht. cbn [EmployeesRoute1.createData e_companyId].
      unfold orElse. now rewrite Ht. }
    split.
    { intros code Hcode Hne. cbn [EmployeesRoute1.createData e_employeeCode].
      rewrite Hcode. cbn [truthy default]. apply String.eqb_neq in Hne. now rewrite Hne. }
    destruct (d_createUserAccount data && truthy (d_email data)) eqn:Hacc.
    + split; [discriminate |]. split; [| now repeat split].
      intros _. eexists. cbn [users set_users set_employees].
      split; [apply lookup_insert_eq |]. cbn [u_employeeId u_email u_password u_companyId].
      repeat split.
      apply andb_true_iff in Hacc as [_ Ht]. destruct (d_email data); [reflexivity |].
      discriminate Ht.
    + split; [reflexivity |]. split; [discriminate | now repeat split].
Qed.

Lemma X17_route1_company_and_account_witness :
  hasPermission (Some hrManager) "employees.create" = true
  /\ hasPermission None "employees.create" = false
  /\ EmployeesRoute1.POST (λ _, "emp-2"%string) (λ _, "user-2"%string) (λ s, s) None
       newHire db0 = (emp_error "Unauthorized" 401, db0)
  /\ exists employee d',
       EmployeesRoute1.POST (λ _, "emp-2"%string) (λ _, "user-2"%string) (λ s, s)
         (Some hrManager) newHire db0
       = (emp_created (Some "Employee created successfully"%string) employee 200, d')
       /\ e_companyId employee = Some "default-company"%string
       /\ users d' = users db0.
Proof.
  destruct (X17_route1_company_and_account (λ _, "emp-2"%string) (λ _, "user-2"%string)
              (λ s, s) None newHire db0) as (Hno & _).
  destruct (X17_route1_company_and_account (λ _, "emp-2"%string) (λ _, "user-2"%string)
              (λ s, s) (Some hrManager) newHire db0) as (_ & Hyes).
  split; [reflexivity |]. split; [reflexivity |]. split; [apply Hno; reflexivity |].
  do 2 eexists. split; [vm_compute; reflexivity |].
  edestruct Hyes as (Hc & _ & Hu & _); [vm_compute; reflexivity |].
  split; [apply (Hc hrManager eq_refl); reflexivity | apply Hu; reflexivity].
Defined.

(** ** Authentication: tokens, roles, permissions *)

Lemma stripPrefix_app (p t : string) : stripPrefix p (p +:+ t) = Some t.
Proof.
  induction p as [| a p IH]; [now destruct t |].
  change (String a p +:+ t) with (String a (p +:+ t)). cbn [stripPrefix].
  now rewrite Ascii.eqb_refl.
Qed.

Lemma replaceFirst_unfold (pattern replacement s : string) :
  replaceFirst pattern replacement s
  = match stripPrefix pattern s with
    | Some rest => replacement +:+ rest
    | None =>
        match s with
        | EmptyString => EmptyString
        | String c s' => String c (replaceFirst pattern replacement s')
        end
    end.
Proof. now destruct s. Qed.

Lemma replaceFirst_prefix (pattern replacement t : string) :
  replaceFirst pattern replacement (pattern +:+ t) = replacement +:+ t.
Proof. now rewrite replaceFirst_unfold, stripPrefix_app. Qed.

Lemma elem_of_fold_permissions (userRoles : list Role) (acc : list string) (p : string) :
  p ∈ fold_left (λ acc userRole, acc ++ default [] (role_permissions userRole)) userRoles acc
  <-> p ∈ acc
      \/ exists r ps, r ∈ userRoles /\ role_permissions r = Some ps /\ p ∈ ps.
Proof.
  revert acc. induction userRoles as [| r rs IH]; intros acc; cbn [fold_left].
  - split; [now left |]. intros [H | (r & ps & Hr & _)]; [exact H |].
    now apply elem_of_nil in Hr.
  - rewrite IH, elem_of_app. split.
    + intros [[H | H] | (r' & ps & Hr & Hps & Hp)].
      * now left.
      * right. destruct (role_permissions r) as [ps |] eqn:E; cbn in H.
        -- exists r, ps. split; [apply list_elem_of_here | now split].
        -- now apply elem_of_nil in H.
      * right. exists r', ps. split; [now apply list_elem_of_further | now split].
    + intros [H | (r' & ps & Hr & Hps & Hp)]; [now left; left |].
      apply elem_of_cons in Hr as [-> | Hr].
      * left. right. now rewrite Hps.
      * right. exists r', ps. now repeat split.
Qed.

Lemma elem_of_extractPermissions (userRoles : list Role) (p : string) :
  p ∈ extractPermissions userRoles
  <-> exists r ps, r ∈ userRoles /\ role_permissions r = Some ps /\ p ∈ ps.
Proof.
  unfold extractPermissions. rewrite elem_of_fold_permissions. split.
  - intros [H | H]; [now apply elem_of_nil in H | exact H].
  - now right.
Qed.

Lemma verifyAuth_Some (jwtVerify : string -> option string) (store : identity)
    (headers : Headers) (u : AuthUser) :
  verifyAuth jwtVerify store headers = Some u
  <-> exists header account,
        headers !! "authorization"%string = Some header
        /\ replaceFirst "Bearer " "" header <> ""%string
        /\ jwtVerify (replaceFirst "Bearer " "" header) = Some (user_id u)
        /\ accounts store !! user_id u = Some account
        /\ acc_isActive account = true
        /\ u = {| user_id := user_id u; user_email := acc_email account;
                  user_name := acc_name account;
                  companyId := orElse (acc_companyId account) None;
                  roles := role_name <$> acc_roles account;
                  permissions := extractPermissions (acc_roles account) |}.
Proof.
  unfold verifyAuth. split.
  - destruct (headers !! "authorization"%string) as [header |]; [| discriminate].
    cbn [fmap option_fmap option_map].
    destruct (String.eqb_spec (replaceFirst "Bearer " "" header) "") as [| Hne];
      [discriminate |].
    destruct (jwtVerify (replaceFirst "Bearer " "" header)) as [userId |] eqn:Hj;
      [| discriminate].
    destruct (accounts store !! userId) as [account |] eqn:Ha; [| discriminate].
    destruct (acc_isActive account) eqn:Hact; [| discriminate].
    intros [= <-]. exists header, account. now repeat split.
  - intros (header & account & -> & Hne & Hj & Ha & Hact & ->).
    cbn [fmap option_fmap option_map user_id] in *.
    apply String.eqb_neq in Hne. now rewrite Hne, Hj, Ha, Hact.
Qed.

(** X18: when verifyAuth returns a user, the Authorization header carried a
    token (after the removal of "Bearer ") that the verifier accepts for
    that user's id, the account exists and is active, and the user's
    permissions are exactly those of the permission arrays of the account's
    roles; so hasPermission holds for such a user exactly when one of the
    roles lists the permission or the wildcard. *)
Theorem X18_verifyAuth_sound (jwtVerify : string -> option string) (store : identity)
    (headers : Headers) (u : AuthUser) :
  verifyAuth jwtVerify store headers = Some u ->
  exists header account,
    headers !! "authorization"%string = Some header
    /\ replaceFirst "Bearer " "" header <> ""%string
    /\ jwtVerify (replaceFirst "Bearer " "" header) = Some (user_id u)
    /\ accounts store !! user_id u = Some account
    /\ acc_isActive account = true
    /\ user_email u = acc_email account
    /\ roles u = role_name <$> acc_roles account
    /\ (forall p, p ∈ permissions u
                  <-> exists r ps, r ∈ acc_roles account /\ role_permissions r = Some ps
                                   /\ p ∈ ps)
    /\ (forall p, hasPermission (Some u) p = true
                  <-> exists r ps, r ∈ acc_roles account /\ role_permissions r = Some ps
                                   /\ (p ∈ ps \/ "*"%string ∈ ps)).
Proof.
  intros H. apply verifyAuth_Some in H as (header & account & Hh & Hne & Hj & Ha & Hact & Hu).
  exists header, account. do 5 (split; [assumption |]).
  split; [now rewrite Hu |]. split; [now rewrite Hu |].
  assert (Hperm : forall p, p ∈ permissions u
                            <-> exists r ps, r ∈ acc_roles account
                                             /\ role_permissions r = Some ps /\ p ∈ ps)
    by (intros p; rewrite Hu; cbn [permissions]; apply elem_of_extractPermissions).
  split; [exact Hperm |].
  intros p. cbn [hasPermission]. rewrite orb_true_iff, !includes_true, !Hperm. split.
  - intros [(r & ps & Hr & Hps & Hp) | (r & ps & Hr & Hps & Hp)]; exists r, ps; auto.
  - intros (r & ps & Hr & Hps & [Hp | Hp]); [left | right]; exists r, ps; auto.
Qed.

Lemma X18_verifyAuth_sound_witness :
  verifyAuth jwtVerify0 identity0 {[ "authorization"%string := "Bearer token-of-admin-user"%string ]}
  = Some admin
  /\ hasPermission (Some admin) "timesheets.approve" = true.
Proof.
  assert (Hv : verifyAuth jwtVerify0 identity0
                 {[ "authorization"%string := "Bearer token-of-admin-user"%string ]} = Some admin)
    by (vm_compute; reflexivity).
  split; [exact Hv |].
  destruct (X18_verifyAuth_sound _ _ _ _ Hv)
    as (header & account & _ & _ & _ & Ha & _ & _ & _ & _ & Hhas).
  apply Hhas. assert (account = superAdminAccount) as ->.
  { cbn in Ha. vm_compute in Ha. now injection Ha as <-. }
  exists {| role_name := "Super Admin"; role_permissions := Some ["*"%string] |}, ["*"%string].
  split; [apply list_elem_of_here |]. split; [reflexivity |]. right. apply list_elem_of_here.
Defined.

(** X19: verifyAuth returns null without an Authorization header, with an
    empty one or one that is just "Bearer ", for a token the verifier
    rejects, for an id without account, and for an account that is not
    active, even with a valid token. *)
Theorem X19_verifyAuth_refuses (jwtVerify : string -> option string) (store : identity)
    (headers : Headers) :
  (headers !! "authorization"%string = None -> verifyAuth jwtVerify store headers = None)
  /\ (headers !! "authorization"%string = Some ""%string
      \/ headers !! "authorization"%string = Some "Bearer "%string ->
      verifyAuth jwtVerify store headers = None)
  /\ (forall header,
        headers !! "authorization"%string = Some header ->
        jwtVerify (replaceFirst "Bearer " "" header) = None ->
        verifyAuth jwtVerify store headers = None)
  /\ (forall header userId,
        headers !! "authorization"%string = Some header ->
        jwtVerify (replaceFirst "Bearer " "" header) = Some userId ->
        accounts store !! userId = None
        \/ (exists account, accounts store !! userId = Some account
                            /\ acc_isActive account = false) ->
        verifyAuth jwtVerify store headers = None).
Proof.
  unfold verifyAuth. repeat split.
  - now intros ->.
  - now intros [-> | ->].
  - intros header -> Hj. cbn [fmap option_fmap option_map]. rewrite Hj.
    now destruct (String.eqb _ _).
  - intros header userId -> Hj Hacc. cbn [fmap option_fmap option_map]. rewrite Hj.
    destruct (String.eqb _ _); [reflexivity |].
    destruct Hacc as [-> | (account & -> & ->)]; reflexivity.
Qed.

Lemma X19_verifyAuth_refuses_witness :
  verifyAuth jwtVerify0 identity0 {[ "authorization"%string := "Bearer token-of-former-user"%string ]}
  = None
  /\ verifyAuth jwtVerify0 identity0 ∅ = None.
Proof.
  destruct (X19_verifyAuth_refuses jwtVerify0 identity0
              {[ "authorization"%string := "Bearer token-of-former-user"%string ]})
    as (_ & _ & _ & Hinactive).
  destruct (X19_verifyAuth_refuses jwtVerify0 identity0 ∅) as (Habsent & _).
  split; [| apply Habsent; reflexivity].
  apply (Hinactive "Bearer token-of-former-user"%string "former-user"%string);
    [reflexivity | reflexivity |].
  right. exists formerEmployeeAccount. split; reflexivity.
Defined.

(** ** The authorisation middleware *)

Lemma hasRole_true (u : AuthUser) (role : string) :
  hasRole (Some u) role = true <-> role ∈ roles u \/ "SUPER_ADMIN"%string ∈ roles u.
Proof. cbn [hasRole]. now rewrite orb_true_iff, !includes_true. Qed.

Lemma existsb_elem_of {A : Type} (f : A -> bool) (l : list A) :
  existsb f l = true <-> exists x, x ∈ l /\ f x = true.
Proof.
  rewrite existsb_exists. split; intros (x & Hx & Hf); exists x; split; auto;
    now apply list_elem_of_In.
Qed.

(** X20: the middleware lets a request through exactly when verifyAuth
    yields a user, the list of required roles is absent or names a role the
    user has (or the user has SUPER_ADMIN), and the list of required
    permissions is absent or names a permission the user holds (or the user
    holds "*"); the request passed on is the incoming one with the three
    x-user headers set from that user. *)
Theorem X20_middleware_passes_iff (jwtVerify : string -> option string)
    (requiredPermissions requiredRoles : option (list string)) (store : identity)
    (headers next : Headers) :
  createAuthMiddleware jwtVerify requiredPermissions requiredRoles store headers
  = mw_next next
  <-> exists u,
        verifyAuth jwtVerify store headers = Some u
        /\ (forall rs, requiredRoles = Some rs ->
              exists role, role ∈ rs
                           /\ (role ∈ roles u \/ "SUPER_ADMIN"%string ∈ roles u))
        /\ (forall ps, requiredPermissions = Some ps ->
              exists permission, permission ∈ ps
                                 /\ (permission ∈ permissions u
                                     \/ "*"%string ∈ permissions u))
        /\ next = <["x-user-company"%string := default ""%string (companyId u)]>
                    (<["x-user-email"%string := user_email u]>
                       (<["x-user-id"%string := user_id u]> headers)).
Proof.
  unfold createAuthMiddleware.
  destruct (verifyAuth jwtVerify store headers) as [u |];
    [| split; [discriminate | now intros (u & [=] & _)]].
  assert (Hroles : (match requiredRoles with
                    | Some rs => negb (existsb (λ role, hasRole (Some u) role) rs)
                    | None => false
                    end = false)
                   <-> forall rs, requiredRoles = Some rs ->
                         exists role, role ∈ rs
                                      /\ (role ∈ roles u \/ "SUPER_ADMIN"%string ∈ roles u)).
  { destruct requiredRoles as [rs |]; [| split; [intros _ rs [=] | reflexivity]].
    rewrite negb_false_iff, existsb_elem_of. split.
    - intros (role & Hin & Hr) rs' [= <-]. exists role. split; [exact Hin |].
      now apply hasRole_true.
    - intros H. destruct (H rs eq_refl) as (role & Hin & Hr). exists role.
      split; [exact Hin | now apply hasRole_true]. }
  assert (Hperms : (match requiredPermissions with
                    | Some ps =>
                        negb (existsb (λ permission, hasPermission (Some u) permission) ps)
                    | None => false
                    end = false)
                   <-> forall ps, requiredPermissions = Some ps ->
                         exists permission,
                           permission ∈ ps
                           /\ (permission ∈ permissions u \/ "*"%string ∈ permissions u)).
  { destruct requiredPermissions as [ps |]; [| split; [intros _ ps [=] | reflexivity]].
    rewrite negb_false_iff, existsb_elem_of. split.
    - intros (permission & Hin & Hp) ps' [= <-]. exists permission. split; [exact Hin |].
      cbn [hasPermission] in Hp. now rewrite orb_true_iff, !includes_true in Hp.
    - intros H. destruct (H ps eq_refl) as (permission & Hin & Hp). exists permission.
      split; [exact Hin |]. cbn [hasPermission]. now rewrite orb_true_iff, !includes_true. }
  destruct (match requiredRoles with Some _ => _ | None => _ end) eqn:Er.
  { split; [discriminate |]. intros (u' & [= <-] & Hr & _).
    apply Hroles in Hr. congruence. }
  destruct (match requiredPermissions with Some _ => _ | None => _ end) eqn:Ep.
  { split; [discriminate |]. intros (u' & [= <-] & _ & Hp & _).
    apply Hperms in Hp. congruence. }
  split.
  - intros [= <-]. exists u. split; [reflexivity |].
    split; [now apply Hroles |]. split; [now apply Hperms | reflexivity].
  - intros (u' & [= <-] & _ & _ & ->). reflexivity.
Qed.

(** X21: the edge cases of the middleware: without a user the answer is
    401; an empty list of required roles, or of required permissions, lets
    nobody through (403), while an absent list lets every user through; and
    the roles are checked first, so a user short of both gets the role
    message. *)
Theorem X21_middleware_edges (jwtVerify : string -> option string)
    (requiredPermissions requiredRoles : option (list string)) (store : identity)
    (headers : Headers) :
  (verifyAuth jwtVerify store headers = None ->
   createAuthMiddleware jwtVerify requiredPermissions requiredRoles store headers
   = mw_json "Unauthorized" 401)
  /\ (forall u, verifyAuth jwtVerify store headers = Some u ->
        (requiredRoles = Some [] ->
         createAuthMiddleware jwtVerify requiredPermissions requiredRoles store headers
         = mw_json "Insufficient role permissions" 403)
        /\ (requiredRoles = None -> requiredPermissions = Some [] ->
            createAuthMiddleware jwtVerify requiredPermissions requiredRoles store headers
            = mw_json "Insufficient permissions" 403)
        /\ (requiredRoles = None -> requiredPermissions = None ->
            exists next,
              createAuthMiddleware jwtVerify requiredPermissions requiredRoles store headers
              = mw_next next)
        /\ (forall rs, requiredRoles = Some rs ->
              (forall role, role ∈ rs -> hasRole (Some u) role = false) ->
              createAuthMiddleware jwtVerify requiredPermissions requiredRoles store headers
              = mw_json "Insufficient role permissions" 403)).
Proof.
  unfold createAuthMiddleware. split; [now intros -> |].
  intros u ->. split; [now intros -> |]. split; [now intros -> -> |].
  split; [intros -> ->; eauto |].
  intros rs -> Hnone.
  assert (E : existsb (λ role, hasRole (Some u) role) rs = false).
  { apply not_true_is_false. rewrite existsb_elem_of. intros (role & Hin & Hr).
    rewrite (Hnone role Hin) in Hr. discriminate. }
  now rewrite E.
Qed.

Lemma X21_middleware_edges_witness :
  verifyAuth jwtVerify0 identity0 {[ "authorization"%string := "Bearer token-of-admin-user"%string ]}
  = Some admin
  /\ createAuthMiddleware jwtVerify0 None (Some []) identity0
       {[ "authorization"%string := "Bearer token-of-admin-user"%string ]}
     = mw_json "Insufficient role permissions" 403
  /\ createAuthMiddleware jwtVerify0 None (Some ["ADMIN"%string]) identity0
       {[ "authorization"%string := "Bearer token-of-admin-user"%string ]}
     = mw_json "Insufficient role permissions" 403
  /\ createAuthMiddleware jwtVerify0 None None identity0 ∅ = mw_json "Unauthorized" 401.
Proof.
  assert (Hv : verifyAuth jwtVerify0 identity0
                 {[ "authorization"%string := "Bearer token-of-admin-user"%string ]} = Some admin)
    by (vm_compute; reflexivity).
  split; [exact Hv |].
  destruct (X21_middleware_edges jwtVerify0 None (Some []) identity0
              {[ "authorization"%string := "Bearer token-of-admin-user"%string ]}) as (_ & H1).
  destruct (X21_middleware_edges jwtVerify0 None (Some ["ADMIN"%string]) identity0
              {[ "authorization"%string := "Bearer token-of-admin-user"%string ]}) as (_ & H2).
  destruct (X21_middleware_edges jwtVerify0 None None identity0 ∅) as (H3 & _).
  destruct (H1 admin Hv) as (He & _). destruct (H2 admin Hv) as (_ & _ & _ & Hr).
  split; [apply He; reflexivity |]. split; [| apply H3; reflexivity].
  apply (Hr ["ADMIN"%string] eq_refl). intros role Hin.
  apply list_elem_of_singleton in Hin as ->. reflexivity.
Defined.

(** X22: a request the middleware passes on carries the authenticated
    user's id, email and company in x-user-id, x-user-email and
    x-user-company, whatever values the client sent under those names, and
    keeps every other header. *)
Theorem X22_middleware_sets_identity (jwtVerify : string -> option string)
    (requiredPermissions requiredRoles : option (list string)) (store : identity)
    (headers next : Headers) :
  createAuthMiddleware jwtVerify requiredPermissions requiredRoles store headers
  = mw_next next ->
  exists u,
    verifyAuth jwtVerify store headers = Some u
    /\ next !! "x-user-id"%string = Some (user_id u)
    /\ next !! "x-user-email"%string = Some (user_email u)
    /\ next !! "x-user-company"%string = Some (default ""%string (companyId u))
    /\ (forall name, name <> "x-user-id"%string -> name <> "x-user-email"%string ->
                     name <> "x-user-company"%string -> next !! name = headers !! name).
Proof.
  unfold createAuthMiddleware.
  destruct (verifyAuth jwtVerify store headers) as [u |]; [| discriminate].
  destruct (match requiredRoles with Some _ => _ | None => _ end); [discriminate |].
  destruct (match requiredPermissions with Some _ => _ | None => _ end); [discriminate |].
  intros [= <-]. exists u. split; [reflexivity |].
  split; [now rewrite lookup_insert_ne, lookup_insert_ne, lookup_insert_eq |].
  split; [now rewrite lookup_insert_ne, lookup_insert_eq |].
  split; [now rewrite lookup_insert_eq |].
  intros name H1 H2 H3. now rewrite !lookup_insert_ne.
Qed.

Lemma X22_middleware_sets_identity_witness :
  createAuthMiddleware jwtVerify0 (Some ["employees.read"%string]) None identity0
    {[ "authorization"%string := "Bearer token-of-admin-user"%string;
       "x-user-id"%string := "someone-else"%string ]}
  = mw_next
      (<["x-user-company"%string := "default-company"%string]>
         (<["x-user-email"%string := "admin@hrm.com"%string]>
            (<["x-user-id"%string := "admin-user"%string]>
               {[ "authorization"%string := "Bearer token-of-admin-user"%string;
                  "x-user-id"%string := "someone-else"%string ]})))
  /\ (<["x-user-company"%string := "default-company"%string]>
        (<["x-user-email"%string := "admin@hrm.com"%string]>
           (<["x-user-id"%string := "admin-user"%string]>
              ({[ "authorization"%string := "Bearer token-of-admin-user"%string;
                  "x-user-id"%string := "someone-else"%string ]} : Headers))))
     !! "x-user-id"%string = Some "admin-user"%string.
Proof.
  assert (Hm : createAuthMiddleware jwtVerify0 (Some ["employees.read"%string]) None identity0
                 {[ "authorization"%string := "Bearer token-of-admin-user"%string;
                    "x-user-id"%string := "someone-else"%string ]}
               = mw_next
                   (<["x-user-company"%string := "default-company"%string]>
                      (<["x-user-email"%string := "admin@hrm.com"%string]>
                         (<["x-user-id"%string := "admin-user"%string]>
                            {[ "authorization"%string := "Bearer token-of-admin-user"%string;
                               "x-user-id"%string := "someone-else"%string ]}))))
    by (vm_compute; reflexivity).
  split; [exact Hm |].
  destruct (X22_middleware_sets_identity _ _ _ _ _ _ Hm) as (u & Hv & Hid & _).
  rewrite Hid. f_equal.
  assert (Hv' : verifyAuth jwtVerify0 identity0
                  {[ "authorization"%string := "Bearer token-of-admin-user"%string;
                     "x-user-id"%string := "someone-else"%string ]} = Some admin)
    by (vm_compute; reflexivity).
  rewrite Hv' in Hv. now injection Hv as <-.
Defined.

Lemma X20_middleware_passes_iff_witness :
  createAuthMiddleware jwtVerify0 (Some ["employees.read"%string]) None identity0
    {[ "authorization"%string := "Bearer token-of-admin-user"%string ]}
  = mw_next
      (<["x-user-company"%string := default ""%string (companyId admin)]>
         (<["x-user-email"%string := user_email admin]>
            (<["x-user-id"%string := user_id admin]>
               {[ "authorization"%string := "Bearer token-of-admin-user"%string ]}))).
Proof.
  apply X20_middleware_passes_iff. exists admin.
  split; [vm_compute; reflexivity |]. split; [intros rs [=] |].
  split; [| reflexivity].
  intros ps [= <-]. exists "employees.read"%string.
  split; [apply list_elem_of_here | right; apply list_elem_of_here].
Defined.

(** ** The login handler *)

Lemma findUserByEmail_Some (email : string) (store : identity) (userId : string)
    (user : Account) :
  findUserByEmail email store = Some (userId, user) ->
  accounts store !! userId = Some user /\ acc_email user = email.
Proof.
  unfold findUserByEmail. intros H. apply find_some in H as [Hin Hb].
  apply list_elem_of_In, elem_of_map_to_list in Hin.
  apply bool_decide_eq_true in Hb. now split.
Qed.

Lemma findUserByEmail_None (email : string) (store : identity) :
  findUserByEmail email store = None ->
  forall userId user, accounts store !! userId = Some user -> acc_email user <> email.
Proof.
  unfold findUserByEmail. intros H userId user Hu Heq.
  apply elem_of_map_to_list, list_elem_of_In in Hu.
  pose proof (find_none _ _ H _ Hu) as Hb. cbn in Hb.
  now apply bool_decide_eq_false in Hb.
Qed.

(** X23: a login that is refused changes nothing: no session is created and
    no lastLogin is written.  A missing email or password is answered with
    400; an unknown email, an inactive account and a wrong password are all
    answered with the same 401 "Invalid credentials". *)
Theorem X23_login_refusals (bcryptCompare : string -> string -> bool)
    (jwtSign : JwtPayload -> string -> string) (now now' : Z) (headers : Headers)
    (email password : option string) (store : identity) :
  (forall error status store',
     Login.POST bcryptCompare jwtSign now now' headers email password store
     = (login_error error status, store') ->
     store' = store
     /\ (status = 400 /\ error = "Email and password are required"%string
         \/ status = 401 /\ error = "Invalid credentials"%string))
  /\ (truthy email = false \/ truthy password = false ->
      Login.POST bcryptCompare jwtSign now now' headers email password store
      = (login_error "Email and password are required" 400, store))
  /\ (truthy email = true -> truthy password = true ->
      (forall userId user, accounts store !! userId = Some user ->
         Some (acc_email user) = email ->
         acc_isActive user = false
         \/ bcryptCompare (default ""%string password) (acc_password user) = false) ->
      Login.POST bcryptCompare jwtSign now now' headers email password store
      = (login_error "Invalid credentials" 401, store)).
Proof.
  unfold Login.POST. split; [| split].
  - intros error status store'.
    destruct (negb (truthy email) || negb (truthy password));
      [intros [= <- <- <-]; split; [reflexivity | now left] |].
    destruct (findUserByEmail _ store) as [[userId user] |];
      [| intros [= <- <- <-]; split; [reflexivity | now right]].
    destruct (negb (acc_isActive user));
      [intros [= <- <- <-]; split; [reflexivity | now right] |].
    destruct (negb (bcryptCompare _ _));
      [intros [= <- <- <-]; split; [reflexivity | now right] | discriminate].
  - intros [-> | ->]; [reflexivity | now rewrite orb_true_r].
  - intros Hte Htp Hbad. rewrite Hte, Htp. cbn [negb orb].
    destruct (findUserByEmail _ store) as [[userId user] |] eqn:Hf; [| reflexivity].
    apply findUserByEmail_Some in Hf as [Hu Hemail].
    assert (Hsome : Some (acc_email user) = email).
    { rewrite Hemail. destruct email; [reflexivity | discriminate Hte]. }
    destruct (Hbad userId user Hu Hsome) as [-> | ->]; [reflexivity |].
    now destruct (negb (acc_isActive user)).
Qed.

Lemma X23_login_refusals_witness :
  Login.POST bcryptCompare0 jwtSign0 0 0 ∅ (Some "left@company.com"%string)
    (Some "old-password"%string) identity0
  = (login_error "Invalid credentials" 401, identity0)
  /\ Login.POST bcryptCompare0 jwtSign0 0 0 ∅ (Some "nobody@company.com"%string)
       (Some "x"%string) identity0
     = (login_error "Invalid credentials" 401, identity0)
  /\ Login.POST bcryptCompare0 jwtSign0 0 0 ∅ (Some "admin@hrm.com"%string) None identity0
     = (login_error "Email and password are required" 400, identity0).
Proof.
  destruct (X23_login_refusals bcryptCompare0 jwtSign0 0 0 ∅ (Some "left@company.com"%string)
              (Some "old-password"%string) identity0) as (Hany & _ & _).
  destruct (X23_login_refusals bcryptCompare0 jwtSign0 0 0 ∅ (Some "admin@hrm.com"%string)
              None identity0) as (_ & Hmissing & _).
  split; [vm_compute; reflexivity |]. split; [vm_compute; reflexivity |].
  apply Hmissing. right. reflexivity.
Defined.

(** X24: a successful login was made with the email of an active account
    and a password that bcrypt accepts for its hash; it stamps lastLogin on
    that account alone, appends one session that holds the returned token
    and refresh token and expires 24 hours after the clock reading, and
    reports the roles' names and the permissions of the roles' arrays. *)
Theorem X24_login_success (bcryptCompare : string -> string -> bool)
    (jwtSign : JwtPayload -> string -> string) (now now' : Z) (headers : Headers)
    (email password : option string) (store : identity)
    (message token refreshToken : string) (lu : LoginUser) (store' : identity) :
  Login.POST bcryptCompare jwtSign now now' headers email password store
  = (login_ok message token refreshToken lu, store') ->
  exists user session,
    accounts store !! lu_id lu = Some user
    /\ Some (acc_email user) = email
    /\ acc_isActive user = true
    /\ bcryptCompare (default ""%string password) (acc_password user) = true
    /\ token = jwtSign (access_payload (lu_id lu) (acc_email user) (acc_companyId user)) "24h"
    /\ accounts store' !! lu_id lu = Some (set_lastLogin now user)
    /\ (forall other, other <> lu_id lu -> accounts store' !! other = accounts store !! other)
    /\ userSessions store' = userSessions store ++ [session]
    /\ us_userId session = lu_id lu /\ us_token session = token
    /\ us_refreshToken session = refreshToken
    /\ us_expiresAt session = now' + 86400000
    /\ lu_roles lu = role_name <$> acc_roles user
    /\ lu_permissions lu = extractPermissions (acc_roles user).
Proof.
  unfold Login.POST.
  destruct (truthy email) eqn:Hte; [| discriminate].
  destruct (truthy password); [| discriminate]. cbn [negb orb].
  destruct (findUserByEmail _ store) as [[userId user] |] eqn:Hf; [| discriminate].
  destruct (acc_isActive user) eqn:Hact; [| discriminate]. cbn [negb].
  destruct (bcryptCompare _ _) eqn:Hpw; [| discriminate]. cbn [negb].
  intros [= <- <- <- <- <-].
  apply findUserByEmail_Some in Hf as [Hu Hemail].
  exists user. eexists. cbn [lu_id lu_roles lu_permissions accounts userSessions].
  split; [exact Hu |]. split.
  { rewrite Hemail. destruct email; [reflexivity | discriminate Hte]. }
  split; [exact Hact |]. split; [exact Hpw |]. split; [reflexivity |].
  split; [apply lookup_insert_eq |].
  split; [intros other Ho; now apply lookup_insert_ne |].
  split; [reflexivity |]. cbn. repeat split.
Qed.

Lemma X24_login_success_witness :
  exists lu store',
    Login.POST bcryptCompare0 jwtSign0 1000 1001 ∅ (Some "admin@hrm.com"%string)
      (Some "admin-password"%string) identity0
    = (login_ok "Login successful" "token-of-admin-user" "refresh-of-admin-user" lu, store')
    /\ lu_permissions lu = ["*"%string]
    /\ exists session,
         userSessions store' = [session] /\ us_expiresAt session = 1001 + 86400000.
Proof.
  do 2 eexists. split; [vm_compute; reflexivity |].
  edestruct (X24_login_success bcryptCompare0 jwtSign0 1000 1001 ∅
               (Some "admin@hrm.com"%string) (Some "admin-password"%string) identity0)
    as (user & session & Hu & _ & _ & _ & _ & _ & _ & Hs & _ & _ & _ & He & _ & Hp);
    [vm_compute; reflexivity |].
  cbn [lu_id] in Hu. vm_compute in Hu. injection Hu as <-.
  split; [exact Hp |]. exists session. split; [exact Hs | exact He].
Defined.

(** X25: login and verifyAuth fit together.  Provided the verifier accepts
    what the signer signs (for 24 hours) and the token is not empty, the
    token of a successful login, sent as "Bearer <token>", authenticates
    against the store the login left behind, as the same user: same id,
    email, name, roles and permissions as the login response reported. *)
Theorem X25_login_then_verifyAuth (bcryptCompare : string -> string -> bool)
    (jwtSign : JwtPayload -> string -> string) (jwtVerify : string -> option string)
    (now now' : Z) (headers headers' : Headers) (email password : option string)
    (store : identity) (message token refreshToken : string) (lu : LoginUser)
    (store' : identity) :
  (forall userId email companyId,
     jwtVerify (jwtSign (access_payload userId email companyId) "24h") = Some userId) ->
  Login.POST bcryptCompare jwtSign now now' headers email password store
  = (login_ok message token refreshToken lu, store') ->
  token <> ""%string ->
  headers' !! "authorization"%string = Some ("Bearer " +:+ token) ->
  exists u,
    verifyAuth jwtVerify store' headers' = Some u
    /\ user_id u = lu_id lu /\ user_email u = lu_email lu /\ user_name u = lu_name lu
    /\ roles u = lu_roles lu /\ permissions u = lu_permissions lu.
Proof.
  intros Hjwt HP Hne Hheader. revert HP. unfold Login.POST.
  destruct (negb (truthy email) || negb (truthy password)); [discriminate |].
  destruct (findUserByEmail _ store) as [[userId user] |] eqn:Hf; [| discriminate].
  destruct (acc_isActive user) eqn:Hact; [| discriminate]. cbn [negb].
  destruct (negb (bcryptCompare _ _)); [discriminate |].
  intros [= _ Htok _ <- <-].
  exists {| user_id := userId; user_email := acc_email user; user_name := acc_name user;
            companyId := orElse (acc_companyId user) None;
            roles := role_name <$> acc_roles user;
            permissions := extractPermissions (acc_roles user) |}.
  split.
  - apply verifyAuth_Some. exists ("Bearer " +:+ token), (set_lastLogin now user).
    rewrite replaceFirst_prefix. change ("" +:+ token) with token.
    split; [exact Hheader |]. split; [exact Hne |].
    split; [rewrite <- Htok; cbn [user_id]; apply Hjwt |].
    split; [cbn [accounts user_id]; apply lookup_insert_eq |].
    split; [exact Hact | reflexivity].
  - cbn. repeat split.
Qed.

Lemma X25_login_then_verifyAuth_witness :
  (forall userId email companyId,
     jwtVerify0 (jwtSign0 (access_payload userId email companyId) "24h") = Some userId)
  /\ "token-of-admin-user"%string <> ""%string
  /\ exists lu store' u,
       Login.POST bcryptCompare0 jwtSign0 1000 1001 ∅ (Some "admin@hrm.com"%string)
         (Some "admin-password"%string) identity0
       = (login_ok "Login successful" "token-of-admin-user" "refresh-of-admin-user" lu,
          store')
       /\ verifyAuth jwtVerify0 store'
            {[ "authorization"%string := "Bearer token-of-admin-user"%string ]} = Some u
       /\ permissions u = lu_permissions lu.
Proof.
  assert (Hjwt : forall userId email companyId,
             jwtVerify0 (jwtSign0 (access_payload userId email companyId) "24h")
             = Some userId)
    by (intros userId email companyId; apply (stripPrefix_app "token-of-" userId)).
  split; [exact Hjwt |]. split; [discriminate |].
  do 2 eexists.
  assert (HP : forall r, r = Login.POST bcryptCompare0 jwtSign0 1000 1001 ∅
                             (Some "admin@hrm.com"%string) (Some "admin-password"%string)
                             identity0 ->
                         Login.POST bcryptCompare0 jwtSign0 1000 1001 ∅
                           (Some "admin@hrm.com"%string) (Some "admin-password"%string)
                           identity0 = r) by (intros r ->; reflexivity).
  specialize (HP _ ltac:(vm_compute; reflexivity)).
  destruct (X25_login_then_verifyAuth bcryptCompare0 jwtSign0 jwtVerify0 1000 1001 ∅
              {[ "authorization"%string := "Bearer token-of-admin-user"%string ]}
              _ _ _ _ _ _ _ _ Hjwt HP ltac:(discriminate) eq_refl)
    as (u & Hv & _ & _ & _ & _ & Hp).
  exists u. split; [exact HP |]. split; [exact Hv | exact Hp].
Defined.

(** ** The listing handlers *)

Lemma elem_of_skipTake {A : Type} (skip take_ : Z) (rows : list A) (x : A) :
  x ∈ skipTake skip take_ rows -> x ∈ rows.
Proof.
  unfold skipTake. intros H.
  apply subseteq_take in H. now apply subseteq_drop in H.
Qed.

Lemma elem_of_filter_rows {A : Type} `{Countable K} (f : A -> bool) (m : gmap K A) (x : A) :
  x ∈ List.filter f (map_to_list m).*2 <-> (exists k, m !! k = Some x) /\ f x = true.
Proof.
  rewrite list_elem_of_In, filter_In, <- list_elem_of_In, list_elem_of_fmap.
  split.
  - intros [([k y] & -> & Hin) Hf]. apply elem_of_map_to_list in Hin. eauto.
  - intros [[k Hk] Hf]. split; [| exact Hf]. exists (k, x). split; [reflexivity |].
    now apply elem_of_map_to_list.
Qed.

Lemma timesheetsWhere_true (u : AuthUser) (q : TimesheetsQuery) (d : database)
    (row : Timesheet) :
  timesheetsWhere u q d row = true ->
  (forall c, companyId u = Some c -> c <> ""%string ->
     exists employee, employees d !! ts_employeeId row = Some employee
                      /\ e_companyId employee = Some c)
  /\ (forall e, q_employeeId q = Some e -> e <> ""%string -> ts_employeeId row = e)
  /\ (forall st, q_status q = Some st -> ts_status row = st)
  /\ (forall s e, q_startDate q = Some s -> q_endDate q = Some e -> s <= ts_date row <= e).
Proof.
  unfold timesheetsWhere. rewrite !andb_true_iff. intros [[[Hc He] Hs] Hd].
  repeat split.
  - intros c Hu Hne. rewrite Hu in Hc. cbn [truthy] in Hc.
    apply String.eqb_neq in Hne. rewrite Hne in Hc. cbn [negb] in Hc.
    apply bool_decide_eq_true in Hc.
    destruct (employees d !! ts_employeeId row) as [employee |]; [| discriminate].
    injection Hc as Hc. now exists employee.
  - intros e Hq Hne. rewrite Hq in He. cbn [truthy] in He.
    apply String.eqb_neq in Hne. rewrite Hne in He. cbn [negb] in He.
    apply bool_decide_eq_true in He. now injection He.
  - intros st Hq. rewrite Hq in Hs. now apply bool_decide_eq_true in Hs.
  - rewrite H, H0 in Hd. apply andb_true_iff in Hd as [Hd _]. now apply Z.leb_le.
  - rewrite H, H0 in Hd. apply andb_true_iff in Hd as [_ Hd]. now apply Z.leb_le.
Qed.

(** X26: whatever order the store returns, every timesheet the listing
    hands out is a ledger row that passes the filters: it belongs to an
    employee of the caller's company when the caller is bound to one, to the
    queried employee and status when given, and to the date range when both
    bounds are given; the page holds at most [limit] rows, and only a caller
    with "timesheets.read" (or "*") gets a list at all. *)
Theorem X26_timesheet_listing_scoped (orderByDateDesc : list Timesheet -> list Timesheet)
    (user : option AuthUser) (q : TimesheetsQuery) (d : database) (rows : list Timesheet)
    (pagination : Pagination) :
  (forall l, orderByDateDesc l ≡ₚ l) ->
  TimesheetsList.GET orderByDateDesc user q d = Some (list_ok rows pagination) ->
  exists u,
    user = Some u /\ hasPermission user "timesheets.read" = true
    /\ (Z.of_nat (length rows) <= pg_limit pagination)
    /\ forall row, row ∈ rows ->
         (exists key, timesheets d !! key = Some row)
         /\ (forall c, companyId u = Some c -> c <> ""%string ->
               exists employee, employees d !! ts_employeeId row = Some employee
                                /\ e_companyId employee = Some c)
         /\ (forall e, q_employeeId q = Some e -> e <> ""%string -> ts_employeeId row = e)
         /\ (forall st, q_status q = Some st -> ts_status row = st)
         /\ (forall s e, q_startDate q = Some s -> q_endDate q = Some e ->
                         s <= ts_date row <= e).
Proof.
  intros Hperm. unfold TimesheetsList.GET.
  destruct user as [u |]; [| discriminate].
  destruct (hasPermission (Some u) "timesheets.read") eqn:Hp; [| discriminate].
  cbn [negb]. destruct ((_ <? 1) || (_ <? 1)) eqn:Hb; [discriminate |].
  intros [= <- <-]. exists u. split; [reflexivity |]. split; [reflexivity |].
  apply orb_false_iff in Hb as [_ Hl]. apply Z.ltb_ge in Hl.
  cbn [pg_limit]. split.
  - unfold skipTake. rewrite length_take. lia.
  - intros row Hrow. apply elem_of_skipTake in Hrow.
    unfold TimesheetsList.matching in Hrow. rewrite Hperm in Hrow.
    unfold TimesheetsList.selected in Hrow.
    apply elem_of_filter_rows in Hrow as [Hkey Hw].
    split; [exact Hkey |]. now apply timesheetsWhere_true.
Qed.

Lemma insertByDate_perm (row : Timesheet) (rows : list Timesheet) :
  insertByDate row rows ≡ₚ row :: rows.
Proof.
  induction rows as [| x rest IH]; cbn [insertByDate]; [reflexivity |].
  destruct (ts_date x <=? ts_date row); [reflexivity |].
  rewrite IH. apply Permutation_swap.
Qed.

Lemma sortByDateDesc_perm (rows : list Timesheet) : sortByDateDesc rows ≡ₚ rows.
Proof.
  unfold sortByDateDesc. induction rows as [| x rest IH]; cbn [foldr]; [reflexivity |].
  now rewrite insertByDate_perm, IH.
Qed.

Lemma X26_timesheet_listing_scoped_witness :
  (forall l, sortByDateDesc l ≡ₚ l)
  /\ exists rows pagination,
       TimesheetsList.GET sortByDateDesc (Some admin) query0 db3
       = Some (list_ok rows pagination)
       /\ ts_date <$> rows = [day0 + 40 * MS_PER_DAY; day0 + 2 * MS_PER_DAY;
                              day0 + MS_PER_DAY]
       /\ pg_total pagination = 4 /\ pg_pages pagination = 2
       /\ Z.of_nat (length rows) <= pg_limit pagination.
Proof.
  split; [exact sortByDateDesc_perm |].
  do 2 eexists. split; [vm_compute; reflexivity |].
  split; [reflexivity |]. split; [reflexivity |]. split; [reflexivity |].
  edestruct (X26_timesheet_listing_scoped sortByDateDesc (Some admin) query0 db3)
    as (u & _ & _ & Hlen & _);
    [exact sortByDateDesc_perm | vm_compute; reflexivity | exact Hlen].
Defined.

(** X27: the date range filters only when both bounds are given: a query
    with a startDate alone, or an endDate alone, is answered exactly as the
    same query without any date. *)
Theorem X27_lone_date_bound_ignored (orderByDateDesc : list Timesheet -> list Timesheet)
    (user : option AuthUser) (q : TimesheetsQuery) (d : database) :
  q_startDate q = None \/ q_endDate q = None ->
  TimesheetsList.GET orderByDateDesc user q d
  = TimesheetsList.GET orderByDateDesc user (withoutDates q) d.
Proof.
  intros Hlone.
  assert (Hw : forall u row, timesheetsWhere u q d row
                             = timesheetsWhere u (withoutDates q) d row).
  { intros u row. unfold timesheetsWhere. cbn [withoutDates q_employeeId q_status
      q_startDate q_endDate]. f_equal.
    destruct Hlone as [-> | ->]; [reflexivity | now destruct (q_startDate q)]. }
  assert (Hsel : forall u, TimesheetsList.selected u q d
                           = TimesheetsList.selected u (withoutDates q) d).
  { intros u. unfold TimesheetsList.selected.
    induction ((map_to_list (timesheets d)).*2) as [| row l IH]; [reflexivity |].
    cbn [List.filter]. now rewrite Hw, IH. }
  unfold TimesheetsList.GET, TimesheetsList.matching.
  destruct user as [u |]; [| reflexivity]. now rewrite Hsel.
Qed.

Lemma X27_lone_date_bound_ignored_witness :
  q_endDate query0 = None
  /\ q_startDate query0 = Some (day0 + MS_PER_DAY)
  /\ TimesheetsList.GET sortByDateDesc (Some admin) query0 db3
     = TimesheetsList.GET sortByDateDesc (Some admin) (withoutDates query0) db3.
Proof.
  split; [reflexivity |]. split; [reflexivity |].
  apply X27_lone_date_bound_ignored. right. reflexivity.
Defined.

Lemma Math_ceil_div (t l : Z) :
  0 < l ->
  (Math_ceil (inject_Z t / inject_Z l) - 1) * l < t <= Math_ceil (inject_Z t / inject_Z l) * l.
Proof.
  intros Hl. unfold Math_ceil.
  set (x := (inject_Z t / inject_Z l)%Q).
  pose proof (Qle_ceiling x) as Hle. pose proof (Qceiling_lt x) as Hlt.
  assert (Hpos : (inject_Z 0 < inject_Z l)%Q) by (now rewrite <- Zlt_Qlt).
  change (inject_Z 0) with 0%Q in Hpos.
  assert (Hx : (x * inject_Z l == inject_Z t)%Q).
  { subst x. field. intros H0. rewrite H0 in Hpos. now apply Qlt_irrefl in Hpos. }
  split.
  - rewrite Zlt_Qlt, inject_Z_mult, <- Hx.
    apply Qmult_lt_compat_r; [exact Hpos | exact Hlt].
  - rewrite Zle_Qle, inject_Z_mult, <- Hx.
    apply Qmult_le_compat_r; [exact Hle | now apply Qlt_le_weak].
Qed.

Lemma chunks_concat {A : Type} (n k : nat) (l : list A) :
  (length l <= k * n)%nat ->
  concat (map (λ i, take n (drop (i * n) l)) (seq 0 k)) = l.
Proof.
  revert l. induction k as [| k IH]; intros l Hlen.
  - destruct l; [reflexivity | cbn in Hlen; lia].
  - cbn [seq map concat]. rewrite <- seq_shift, map_map.
    change (0 * n)%nat with 0%nat. cbn [drop].
    etransitivity; [| apply (take_drop n l)]. f_equal.
    etransitivity; [| apply (IH (drop n l)); rewrite length_drop; lia].
    f_equal. apply map_ext. intros i. rewrite drop_drop. reflexivity.
Qed.

(** X28: paging loses and repeats nothing.  For a limit of at least 1 the
    reported number of pages is the least that holds all selected rows, the
    pages 1..pages laid end to end are exactly the selected rows in the
    store's order, and any later page is empty. *)
Theorem X28_pages_cover (orderByDateDesc : list Timesheet -> list Timesheet)
    (u : AuthUser) (q : TimesheetsQuery) (d : database) :
  (forall l, orderByDateDesc l ≡ₚ l) ->
  hasPermission (Some u) "timesheets.read" = true ->
  1 <= default 10 (q_limit q) ->
  let limit := default 10 (q_limit q) in
  let total := Z.of_nat (length (TimesheetsList.selected u q d)) in
  let pages := Math_ceil (inject_Z total / inject_Z limit) in
  (pages - 1) * limit < total <= pages * limit
  /\ concat (map (λ i, responseRows
                         (TimesheetsList.GET orderByDateDesc (Some u)
                            (withPage (Z.of_nat i + 1) q) d))
               (seq 0 (Z.to_nat pages)))
     = TimesheetsList.matching orderByDateDesc u q d
  /\ (forall page, pages < page ->
        responseRows (TimesheetsList.GET orderByDateDesc (Some u) (withPage page q) d) = [])
  /\ (forall page, 1 <= page ->
        exists rows,
          TimesheetsList.GET orderByDateDesc (Some u) (withPage page q) d
          = Some (list_ok rows {| pg_page := page; pg_limit := limit; pg_total := total;
                                  pg_pages := pages |})).
Proof.
  intros Hperm Hp Hl limit total pages.
  pose proof (Math_ceil_div total limit ltac:(lia)) as Hceil. fold pages in Hceil.
  assert (Hlen : length (TimesheetsList.matching orderByDateDesc u q d)
                 = length (TimesheetsList.selected u q d))
    by (unfold TimesheetsList.matching; now rewrite Hperm).
  assert (Hget : forall page, 1 <= page ->
             TimesheetsList.GET orderByDateDesc (Some u) (withPage page q) d
             = Some (list_ok
                       (skipTake ((page - 1) * limit) limit
                          (TimesheetsList.matching orderByDateDesc u q d))
                       {| pg_page := page; pg_limit := limit; pg_total := total;
                          pg_pages := pages |})).
  { intros page Hpage. unfold TimesheetsList.GET. rewrite Hp. cbn [negb].
    change (default 1 (q_page (withPage page q))) with page.
    change (default 10 (q_limit (withPage page q))) with limit.
    change (TimesheetsList.selected u (withPage page q) d)
      with (TimesheetsList.selected u q d).
    change (TimesheetsList.matching orderByDateDesc u (withPage page q) d)
      with (TimesheetsList.matching orderByDateDesc u q d).
    assert (E : (page <? 1) || (limit <? 1) = false).
    { apply orb_false_iff. split; apply Z.ltb_ge; lia. }
    rewrite E. reflexivity. }
  assert (Hpages : 0 <= pages) by (subst total; nia).
  split; [exact Hceil |]. split; [| split].
  - etransitivity;
      [| apply (chunks_concat (Z.to_nat limit) (Z.to_nat pages)
                  (TimesheetsList.matching orderByDateDesc u q d))].
    + f_equal. apply map_ext_in. intros i _. rewrite Hget by lia. cbn [responseRows].
      unfold skipTake. do 2 f_equal.
      replace (Z.of_nat i + 1 - 1) with (Z.of_nat i) by lia.
      rewrite Z2Nat.inj_mul, Nat2Z.id by lia. reflexivity.
    + rewrite Hlen. apply Nat2Z.inj_le. rewrite Nat2Z.inj_mul, !Z2Nat.id by lia.
      fold total. lia.
  - intros page Hbig. rewrite Hget by lia. cbn [responseRows]. unfold skipTake.
    rewrite drop_ge; [now rewrite take_nil |].
    rewrite Hlen. apply Nat2Z.inj_le. rewrite Z2Nat.id by nia. fold total. nia.
  - intros page Hpage. rewrite Hget by exact Hpage. eauto.
Qed.

Lemma X28_pages_cover_witness :
  (forall l, sortByDateDesc l ≡ₚ l)
  /\ hasPermission (Some admin) "timesheets.read" = true
  /\ 1 <= default 10 (q_limit query0)
  /\ responseRows (TimesheetsList.GET sortByDateDesc (Some admin) (withPage 1 query0) db3)
     ++ responseRows (TimesheetsList.GET sortByDateDesc (Some admin) (withPage 2 query0) db3)
     = TimesheetsList.matching sortByDateDesc admin query0 db3
  /\ responseRows (TimesheetsList.GET sortByDateDesc (Some admin) (withPage 3 query0) db3)
     = [].
Proof.
  assert (Hp : hasPermission (Some admin) "timesheets.read" = true) by reflexivity.
  assert (Hl : 1 <= default 10 (q_limit query0)) by discriminate.
  destruct (X28_pages_cover sortByDateDesc admin query0 db3 sortByDateDesc_perm Hp Hl)
    as (_ & Hcat & Hlate & _).
  split; [exact sortByDateDesc_perm |]. split; [exact Hp |]. split; [exact Hl |].
  assert (Hpages : Math_ceil
                     (inject_Z (Z.of_nat (length (TimesheetsList.selected admin query0 db3)))
                      / inject_Z (default 10 (q_limit query0))) = 2)
    by (vm_compute; reflexivity).
  rewrite Hpages in Hcat, Hlate. split.
  - change (Z.to_nat 2) with 2%nat in Hcat. cbn [seq map concat] in Hcat.
    rewrite app_nil_r in Hcat. exact Hcat.
  - apply Hlate. reflexivity.
Defined.

(** X29: in the employee listing the companyId of the query string replaces
    the caller's own company in the filter.  With a companyId in the query
    every returned employee is of that company, and, without a search term,
    every employee of that company is selected, whichever company the
    caller is bound to; only without it are the results confined to the
    caller's company. *)
Theorem X29_employee_listing_company (containsInsensitive : string -> string -> bool)
    (orderByCreatedAtDesc : list Employee -> list Employee) (user : option AuthUser)
    (q : EmployeesQuery) (d : database) (rows : list Employee) (pagination : Pagination) :
  (forall l, orderByCreatedAtDesc l ≡ₚ l) ->
  EmployeesList.GET containsInsensitive orderByCreatedAtDesc user q d
  = Some (elist_ok rows pagination) ->
  exists u,
    user = Some u /\ hasPermission user "employees.read" = true
    /\ (forall e, e ∈ rows -> exists k, employees d !! k = Some e)
    /\ (forall c, eq_companyId q = Some c -> c <> ""%string ->
          (forall e, e ∈ rows -> e_companyId e = Some c)
          /\ (truthy (eq_search q) = false ->
              forall k e, employees d !! k = Some e -> e_companyId e = Some c ->
                e ∈ EmployeesList.matching containsInsensitive orderByCreatedAtDesc u q d))
    /\ (truthy (eq_companyId q) = false ->
        forall c, companyId u = Some c -> c <> ""%string ->
          forall e, e ∈ rows -> e_companyId e = Some c).
Proof.
  intros Hperm. unfold EmployeesList.GET.
  destruct user as [u |]; [| discriminate].
  destruct (hasPermission (Some u) "employees.read") eqn:Hp; [| discriminate].
  cbn [negb]. destruct ((_ <? 1) || (_ <? 1)); [discriminate |].
  intros [= <- _]. exists u. split; [reflexivity |]. split; [reflexivity |].
  assert (Hrows : forall e,
             e ∈ skipTake ((default 1 (eq_page q) - 1) * default 10 (eq_limit q))
                   (default 10 (eq_limit q))
                   (EmployeesList.matching containsInsensitive orderByCreatedAtDesc u q d) ->
             (exists k, employees d !! k = Some e)
             /\ EmployeesList.employeesWhere containsInsensitive u q e = true).
  { intros e He. apply elem_of_skipTake in He. unfold EmployeesList.matching in He.
    rewrite Hperm in He. now apply elem_of_filter_rows in He. }
  split; [intros e He; now apply Hrows in He |]. split.
  - intros c Hq Hne.
    assert (Hf : EmployeesList.companyFilter u q = Some c).
    { unfold EmployeesList.companyFilter. rewrite Hq. cbn [truthy].
      apply String.eqb_neq in Hne. now rewrite Hne. }
    split.
    + intros e He. apply Hrows in He as [_ Hw].
      unfold EmployeesList.employeesWhere in Hw. rewrite Hf in Hw.
      apply andb_true_iff in Hw as [Hw _]. now apply bool_decide_eq_true in Hw.
    + intros Hs k e Hk Hc. unfold EmployeesList.matching. rewrite Hperm.
      apply elem_of_filter_rows. split; [eauto |].
      unfold EmployeesList.employeesWhere. rewrite Hf, Hs.
      rewrite bool_decide_eq_true_2 by exact Hc. reflexivity.
  - intros Hnone c Hu Hne e He. apply Hrows in He as [_ Hw].
    unfold EmployeesList.employeesWhere, EmployeesList.companyFilter in Hw.
    rewrite Hnone, Hu in Hw. cbn [truthy] in Hw.
    apply String.eqb_neq in Hne. rewrite Hne in Hw. cbn [negb] in Hw.
    apply andb_true_iff in Hw as [Hw _]. now apply bool_decide_eq_true in Hw.
Qed.

Lemma X29_employee_listing_company_witness :
  (forall l : list Employee, l ≡ₚ l)
  /\ companyId outsider = Some "other-company"%string
  /\ eq_companyId employeesQuery0 = Some "default-company"%string
  /\ EmployeesList.GET (λ _ _, false) (λ l, l) (Some outsider) employeesQuery0 db0
     = Some (elist_ok [employee0]
               {| pg_page := 1; pg_limit := 10; pg_total := 1; pg_pages := 1 |})
  /\ e_companyId employee0 = Some "default-company"%string.
Proof.
  assert (HG : EmployeesList.GET (λ _ _, false) (λ l, l) (Some outsider) employeesQuery0 db0
               = Some (elist_ok [employee0]
                         {| pg_page := 1; pg_limit := 10; pg_total := 1; pg_pages := 1 |}))
    by (vm_compute; reflexivity).
  split; [reflexivity |]. split; [reflexivity |]. split; [reflexivity |].
  split; [exact HG |].
  destruct (X29_employee_listing_company (λ _ _, false) (λ l, l) _ _ _ _ _
              (λ l, reflexivity l) HG) as (u & _ & _ & _ & Hq & _).
  destruct (Hq "default-company"%string eq_refl ltac:(discriminate)) as [Hall _].
  apply Hall. apply list_elem_of_here.
Defined.
